(** * Verification of the NFC voting pipeline

    The development follows the Python sources module by module:
    [Config] (config.py), [Db] (database.py), [Token] (the signed
    capability token of app.py / nfc_reader.py), [Nfc] (nfc_reader.py),
    [App] (the kiosk routes of app.py) and [Sheets] (sheets_sync.py).

    Conventions.
    - A clock reading is an integer number of seconds ([Z]).  SQLite
      timestamp texts ('YYYY-MM-DD HH:MM:SS', local time) are represented
      by the number of seconds they denote: the text order of such strings
      is the order of the instants.
    - A table is the list of its rows in insertion order.
    - A Python call either returns a value or raises: [outcome]. *)

From stdpp Require Import base option list gmap strings pretty.
From Stdlib Require Import ZArith String Ascii Lia Sorting.Sorted.

Local Open Scope string_scope.
Local Open Scope list_scope.
Local Open Scope Z_scope.

(** ** Python outcomes *)

Inductive outcome (E A : Type) : Type :=
| Return (a : A)
| Raise (e : E).
Arguments Return {E A} a.
Arguments Raise {E A} e.

(** A computation over a state [W] that returns or raises. *)
Definition Prog (W E A : Type) : Type := W → outcome E A * W.

Definition ret {W E A} (a : A) : Prog W E A := fun w => (Return a, w).

Definition bind {W E A B} (m : Prog W E A) (k : A → Prog W E B) : Prog W E B :=
  fun w =>
    match m w with
    | (Return a, w1) => k a w1
    | (Raise e, w1) => (Raise e, w1)
    end.

Notation "'do' x <- m ; k" := (bind m (fun x => k))
  (at level 10, x name, m at level 100, k at level 200).
Notation "m ;; k" := (bind m (fun _ => k))
  (at level 100, k at level 200, right associativity).

(** Python truthiness of an optional text: [None] and [''] are falsy. *)
Definition truthy (s : option string) : bool :=
  match s with
  | Some EmptyString => false
  | Some _ => true
  | None => false
  end.

(** [x or None] on a text argument. *)
Definition or_None (s : option string) : option string :=
  if truthy s then s else None.

(** ** config.py *)

Module Config.
Definition TOKEN_MAX_AGE : Z := 300.
Definition SHEETS_SYNC_DEBOUNCE : Z := 30.
End Config.

(** ** database.py: schema *)

Module Session.
(** [start_time] and [end_time] hold what SQLite's [datetime(...)] makes
    of the stored text: [None] when the text is not a date (SQL NULL). *)
Record row := {
  id : Z;
  question : string;
  option_a : string;
  option_b : string;
  option_c : option string;
  option_d : option string;
  start_time : option Z;
  end_time : option Z;
  created_at : Z;
  is_active : Z
}.
End Session.

Module Card.
Record row := {
  id : Z;
  uid : string;
  label : option string;
  enrolled_at : Z;
  is_active : Z
}.
End Card.

Module Vote.
Record row := {
  id : Z;
  session_id : Z;
  voted_at : Z;
  option : string
}.
End Vote.

Module Tracker.
Record row := {
  id : Z;
  session_id : Z;
  card_uid : string;
  voted_at : Z
}.
End Tracker.

Module Db.

(** The database file.  The four [seq_*] fields are the AUTOINCREMENT
    counters SQLite keeps in [sqlite_sequence].  SQLite draws the next rowid
    of an AUTOINCREMENT table, and stores it in the counter, before it looks
    at the UNIQUE constraints of the row: an insert that is then ignored
    ([INSERT OR IGNORE]) or turned into an update ([ON CONFLICT DO UPDATE])
    leaves the counter advanced, and the commit keeps it. *)
Record db := {
  sessions : list Session.row;
  cards : list Card.row;
  votes : list Vote.row;
  vote_tracker : list Tracker.row;
  settings : gmap string (option string);
  seq_sessions : Z;
  seq_cards : Z;
  seq_votes : Z;
  seq_vote_tracker : Z
}.

Inductive sql_error := IntegrityError (msg : string).

Definition empty_db : db :=
  {| sessions := []; cards := []; votes := []; vote_tracker := [];
     settings := ∅;
     seq_sessions := 0; seq_cards := 0; seq_votes := 0; seq_vote_tracker := 0 |}.

(** [INSERT OR IGNORE INTO settings]: keeps an existing row. *)
Definition insert_or_ignore_setting (k : string) (v : option string)
    (m : gmap string (option string)) : gmap string (option string) :=
  match m !! k with
  | Some _ => m
  | None => <[k := v]> m
  end.

Definition set_settings (m : gmap string (option string)) (d : db) : db :=
  {| sessions := sessions d; cards := cards d; votes := votes d;
     vote_tracker := vote_tracker d; settings := m;
     seq_sessions := seq_sessions d; seq_cards := seq_cards d;
     seq_votes := seq_votes d; seq_vote_tracker := seq_vote_tracker d |}.

Definition init_db (d : db) : db :=
  set_settings
    (insert_or_ignore_setting "sheets_enabled" (Some "0")
       (insert_or_ignore_setting "sheets_spreadsheet_id" (Some "")
          (settings d))) d.

(** *** Session helpers *)

(** [is_active = 1 AND now BETWEEN datetime(start_time) AND
    datetime(end_time)]; a NULL bound makes the condition NULL. *)
Definition session_open (now : Z) (s : Session.row) : bool :=
  (Session.is_active s =? 1) &&
  match Session.start_time s, Session.end_time s with
  | Some a, Some b => (a <=? now) && (now <=? b)
  | _, _ => false
  end.

(** [ORDER BY id DESC LIMIT 1] over the selected rows. *)
Fixpoint max_by_id (l : list Session.row) : option Session.row :=
  match l with
  | [] => None
  | s :: r =>
      match max_by_id r with
      | Some m => if Session.id m <? Session.id s then Some s else Some m
      | None => Some s
      end
  end.

Definition get_active_session (now : Z) (d : db) : option Session.row :=
  max_by_id (List.filter (session_open now) (sessions d)).

Definition get_session (session_id : Z) (d : db) : option Session.row :=
  List.find (fun s => Session.id s =? session_id) (sessions d).

Definition with_sessions (l : list Session.row) (seq : Z) (d : db) : db :=
  {| sessions := l; cards := cards d; votes := votes d;
     vote_tracker := vote_tracker d; settings := settings d;
     seq_sessions := seq; seq_cards := seq_cards d;
     seq_votes := seq_votes d; seq_vote_tracker := seq_vote_tracker d |}.

(** Returns [cursor.lastrowid] and the new database. *)
Definition create_session (now : Z) (question option_a option_b : string)
    (option_c option_d : option string) (start_time end_time : option Z)
    (d : db) : Z * db :=
  let rowid := seq_sessions d + 1 in
  (rowid,
   with_sessions
     (sessions d ++
      [ {| Session.id := rowid; Session.question := question;
           Session.option_a := option_a; Session.option_b := option_b;
           Session.option_c := or_None option_c;
           Session.option_d := or_None option_d;
           Session.start_time := start_time; Session.end_time := end_time;
           Session.created_at := now; Session.is_active := 1 |} ])
     rowid d).

Definition update_row (session_id : Z) (question option_a option_b : string)
    (option_c option_d : option string) (start_time end_time : option Z)
    (is_active : Z) (s : Session.row) : Session.row :=
  if Session.id s =? session_id then
    {| Session.id := Session.id s; Session.question := question;
       Session.option_a := option_a; Session.option_b := option_b;
       Session.option_c := or_None option_c;
       Session.option_d := or_None option_d;
       Session.start_time := start_time; Session.end_time := end_time;
       Session.created_at := Session.created_at s;
       Session.is_active := is_active |}
  else s.

Definition update_session (session_id : Z) (question option_a option_b : string)
    (option_c option_d : option string) (start_time end_time : option Z)
    (is_active : Z) (d : db) : db :=
  with_sessions
    (List.map (update_row session_id question option_a option_b option_c
                 option_d start_time end_time is_active) (sessions d))
    (seq_sessions d) d.

(** *** Card helpers *)

Definition card_is_registered (uid : string) (d : db) : bool :=
  existsb (fun c => String.eqb (Card.uid c) uid && (Card.is_active c =? 1))
    (cards d).

Definition card_exists (uid : string) (d : db) : bool :=
  existsb (fun c => String.eqb (Card.uid c) uid) (cards d).

Definition with_cards (l : list Card.row) (seq : Z) (d : db) : db :=
  {| sessions := sessions d; cards := l; votes := votes d;
     vote_tracker := vote_tracker d; settings := settings d;
     seq_sessions := seq_sessions d; seq_cards := seq;
     seq_votes := seq_votes d; seq_vote_tracker := seq_vote_tracker d |}.

(** [INSERT ... ON CONFLICT(uid) DO UPDATE SET label=excluded.label,
    is_active=1].  On the conflict path the row keeps its id and its
    [enrolled_at]; the rowid drawn for the insert is used up. *)
Definition enroll_card (now : Z) (uid : string) (label : option string)
    (d : db) : db :=
  if card_exists uid d then
    with_cards
      (List.map
         (fun c =>
            if String.eqb (Card.uid c) uid then
              {| Card.id := Card.id c; Card.uid := Card.uid c;
                 Card.label := label; Card.enrolled_at := Card.enrolled_at c;
                 Card.is_active := 1 |}
            else c)
         (cards d))
      (seq_cards d + 1) d
  else
    let rowid := seq_cards d + 1 in
    with_cards
      (cards d ++
       [ {| Card.id := rowid; Card.uid := uid; Card.label := label;
            Card.enrolled_at := now; Card.is_active := 1 |} ])
      rowid d.

Definition deactivate_card (card_id : Z) (d : db) : db :=
  with_cards
    (List.map
       (fun c =>
          if Card.id c =? card_id then
            {| Card.id := Card.id c; Card.uid := Card.uid c;
               Card.label := Card.label c;
               Card.enrolled_at := Card.enrolled_at c; Card.is_active := 0 |}
          else c)
       (cards d))
    (seq_cards d) d.

(** *** Vote helpers *)

Definition tracks (session_id : Z) (uid : string) (t : Tracker.row) : bool :=
  (Tracker.session_id t =? session_id) && String.eqb (Tracker.card_uid t) uid.

Definition card_has_voted (uid : string) (session_id : Z) (d : db) : bool :=
  existsb (tracks session_id uid) (vote_tracker d).

(** The foreign key [session_id REFERENCES sessions(id)], enforced because
    [get_db] runs [PRAGMA foreign_keys=ON]. *)
Definition fk_session (session_id : Z) (d : db) : bool :=
  existsb (fun s => Session.id s =? session_id) (sessions d).

Definition with_vote_tracker (l : list Tracker.row) (seq : Z) (d : db) : db :=
  {| sessions := sessions d; cards := cards d; votes := votes d;
     vote_tracker := l; settings := settings d;
     seq_sessions := seq_sessions d; seq_cards := seq_cards d;
     seq_votes := seq_votes d; seq_vote_tracker := seq |}.

Definition with_votes (l : list Vote.row) (seq : Z) (d : db) : db :=
  {| sessions := sessions d; cards := cards d; votes := l;
     vote_tracker := vote_tracker d; settings := settings d;
     seq_sessions := seq_sessions d; seq_cards := seq_cards d;
     seq_votes := seq; seq_vote_tracker := seq_vote_tracker d |}.

(** [INSERT OR IGNORE INTO vote_tracker (session_id, card_uid)]: the row
    count and the new database.  OR IGNORE skips a row that breaks
    UNIQUE(session_id, card_uid), with the rowid drawn for it used up; a
    foreign-key failure still aborts. *)
Definition insert_or_ignore_vote_tracker (now : Z) (session_id : Z)
    (card_uid : string) (d : db) : outcome sql_error (Z * db) :=
  if card_has_voted card_uid session_id d then
    Return (0, with_vote_tracker (vote_tracker d) (seq_vote_tracker d + 1) d)
  else if negb (fk_session session_id d) then
    Raise (IntegrityError "FOREIGN KEY constraint failed")
  else
    let rowid := seq_vote_tracker d + 1 in
    Return (1,
      with_vote_tracker
        (vote_tracker d ++
         [ {| Tracker.id := rowid; Tracker.session_id := session_id;
              Tracker.card_uid := card_uid; Tracker.voted_at := now |} ])
        rowid d).

(** [INSERT INTO votes (session_id, option)]. *)
Definition insert_vote (now : Z) (session_id : Z) (option : string)
    (d : db) : outcome sql_error db :=
  if negb (fk_session session_id d) then
    Raise (IntegrityError "FOREIGN KEY constraint failed")
  else
    let rowid := seq_votes d + 1 in
    Return
      (with_votes
         (votes d ++
          [ {| Vote.id := rowid; Vote.session_id := session_id;
               Vote.voted_at := now; Vote.option := option |} ])
         rowid d).

(** The body runs inside [with conn:]: commit when it returns, roll back
    to the database at entry when it raises. *)
Definition record_vote (now : Z) (session_id : Z) (card_uid : string)
    (option : string) (d : db) : outcome sql_error bool * db :=
  match insert_or_ignore_vote_tracker now session_id card_uid d with
  | Raise e => (Raise e, d)
  | Return (rowcount, d1) =>
      if rowcount =? 0 then (Return false, d1)
      else
        match insert_vote now session_id option d1 with
        | Raise e => (Raise e, d)
        | Return d2 => (Return true, d2)
        end
  end.

Definition of_session (session_id : Z) (v : Vote.row) : bool :=
  Vote.session_id v =? session_id.

(** [SELECT option, COUNT( * ) ... GROUP BY option] read into the dict
    [counts_raw]. *)
Definition group_count (l : list Vote.row) : gmap string Z :=
  foldr (fun v m => <[Vote.option v := default 0 (m !! Vote.option v) + 1]> m)
    ∅ l.

Record tally := { label : option string; count : Z }.

(** [session['option_' + opt.lower()]] for the four option keys. *)
Definition option_column (s : Session.row) (opt : string) : option string :=
  if String.eqb opt "A" then Some (Session.option_a s)
  else if String.eqb opt "B" then Some (Session.option_b s)
  else if String.eqb opt "C" then Session.option_c s
  else if String.eqb opt "D" then Session.option_d s
  else None.

Definition option_keys (s : Session.row) : list string :=
  ["A"; "B"] ++ (if truthy (Session.option_c s) then ["C"] else [])
             ++ (if truthy (Session.option_d s) then ["D"] else []).

(** The returned dict, as the list of its items in insertion order. *)
Definition get_vote_counts (session_id : Z) (d : db) : list (string * tally) :=
  match get_session session_id d with
  | None => []
  | Some session =>
      let counts_raw :=
        group_count (List.filter (of_session session_id) (votes d)) in
      List.map
        (fun opt =>
           (opt, {| label := option_column session opt;
                    count := default 0 (counts_raw !! opt) |}))
        (option_keys session)
  end.

Definition get_total_votes (session_id : Z) (d : db) : Z :=
  Z.of_nat (List.length (List.filter (of_session session_id) (votes d))).

(** [ORDER BY voted_at]: rows with equal keys keep their table order. *)
Fixpoint insert_by_time (x : Z * string) (l : list (Z * string)) :
    list (Z * string) :=
  match l with
  | [] => [x]
  | y :: r => if fst x <? fst y then x :: y :: r else y :: insert_by_time x r
  end.

Definition order_by_time (l : list (Z * string)) : list (Z * string) :=
  foldl (fun acc x => insert_by_time x acc) [] l.

(** The rows are the dicts [{voted_at, option}], here pairs. *)
Definition get_all_votes_for_export (session_id : Z) (d : db) :
    list (Z * string) :=
  order_by_time
    (List.map (fun v => (Vote.voted_at v, Vote.option v))
       (List.filter (of_session session_id) (votes d))).

(** *** Settings helpers *)

Definition get_setting (key : string) (d : db) : option string :=
  match settings d !! key with
  | Some value => value
  | None => None
  end.

Definition set_setting (key value : string) (d : db) : db :=
  set_settings (<[key := Some value]> (settings d)) d.

(** *** Histories

    The writes the application performs on the database, each with the
    clock reading of the moment it runs. *)
Inductive op :=
| InitDb
| CreateSession (question option_a option_b : string)
    (option_c option_d : option string) (start_time end_time : option Z)
| UpdateSession (session_id : Z) (question option_a option_b : string)
    (option_c option_d : option string) (start_time end_time : option Z)
    (is_active : Z)
| EnrollCard (uid : string) (label : option string)
| DeactivateCard (card_id : Z)
| RecordVote (session_id : Z) (card_uid option : string)
| SetSetting (key value : string).

Definition step (d : db) (e : Z * op) : db :=
  let now := fst e in
  match snd e with
  | InitDb => init_db d
  | CreateSession q a b c dd st en => snd (create_session now q a b c dd st en d)
  | UpdateSession i q a b c dd st en act =>
      update_session i q a b c dd st en act d
  | EnrollCard u l => enroll_card now u l d
  | DeactivateCard i => deactivate_card i d
  | RecordVote s u o => snd (record_vote now s u o d)
  | SetSetting k v => set_setting k v d
  end.

Definition run (h : list (Z * op)) : db := foldl step empty_db h.

End Db.

(** ** The capability token: [URLSafeTimedSerializer(SECRET_KEY)]

    [make_token] / [verify_token] of app.py and the [dumps] call of
    nfc_reader.py go through the itsdangerous serializer.  Its control flow
    (signing, separators, timestamp, age check, exception classes) is
    modelled here; the byte-level primitives it rests on are the fields of
    [Serializer]. *)

Module Token.

(** The signed dict [{'uid': ..., 'session_id': ...}]. *)
Record payload := { uid : string; session_id : Z }.

(** The exception classes: [BadSignature], [BadTimeSignature] and
    [SignatureExpired] form a chain of subclasses; [BadPayload] derives
    from [BadData] only. *)
Inductive error := BadSignature | BadTimeSignature | SignatureExpired | BadPayload.

(** [isinstance(e, BadSignature)]. *)
Definition is_BadSignature (e : error) : bool :=
  match e with
  | BadPayload => false
  | _ => true
  end.

Class Serializer := {
  (** URL-safe encoding of the JSON text of the payload, and its inverse
      ([None] where itsdangerous raises [BadPayload]) *)
  dump_payload : payload → string;
  load_payload : string → option payload;
  (** [base64_encode(int_to_bytes(ts))] and [bytes_to_int(base64_decode(b))] *)
  timestamp_encode : Z → string;
  timestamp_decode : string → option Z;
  (** the base64 HMAC of a value under a secret key, and its check *)
  get_signature : string → string → string;
  verify_signature : string → string → string → bool
}.

Definition sep : ascii := "."%char.

(** [sep in s] *)
Fixpoint contains_sep (s : string) : bool :=
  match s with
  | EmptyString => false
  | String c r => Ascii.eqb c sep || contains_sep r
  end.

(** [s.rsplit(sep, 1)] when [sep in s]. *)
Fixpoint rsplit (s : string) : option (string * string) :=
  match s with
  | EmptyString => None
  | String c r =>
      match rsplit r with
      | Some (a, b) => Some (String c a, b)
      | None => if Ascii.eqb c sep then Some (EmptyString, r) else None
      end
  end.

Section WithSerializer.
Context `{Serializer}.
Variable SECRET_KEY : string.

(** [Signer.sign] *)
Definition signer_sign (value : string) : string :=
  value +:+ String sep (get_signature SECRET_KEY value).

(** [TimestampSigner.sign] at clock reading [now]. *)
Definition sign (now : Z) (value : string) : string :=
  signer_sign (value +:+ String sep (timestamp_encode now)).

Definition dumps (now : Z) (obj : payload) : string :=
  sign now (dump_payload obj).

(** [Signer.unsign]; the error carries the exception's [payload]. *)
Definition signer_unsign (signed_value : string) :
    outcome (option string) string :=
  match rsplit signed_value with
  | None => Raise None
  | Some (value, sig) =>
      if verify_signature SECRET_KEY value sig then Return value
      else Raise (Some value)
  end.

(** [e.payload or b''] *)
Definition payload_or_empty (p : option string) : string :=
  match p with
  | Some v => v
  | None => EmptyString
  end.

(** [TimestampSigner.unsign(signed_value, max_age)] at clock reading
    [now].  Scope: the signed timestamp is taken to be one that [datetime]
    represents, as every reading of the server clock signed by [make_token]
    is.  The library also turns the timestamp of a validly signed value into
    a [datetime] (for [date_signed] and for the returned timestamp); for a
    timestamp beyond the range of [datetime] that conversion raises
    ValueError, OverflowError or OSError, which are not cases of [error]. *)
Definition unsign (now : Z) (max_age : Z) (signed_value : string) :
    outcome error string :=
  let '(result, sig_error) :=
    match signer_unsign signed_value with
    | Return v => (v, false)
    | Raise p => (payload_or_empty p, true)
    end in
  match rsplit result with
  | None => if sig_error then Raise BadSignature else Raise BadTimeSignature
  | Some (value, ts_bytes) =>
      let ts_int := timestamp_decode ts_bytes in
      if sig_error then Raise BadTimeSignature
      else
        match ts_int with
        | None => Raise BadTimeSignature
        | Some ts =>
            let age := now - ts in
            if max_age <? age then Raise SignatureExpired
            else if age <? 0 then Raise SignatureExpired
            else Return value
        end
  end.

(** [TimedSerializer.loads(s, max_age=...)] *)
Definition loads (now : Z) (max_age : Z) (s : string) : outcome error payload :=
  match unsign now max_age s with
  | Raise e => Raise e
  | Return base64d =>
      match load_payload base64d with
      | Some obj => Return obj
      | None => Raise BadPayload
      end
  end.

(** app.py *)
Definition make_token (now : Z) (data : payload) : string :=
  dumps now data.

(** [try: return loads(...) except (BadSignature, SignatureExpired):
    return None] *)
Definition verify_token (now : Z) (token : string) :
    outcome error (option payload) :=
  match loads now Config.TOKEN_MAX_AGE token with
  | Return data => Return (Some data)
  | Raise e => if is_BadSignature e then Return None else Raise e
  end.

End WithSerializer.

(** What the primitives guarantee: decoding inverts encoding, a signature
    verifies, and neither an encoded timestamp nor a signature contains
    the separator (both are base64 text). *)
Class SerializerLaws `{Serializer} : Prop := {
  load_dump : ∀ p, load_payload (dump_payload p) = Some p;
  timestamp_decode_encode : ∀ t, 0 <= t → timestamp_decode (timestamp_encode t) = Some t;
  timestamp_no_sep : ∀ t, contains_sep (timestamp_encode t) = false;
  signature_verifies : ∀ k v, verify_signature k v (get_signature k v) = true;
  signature_no_sep : ∀ k v, contains_sep (get_signature k v) = false
}.

End Token.

(** ** Events and the request world *)

Inductive namespace := admin | kiosk.

Inductive event :=
| card_scan_raw (uid : string) (already_enrolled : bool)
| card_error (message : string)
| card_valid (redirect_url : string)
| vote_update (session_id : Z) (total : Z).

(** What a scan or a request acts on: the database, the Socket.IO emissions
    so far (oldest first) and the sync threads started so far. *)
Record world := {
  store : Db.db;
  emitted : list (event * namespace);
  threads : list Z
}.

Inductive exn :=
| TokenError (e : Token.error)
| SqlError (e : Db.sql_error).

Definition M (A : Type) : Type := Prog world exn A.

(** A read-only database helper. *)
Definition query {A} (f : Db.db → A) : M A :=
  fun w => (Return (f (store w)), w).

(** [_socketio.emit(..., namespace=ns)] *)
Definition emit (e : event) (ns : namespace) : M unit :=
  fun w =>
    (Return tt,
     {| store := store w; emitted := emitted w ++ [(e, ns)]; threads := threads w |}).

(** [db.record_vote(...)]: the one helper of the request path that writes. *)
Definition record_vote (now : Z) (session_id : Z) (card_uid option : string) : M bool :=
  fun w =>
    let '(r, d) := Db.record_vote now session_id card_uid option (store w) in
    let w1 := {| store := d; emitted := emitted w; threads := threads w |} in
    match r with
    | Return b => (Return b, w1)
    | Raise e => (Raise (SqlError e), w1)
    end.

(** [sync_to_sheets(session_id)]: starts a daemon thread and returns. *)
Definition sync_to_sheets (session_id : Z) : M unit :=
  fun w =>
    (Return tt,
     {| store := store w; emitted := emitted w;
        threads := threads w ++ [session_id] |}).

(** ** nfc_reader.py *)

Module Nfc.
Section WithSerializer.
Context `{Token.Serializer}.
Variable SECRET_KEY : string.

(** [now] is the local time the database sees, [clock] the reading the
    token is stamped with. *)
Definition _process_scan (now clock : Z) (uid : string) : M unit :=
  do already_enrolled <- query (Db.card_exists uid);
  emit (card_scan_raw uid already_enrolled) admin;;
  do session <- query (Db.get_active_session now);
  match session with
  | None => emit (card_error "Voting is not open right now.") kiosk
  | Some session =>
      do registered <- query (Db.card_is_registered uid);
      if negb registered then
        emit (card_error "Card not registered. Please see an administrator.") kiosk
      else
        do voted <- query (Db.card_has_voted uid (Session.id session));
        if voted then
          emit (card_error "You have already voted this week!") kiosk
        else
          let token :=
            Token.dumps SECRET_KEY clock
              {| Token.uid := uid; Token.session_id := Session.id session |} in
          emit (card_valid ("/vote/" +:+ token)) kiosk
  end.
End WithSerializer.
End Nfc.

(** ** app.py: the kiosk routes *)

Module App.

Inductive response :=
| redirect_error (msg : string)
| redirect_thankyou (session_id : Z)
| render_vote (voting_session : Session.row) (options : list (string * string))
    (token : string).

(** [str.upper()] on the ASCII letters. *)
Definition upper_ascii (c : ascii) : ascii :=
  let n := nat_of_ascii c in
  if (97 <=? n)%nat && (n <=? 122)%nat then ascii_of_nat (n - 32) else c.

Fixpoint upper (s : string) : string :=
  match s with
  | EmptyString => EmptyString
  | String c r => String (upper_ascii c) (upper r)
  end.

(** The (key, label) pairs of a session row. *)
Definition _build_options (vsession : Session.row) : list (string * string) :=
  [("A", Session.option_a vsession); ("B", Session.option_b vsession)]
  ++ (if truthy (Session.option_c vsession)
      then [("C", default "" (Session.option_c vsession))] else [])
  ++ (if truthy (Session.option_d vsession)
      then [("D", default "" (Session.option_d vsession))] else []).

(** [x in l] on texts. *)
Definition mem (x : string) (l : list string) : bool :=
  existsb (String.eqb x) l.

Section WithSerializer.
Context `{Token.Serializer}.
Variable SECRET_KEY : string.

(** [verify_token] inside a route: what it raises leaves the route. *)
Definition verify (clock : Z) (token : string) : M (option Token.payload) :=
  fun w =>
    match Token.verify_token SECRET_KEY clock token with
    | Return data => (Return data, w)
    | Raise e => (Raise (TokenError e), w)
    end.

(** [GET /vote/<token>] *)
Definition vote (now clock : Z) (token : string) : M response :=
  do data <- verify clock token;
  match data with
  | None => ret (redirect_error "token_expired")
  | Some data =>
      do active <- query (Db.get_active_session now);
      match active with
      | None => ret (redirect_error "session_changed")
      | Some active =>
          if negb (Session.id active =? Token.session_id data) then
            ret (redirect_error "session_changed")
          else
            do voted <- query (Db.card_has_voted (Token.uid data) (Session.id active));
            if voted then ret (redirect_error "already_voted")
            else ret (render_vote active (_build_options active) token)
      end
  end.

(** [POST /submit-vote] with form fields [token] and [option] (a missing
    field reads as ['']). *)
Definition submit_vote (now clock : Z) (form_token form_option : string) :
    M response :=
  let token := form_token in
  let chosen_option := upper form_option in
  if String.eqb token "" || String.eqb chosen_option "" then
    ret (redirect_error "invalid_request")
  else
    do data <- verify clock token;
    match data with
    | None => ret (redirect_error "token_expired")
    | Some data =>
        let uid := Token.uid data in
        let session_id := Token.session_id data in
        do vsession <- query (Db.get_session session_id);
        match vsession with
        | None => ret (redirect_error "session_not_found")
        | Some vsession =>
            let valid_options := List.map fst (_build_options vsession) in
            if negb (mem chosen_option valid_options) then
              ret (redirect_error "invalid_option")
            else
              do recorded <- record_vote now session_id uid chosen_option;
              if negb recorded then ret (redirect_error "already_voted")
              else
                do enabled <- query (Db.get_setting "sheets_enabled");
                (if bool_decide (enabled = Some "1")
                 then sync_to_sheets session_id else ret tt);;
                do total <- query (Db.get_total_votes session_id);
                emit (vote_update session_id total) kiosk;;
                ret (redirect_thankyou session_id)
        end
    end.

End WithSerializer.
End App.

(** ** sheets_sync.py *)

Module Sheets.

Inductive cell := Text (s : string) | Num (n : Z) | Time (t : Z) | Null.

(** The calls made on the gspread client. *)
Inductive call :=
| authorize (credentials_path : string)
| open_by_key (spreadsheet_id : string)
| worksheet (title : string)
| add_worksheet (title : string) (rows cols : Z)
| clear (title : string)
| update (title : string) (range : string) (values : list (list cell)).

(** An exception raised inside the [try] block: whether it is
    [gspread.WorksheetNotFound], and its [str(exc)]. *)
Record error := { worksheet_not_found : bool; str : string }.

(** The external service: how it answers a call in a given state. *)
Class Service (R : Type) := {
  respond : R → call → outcome error unit * R
}.

(** [{'success': True, 'total': n}] or [{'success': False, 'error': s}] *)
Inductive result := Success (total : Z) | Failure (error : string).

(** The module state [_last_sync_time], the service, and the calls made
    on it so far (oldest first). *)
Record state (R : Type) := {
  _last_sync_time : Z;
  remote : R;
  calls : list call
}.
Arguments _last_sync_time {R} _.
Arguments remote {R} _.
Arguments calls {R} _.

Definition set_last_sync_time {R} (t : Z) (st : state R) : state R :=
  {| _last_sync_time := t; remote := remote st; calls := calls st |}.

Section WithService.
Context {R : Type} `{Service R}.
Variable SHEETS_AVAILABLE : bool.
Variable CREDENTIALS_PATH : string.
(** [f"{count / total * 100:.1f}%"] *)
Variable format_percentage : Z → Z → string.

Definition remote_call (c : call) : Prog (state R) error unit :=
  fun st =>
    let '(r, rem) := respond (remote st) c in
    (r, {| _last_sync_time := _last_sync_time st; remote := rem;
           calls := calls st ++ [c] |}).

(** [try: ws = sheet.worksheet(title)
     except gspread.WorksheetNotFound: ws = sheet.add_worksheet(...)] *)
Definition worksheet_or_add (title : string) (rows cols : Z) :
    Prog (state R) error unit :=
  fun st =>
    match remote_call (worksheet title) st with
    | (Raise e, st1) =>
        if worksheet_not_found e then remote_call (add_worksheet title rows cols) st1
        else (Raise e, st1)
    | ok => ok
    end.

(** [session['question']]: a [TypeError] when [session] is [None]. *)
Definition subscript_question (session : option Session.row) :
    Prog (state R) error string :=
  fun st =>
    match session with
    | Some s => (Return (Session.question s), st)
    | None =>
        (Raise {| worksheet_not_found := false;
                  str := "'NoneType' object is not subscriptable" |}, st)
    end.

Definition label_cell (l : option string) : cell :=
  match l with
  | Some s => Text s
  | None => Null
  end.

Definition sum_counts (vote_counts : list (string * Db.tally)) : Z :=
  foldr (fun v acc => Db.count (snd v) + acc) 0 vote_counts.

Definition when (b : bool) (m : Prog (state R) error unit) :
    Prog (state R) error unit :=
  if b then m else ret tt.

Definition nonempty {A} (l : list A) : bool :=
  match l with
  | [] => false
  | _ => true
  end.

(** The body of the [try] block; returns [total]. *)
Definition sync_body (d : Db.db) (session_id : Z) (spreadsheet_id : string) :
    Prog (state R) error Z :=
  remote_call (authorize CREDENTIALS_PATH);;
  remote_call (open_by_key spreadsheet_id);;
  let session := Db.get_session session_id d in
  let vote_counts := Db.get_vote_counts session_id d in
  let total := sum_counts vote_counts in
  worksheet_or_add "Summary" 30 4;;
  remote_call (clear "Summary");;
  do question <- subscript_question session;
  remote_call (update "Summary" "A1" [[Text "Question"; Text question]]);;
  remote_call
    (update "Summary" "A2"
       [[Text "Option"; Text "Label"; Text "Count"; Text "Percentage"]]);;
  let summary_rows :=
    List.map
      (fun item =>
         let pct :=
           if 0 <? total then format_percentage (Db.count (snd item)) total
           else "0.0%" in
         [Text (fst item); label_cell (Db.label (snd item));
          Num (Db.count (snd item)); Text pct])
      vote_counts in
  when (nonempty summary_rows) (remote_call (update "Summary" "A3" summary_rows));;
  remote_call
    (update "Summary" ("A" +:+ pretty (3 + Z.of_nat (List.length summary_rows)))
       [[Text ""; Text "TOTAL"; Num total; Text ""]]);;
  worksheet_or_add "Detail" 2000 2;;
  remote_call (clear "Detail");;
  remote_call (update "Detail" "A1" [[Text "Timestamp"; Text "Option"]]);;
  let votes := Db.get_all_votes_for_export session_id d in
  when (nonempty votes)
    (remote_call
       (update "Detail" "A2"
          (List.map (fun v => [Time (fst v); Text (snd v)]) votes)));;
  ret total.

(** [_do_sync(session_id, force)].  [now] is [time.time()] at the
    debounce check, [credentials_exist] is
    [os.path.exists(CREDENTIALS_PATH)], [d] the database it reads. *)
Definition _do_sync (now : Z) (credentials_exist : bool) (d : Db.db)
    (session_id : Z) (force : bool) : Prog (state R) error result :=
  fun st =>
    if negb SHEETS_AVAILABLE then
      (Return (Failure "gspread library not installed"), st)
    else if negb force && (now - _last_sync_time st <? Config.SHEETS_SYNC_DEBOUNCE) then
      (Return (Failure "Debounced"), st)
    else
      let st := if negb force then set_last_sync_time now st else st in
      let spreadsheet_id := default "" (Db.get_setting "sheets_spreadsheet_id" d) in
      let sheets_enabled :=
        bool_decide (Db.get_setting "sheets_enabled" d = Some "1") in
      if negb sheets_enabled then
        (Return (Failure "Sheets sync is disabled in settings"), st)
      else if String.eqb spreadsheet_id "" then
        (Return (Failure "No Spreadsheet ID configured in settings"), st)
      else if negb credentials_exist then
        (Return (Failure ("Credentials file not found: " +:+ CREDENTIALS_PATH)), st)
      else
        match sync_body d session_id spreadsheet_id st with
        | (Return total, st1) => (Return (Success total), st1)
        | (Raise exc, st1) => (Return (Failure (str exc)), st1)
        end.

(** The thread body of [sync_to_sheets]. *)
Definition sync_to_sheets (now : Z) (credentials_exist : bool) (d : Db.db)
    (session_id : Z) : Prog (state R) error result :=
  _do_sync now credentials_exist d session_id false.

Definition sync_to_sheets_blocking (now : Z) (credentials_exist : bool)
    (d : Db.db) (session_id : Z) : Prog (state R) error result :=
  fun st => _do_sync now credentials_exist d session_id true (set_last_sync_time 0 st).

End WithService.
End Sheets.

(** ** Further code of the sources *)

(** database.py: the listing of sessions. *)

Module Listing.

(** [ORDER BY id DESC] *)
Fixpoint insert_by_id_desc (s : Session.row) (l : list Session.row) :
    list Session.row :=
  match l with
  | [] => [s]
  | y :: r =>
      if Session.id y <? Session.id s then s :: y :: r
      else y :: insert_by_id_desc s r
  end.

Definition order_by_id_desc (l : list Session.row) : list Session.row :=
  foldl (fun acc s => insert_by_id_desc s acc) [] l.

Definition get_all_sessions (d : Db.db) : list Session.row :=
  order_by_id_desc (Db.sessions d).

End Listing.

(** app.py: the datetime-local helpers, on texts of one-byte characters. *)

Module Html.

(** [s.replace(a, b)] for one-character [a] and [b]. *)
Fixpoint replace (a b : ascii) (s : string) : string :=
  match s with
  | EmptyString => EmptyString
  | String c r => String (if Ascii.eqb c a then b else c) (replace a b r)
  end.

(** [s[:n]] *)
Fixpoint prefix (n : nat) (s : string) : string :=
  match n, s with
  | S k, String c r => String c (prefix k r)
  | _, _ => EmptyString
  end.

(** '2025-09-15 09:00:00' to '2025-09-15T09:00' *)
Definition db_time_to_html (dt_str : string) : string :=
  if String.eqb dt_str "" then ""
  else replace " " "T" (prefix 16 dt_str).

(** '2025-09-15T09:00' to '2025-09-15 09:00:00' *)
Definition html_time_to_db (dt_str : string) : string :=
  if String.eqb dt_str "" then ""
  else replace "T" " " dt_str +:+ ":00".

(** [c in s] *)
Fixpoint contains (c : ascii) (s : string) : bool :=
  match s with
  | EmptyString => false
  | String x r => Ascii.eqb x c || contains c r
  end.

End Html.

(** nfc_reader.py: the polling loop of [_run_reader]. *)

Module Reader.

Definition SCAN_COOLDOWN : Z := 2.

(** One uppercase hexadecimal digit. *)
Definition hex_digit (n : N) : ascii :=
  match n with
  | 0%N => "0" | 1%N => "1" | 2%N => "2" | 3%N => "3"
  | 4%N => "4" | 5%N => "5" | 6%N => "6" | 7%N => "7"
  | 8%N => "8" | 9%N => "9" | 10%N => "A" | 11%N => "B"
  | 12%N => "C" | 13%N => "D" | 14%N => "E" | _ => "F"
  end%char.

(** [f'{b:02X}'] *)
Definition hex2 (b : Byte.byte) : string :=
  String (hex_digit (Byte.to_N b / 16))
    (String (hex_digit (Byte.to_N b mod 16)) EmptyString).

(** [':'.join(parts)] *)
Fixpoint join (parts : list string) : string :=
  match parts with
  | [] => EmptyString
  | [p] => p
  | p :: r => p +:+ String ":" (join r)
  end.

Definition format_uid (uid_bytes : list Byte.byte) : string :=
  join (List.map hex2 uid_bytes).

(** The thread's fields. *)
Record reader := {
  _last_uid : option string;
  _last_scan_time : Z
}.

Definition init : reader := {| _last_uid := None; _last_scan_time := 0 |}.

(** One turn of the [while True] loop: [uid_bytes] is what
    [read_passive_target] gave, [now] is [time.time()].  Returns the new
    fields and the UID handed to [_process_scan], if any. *)
Definition poll (now : Z) (uid_bytes : option (list Byte.byte)) (r : reader) :
    reader * option string :=
  match uid_bytes with
  | None => (r, None)
  | Some bs =>
      let uid := format_uid bs in
      if bool_decide (Some uid = _last_uid r)
         && (now - _last_scan_time r <? SCAN_COOLDOWN)
      then (r, None)
      else ({| _last_uid := Some uid; _last_scan_time := now |}, Some uid)
  end.

(** The scans processed over a run of the loop, with their times. *)
Fixpoint processed (reads : list (Z * option (list Byte.byte))) (r : reader) :
    list (Z * string) :=
  match reads with
  | [] => []
  | (now, uid_bytes) :: rest =>
      match poll now uid_bytes r with
      | (r1, Some uid) => (now, uid) :: processed rest r1
      | (r1, None) => processed rest r1
      end
  end.

(** Every two neighbouring scans of one card are a cooldown apart. *)
Fixpoint spaced (l : list (Z * string)) : Prop :=
  match l with
  | a :: ((b :: _) as r) =>
      (snd a = snd b → SCAN_COOLDOWN <= fst b - fst a) ∧ spaced r
  | _ => True
  end.

End Reader.

(** Invariants of the tables. *)

Module Inv.

Definition tracker_key (t : Tracker.row) : Z * string :=
  (Tracker.session_id t, Tracker.card_uid t).

(** UNIQUE(session_id, card_uid) *)
Definition tracker_ok (d : Db.db) : Prop :=
  NoDup (List.map tracker_key (Db.vote_tracker d)).

Definition card_lt (a b : Card.row) : Prop := Card.id a < Card.id b.

(** [uid UNIQUE], and growing ids below the AUTOINCREMENT counter. *)
Definition cards_ok (d : Db.db) : Prop :=
  NoDup (List.map Card.uid (Db.cards d)) ∧
  StronglySorted card_lt (Db.cards d) ∧
  Forall (fun c => Card.id c <= Db.seq_cards d) (Db.cards d).

(** The row updates of [enroll_card] and [deactivate_card]. *)
Definition reactivate (uid : string) (label : option string) (c : Card.row) :
    Card.row :=
  if String.eqb (Card.uid c) uid then
    {| Card.id := Card.id c; Card.uid := Card.uid c; Card.label := label;
       Card.enrolled_at := Card.enrolled_at c; Card.is_active := 1 |}
  else c.

Definition deactivate (card_id : Z) (c : Card.row) : Card.row :=
  if Card.id c =? card_id then
    {| Card.id := Card.id c; Card.uid := Card.uid c; Card.label := Card.label c;
       Card.enrolled_at := Card.enrolled_at c; Card.is_active := 0 |}
  else c.

(** Two databases with the same rows in every table; of the AUTOINCREMENT
    counters only that of [vote_tracker] may have moved, and only upwards. *)
Definition same_rows (d d' : Db.db) : Prop :=
  Db.sessions d' = Db.sessions d ∧ Db.cards d' = Db.cards d ∧
  Db.votes d' = Db.votes d ∧ Db.vote_tracker d' = Db.vote_tracker d ∧
  Db.settings d' = Db.settings d ∧
  Db.seq_sessions d' = Db.seq_sessions d ∧ Db.seq_cards d' = Db.seq_cards d ∧
  Db.seq_votes d' = Db.seq_votes d ∧
  Db.seq_vote_tracker d <= Db.seq_vote_tracker d'.

(** Non-decreasing [voted_at]. *)
Definition by_time (a b : Z * string) : Prop := fst a <= fst b.

(** A service that accepts every call. *)
Definition accepts (R : Type) `{Sheets.Service R} : Prop :=
  ∀ r c, fst (Sheets.respond r c) = Return tt.

End Inv.

(** sheets_sync.py: a run of the [try] block against the service, call by
    call. *)

Module Trace.
Import Sheets.

(** [add_worksheet] is called only after a lookup found no sheet. *)
Definition is_add (c : call) : bool :=
  match c with
  | add_worksheet _ _ _ => true
  | _ => false
  end.

Definition is_lookup (c : call) : bool :=
  match c with
  | worksheet _ => true
  | _ => false
  end.

(** An answer after which the [try] block goes on: no exception, or
    [gspread.WorksheetNotFound] to a worksheet lookup (the inner [except]). *)
Definition passes (c : call) (o : outcome error unit) : bool :=
  match o with
  | Return _ => true
  | Raise e => is_lookup c && worksheet_not_found e
  end.

Section WithService.
Context {R : Type} `{Service R}.

(** The service after it has answered the calls of [l] in this order. *)
Fixpoint replay (r : R) (l : list call) : R :=
  match l with
  | [] => r
  | c :: l => replay (snd (respond r c)) l
  end.

(** Every call of [l], made in this order from [r], gets an answer that
    passes. *)
Fixpoint all_pass (r : R) (l : list call) : bool :=
  match l with
  | [] => true
  | c :: l => passes c (fst (respond r c)) && all_pass (snd (respond r c)) l
  end.

(** What a step of the [try] block does, from any state: it appends the
    calls it makes to the log and leaves the service as these calls leave
    it.  When it returns, every call has passed, the calls other than
    [add_worksheet] are those of [e] and the value satisfies [Q]; when it
    raises, the exception is the answer of the service to the last call
    made, which did not pass, every call before it having passed. *)
Definition traced {A} (m : Prog (state R) error A) (e : list call)
    (Q : A → Prop) : Prop :=
  ∀ st, ∃ l,
    calls (snd (m st)) = calls st ++ l ∧
    remote (snd (m st)) = replay (remote st) l ∧
    match fst (m st) with
    | Return a =>
        all_pass (remote st) l = true ∧
        List.filter (fun c => negb (is_add c)) l = e ∧ Q a
    | Raise exc =>
        ∃ l0 c,
          l = l0 ++ [c] ∧ all_pass (remote st) l0 = true ∧
          fst (respond (replay (remote st) l0) c) = Raise exc ∧
          passes c (Raise exc) = false
    end.

End WithService.

(** The calls of a sync of the stored session [s] that runs to its end, in
    the order of the [try] block (lines 91 to 128), the [add_worksheet]
    calls of the two inner [except] clauses left out. *)
Definition script (CREDENTIALS_PATH : string) (format_percentage : Z → Z → string)
    (d : Db.db) (session_id : Z) (spreadsheet_id : string) (s : Session.row) :
    list call :=
  let vote_counts := Db.get_vote_counts session_id d in
  let total := sum_counts vote_counts in
  let summary_rows :=
    List.map
      (fun item =>
         let pct :=
           if 0 <? total then format_percentage (Db.count (snd item)) total
           else "0.0%" in
         [Text (fst item); label_cell (Db.label (snd item));
          Num (Db.count (snd item)); Text pct])
      vote_counts in
  let votes := Db.get_all_votes_for_export session_id d in
  [ authorize CREDENTIALS_PATH;
    open_by_key spreadsheet_id;
    worksheet "Summary";
    clear "Summary";
    update "Summary" "A1" [[Text "Question"; Text (Session.question s)]];
    update "Summary" "A2"
      [[Text "Option"; Text "Label"; Text "Count"; Text "Percentage"]] ]
  ++ (if nonempty summary_rows
      then [update "Summary" "A3" summary_rows] else [])
  ++ [ update "Summary"
         ("A" +:+ pretty (3 + Z.of_nat (List.length summary_rows)))
         [[Text ""; Text "TOTAL"; Num total; Text ""]];
       worksheet "Detail";
       clear "Detail";
       update "Detail" "A1" [[Text "Timestamp"; Text "Option"]] ]
  ++ (if nonempty votes
      then [update "Detail" "A2"
              (List.map (fun v => [Time (fst v); Text (snd v)]) votes)]
      else []).

End Trace.

(** ** Worked instances

    A small database history used to run the definitions. *)

Definition demo_db : Db.db :=
  Db.run
    [ (0, Db.InitDb);
      (10, Db.CreateSession "Lunch?" "Yes" "No" None None (Some 0) (Some 1000));
      (20, Db.EnrollCard "04:A1:B2" (Some "Ada")) ].

(** A serializer simple enough to run: numbers are written in unary, the
    payload as sign, session id, [':'] and UID; the signature of a value is
    as long as key and value together. *)

Module Plain.

Fixpoint ones (n : nat) : string :=
  match n with
  | O => EmptyString
  | S k => String "1" (ones k)
  end.

Fixpoint count_ones (s : string) : nat * string :=
  match s with
  | EmptyString => (O, s)
  | String c r =>
      if Ascii.eqb c "1" then let '(n, t) := count_ones r in (S n, t)
      else (O, s)
  end.

Definition dump_payload (p : Token.payload) : string :=
  String (if Token.session_id p <? 0 then "-"%char else "+"%char)
    (ones (Z.abs_nat (Token.session_id p)) +:+ String ":" (Token.uid p)).

Definition load_payload (s : string) : option Token.payload :=
  match s with
  | EmptyString => None
  | String c r =>
      let '(n, t) := count_ones r in
      match t with
      | EmptyString => None
      | String c' u =>
          if negb (Ascii.eqb c' ":") then None
          else if Ascii.eqb c "-" then
            Some {| Token.uid := u; Token.session_id := - Z.of_nat n |}
          else if Ascii.eqb c "+" then
            Some {| Token.uid := u; Token.session_id := Z.of_nat n |}
          else None
      end
  end.

Definition timestamp_encode (t : Z) : string := ones (Z.to_nat t).

Definition timestamp_decode (s : string) : option Z :=
  match count_ones s with
  | (n, EmptyString) => Some (Z.of_nat n)
  | _ => None
  end.

Definition get_signature (key value : string) : string :=
  ones (String.length key + String.length value).

Definition verify_signature (key value sig : string) : bool :=
  String.eqb sig (get_signature key value).

Definition serializer : Token.Serializer :=
  {| Token.dump_payload := dump_payload;
     Token.load_payload := load_payload;
     Token.timestamp_encode := timestamp_encode;
     Token.timestamp_decode := timestamp_decode;
     Token.get_signature := get_signature;
     Token.verify_signature := verify_signature |}.

End Plain.

(** Two services: one that accepts every call, one that cannot be reached. *)

Definition online : Sheets.Service unit :=
  {| Sheets.respond := fun r _ => (Return tt, r) |}.

Definition offline : Sheets.Service unit :=
  {| Sheets.respond := fun r _ =>
       (Raise {| Sheets.worksheet_not_found := false;
                 Sheets.str := "Connection refused" |}, r) |}.

(** A service that answers its first [n] calls and is out of reach from
    then on. *)
Definition reachable_for : Sheets.Service nat :=
  {| Sheets.respond := fun r _ =>
       match r with
       | O => (Raise {| Sheets.worksheet_not_found := false;
                        Sheets.str := "Connection refused" |}, O)
       | S k => (Return tt, k)
       end |}.

(** ** Vocabulary of the statements *)

Module Spec.

Definition id_lt (a b : Session.row) : Prop := Session.id a < Session.id b.

(** Rows appear in creation order with growing ids, none above the
    AUTOINCREMENT counter. *)
Definition sessions_ok (d : Db.db) : Prop :=
  StronglySorted id_lt (Db.sessions d) ∧
  Forall (fun s => Session.id s <= Db.seq_sessions d) (Db.sessions d).

(** The number of rows a predicate selects. *)
Definition cnt (p : Vote.row → bool) (l : list Vote.row) : Z :=
  Z.of_nat (List.length (List.filter p l)).

(** One kiosk event: the emissions of a scan are the raw-scan notice for
    the admin console followed by this event. *)
Definition scan_emits (uid : string) (w w' : world) (e : event) : Prop :=
  emitted w' =
    emitted w ++ [(card_scan_raw uid (Db.card_exists uid (store w)), admin); (e, kiosk)].

(** A step of the sync body leaves [_last_sync_time] alone and only adds to
    the log of calls. *)
Definition quiet {R A} (m : Prog (Sheets.state R) Sheets.error A) : Prop :=
  ∀ st, Sheets._last_sync_time (snd (m st)) = Sheets._last_sync_time st ∧
        ∃ l, Sheets.calls (snd (m st)) = Sheets.calls st ++ l.

End Spec.

Module Anon.
Import Db.

(** Relabelling the cards: the same history and the same database with
    every card UID [u] replaced by [f u]. *)
Definition rename_op (f : string → string) (o : op) : op :=
  match o with
  | EnrollCard u l => EnrollCard (f u) l
  | RecordVote s u opt => RecordVote s (f u) opt
  | other => other
  end.

Definition rename_event (f : string → string) (e : Z * op) : Z * op :=
  (fst e, rename_op f (snd e)).

Definition rename_card (f : string → string) (c : Card.row) : Card.row :=
  {| Card.id := Card.id c; Card.uid := f (Card.uid c); Card.label := Card.label c;
     Card.enrolled_at := Card.enrolled_at c; Card.is_active := Card.is_active c |}.

Definition rename_tracker (f : string → string) (t : Tracker.row) : Tracker.row :=
  {| Tracker.id := Tracker.id t; Tracker.session_id := Tracker.session_id t;
     Tracker.card_uid := f (Tracker.card_uid t); Tracker.voted_at := Tracker.voted_at t |}.

Definition rename_db (f : string → string) (d : db) : db :=
  {| sessions := sessions d; cards := List.map (rename_card f) (cards d);
     votes := votes d;
     vote_tracker := List.map (rename_tracker f) (vote_tracker d);
     settings := settings d;
     seq_sessions := seq_sessions d; seq_cards := seq_cards d;
     seq_votes := seq_votes d; seq_vote_tracker := seq_vote_tracker d |}.

End Anon.

(** The session closed at 1000; the token was issued at 900 and is used at
    1100. *)
Definition stale_token : string :=
  Token.dumps (H := Plain.serializer) "k" 900
    {| Token.uid := "04:A1:B2"; Token.session_id := 1 |}.

Definition kiosk_world : world :=
  {| store := demo_db; emitted := []; threads := [] |}.

Definition two_votes : list (Z * Db.op) :=
  [ (0, Db.InitDb);
    (10, Db.CreateSession "Lunch?" "Yes" "No" None None (Some 0) (Some 1000));
    (20, Db.EnrollCard "04:A1:B2" (Some "Ada"));
    (21, Db.EnrollCard "04:C3:D4" None);
    (30, Db.RecordVote 1 "04:A1:B2" "A");
    (31, Db.RecordVote 1 "04:C3:D4" "B");
    (32, Db.RecordVote 1 "04:A1:B2" "B") ].

Definition idle : Sheets.state unit :=
  {| Sheets._last_sync_time := 1000; Sheets.remote := tt; Sheets.calls := [] |}.

Definition percent_stub (count total : Z) : string := "?%".

(** Runs the state threading of a computation as far as it is decided. *)
Ltac run_world := cbv beta iota; cbn [store emitted threads negb fst snd].

(** * Properties *)

(** ** The vote recorder *)

Module DbFacts.
Import Db.

Lemma card_has_voted_app uid sid l t seq d :
  card_has_voted uid sid (with_vote_tracker (l ++ [t]) seq d)
  = existsb (tracks sid uid) l || tracks sid uid t.
Proof.
  unfold card_has_voted; simpl.
  rewrite existsb_app; simpl. now rewrite orb_false_r.
Qed.

Lemma tracks_refl sid uid now rowid :
  tracks sid uid
    {| Tracker.id := rowid; Tracker.session_id := sid;
       Tracker.card_uid := uid; Tracker.voted_at := now |} = true.
Proof.
  unfold tracks; simpl. rewrite Z.eqb_refl, String.eqb_refl. reflexivity.
Qed.

Lemma filter_none {A} (p : A → bool) (l : list A) :
  existsb p l = false → List.filter p l = [].
Proof.
  induction l as [|a l IH]; simpl; [reflexivity|].
  intros E. apply orb_false_elim in E as [Ea El].
  rewrite Ea. auto.
Qed.

(** What a first vote does, step by step. *)
Lemma record_vote_fresh now sid uid opt d :
  fk_session sid d = true →
  card_has_voted uid sid d = false →
  record_vote now sid uid opt d =
    (Return true,
     with_votes
       (votes d ++
        [ {| Vote.id := seq_votes d + 1; Vote.session_id := sid;
             Vote.voted_at := now; Vote.option := opt |} ])
       (seq_votes d + 1)
       (with_vote_tracker
          (vote_tracker d ++
           [ {| Tracker.id := seq_vote_tracker d + 1; Tracker.session_id := sid;
                Tracker.card_uid := uid; Tracker.voted_at := now |} ])
          (seq_vote_tracker d + 1) d)).
Proof.
  intros Hfk Hnv.
  unfold record_vote, insert_or_ignore_vote_tracker.
  rewrite Hnv, Hfk; simpl.
  unfold insert_vote, fk_session; simpl.
  unfold fk_session in Hfk. rewrite Hfk; simpl. reflexivity.
Qed.

(** A vote by a card the tracker already holds writes no row: the insert is
    ignored, and only the rowid drawn for it is used up. *)
Lemma record_vote_duplicate now sid uid opt d :
  card_has_voted uid sid d = true →
  record_vote now sid uid opt d =
    (Return false,
     with_vote_tracker (vote_tracker d) (seq_vote_tracker d + 1) d).
Proof.
  intros Hv. unfold record_vote, insert_or_ignore_vote_tracker.
  rewrite Hv; simpl. reflexivity.
Qed.

End DbFacts.

(** C1 as stated fails twice over.  First, the duplicate call does write:
    SQLite draws a rowid for the ignored tracker insert and the commit keeps
    the advanced AUTOINCREMENT counter, so after a vote by card 04:A1:B2 in
    session 1 the second call moves the counter of [vote_tracker] from 1 to
    2 and the database is no longer the one before the call.  Second, for a
    session id without a session row (a fresh database has no session 1) the
    tracker insert breaks the foreign key, and the first call raises instead
    of returning True. *)
Lemma record_vote_twice_fails_as_stated :
  (∃ d1 d2,
     Db.card_has_voted "04:A1:B2" 1 demo_db = false ∧
     Db.record_vote 30 1 "04:A1:B2" "A" demo_db = (Return true, d1) ∧
     Db.record_vote 40 1 "04:A1:B2" "B" d1 = (Return false, d2) ∧
     Db.seq_vote_tracker d1 = 1 ∧ Db.seq_vote_tracker d2 = 2 ∧
     d2 ≠ d1) ∧
  (Db.card_has_voted "04:A1:B2" 1 (Db.init_db Db.empty_db) = false ∧
   Db.record_vote 0 1 "04:A1:B2" "A" (Db.init_db Db.empty_db)
   = (Raise (Db.IntegrityError "FOREIGN KEY constraint failed"),
      Db.init_db Db.empty_db) ∧
   fst (Db.record_vote 0 1 "04:A1:B2" "A" (Db.init_db Db.empty_db))
   ≠ Return true).
Proof.
  split.
  - eexists; eexists.
    split; [reflexivity|]. split; [reflexivity|]. split; [reflexivity|].
    split; [reflexivity|]. split; [reflexivity|].
    intros E. apply (f_equal Db.seq_vote_tracker) in E.
    vm_compute in E. discriminate.
  - split; [reflexivity|]. split; [reflexivity|]. discriminate.
Qed.

(** C1 (amended).  For every id [S] of a stored session, UID [U] and options
    [O1], [O2]: when no tracker entry (S, U) exists, [record_vote S U O1]
    returns True, and a following [record_vote S U O2] returns False and
    writes no row: the database after it is the one before it with only the
    AUTOINCREMENT counter of [vote_tracker] advanced by one, every table
    (sessions, cards, votes, vote_tracker, settings) being as the first call
    left it.  Afterwards the tracker holds exactly one entry (S, U), and the
    votes table is the old one plus exactly one row, for session S with
    option O1. *)
Theorem record_vote_twice (d : Db.db) (now1 now2 S : Z) (U O1 O2 : string) :
  Db.fk_session S d = true →
  Db.card_has_voted U S d = false →
  ∃ d1 d2,
    Db.record_vote now1 S U O1 d = (Return true, d1) ∧
    Db.record_vote now2 S U O2 d1 = (Return false, d2) ∧
    d2 = Db.with_vote_tracker (Db.vote_tracker d1)
           (Db.seq_vote_tracker d1 + 1) d1 ∧
    (Db.sessions d2 = Db.sessions d1 ∧ Db.cards d2 = Db.cards d1 ∧
     Db.votes d2 = Db.votes d1 ∧ Db.vote_tracker d2 = Db.vote_tracker d1 ∧
     Db.settings d2 = Db.settings d1) ∧
    List.length (List.filter (Db.tracks S U) (Db.vote_tracker d2)) = 1%nat ∧
    Db.votes d2 =
      Db.votes d ++
      [ {| Vote.id := Db.seq_votes d + 1; Vote.session_id := S;
           Vote.voted_at := now1; Vote.option := O1 |} ].
Proof.
  intros Hfk Hnv.
  eexists; eexists. split; [apply DbFacts.record_vote_fresh; assumption|].
  split.
  - apply DbFacts.record_vote_duplicate.
    unfold Db.card_has_voted; simpl.
    rewrite existsb_app; simpl.
    rewrite DbFacts.tracks_refl. apply orb_true_iff; right; reflexivity.
  - split; [reflexivity|].
    split; [repeat split|].
    split; [|reflexivity].
    simpl. rewrite List.filter_app; simpl.
    rewrite DbFacts.tracks_refl.
    rewrite (DbFacts.filter_none _ _ Hnv). reflexivity.
Qed.

Lemma record_vote_twice_witness :
  ∃ d1 d2,
    Db.record_vote 30 1 "04:A1:B2" "A" demo_db = (Return true, d1) ∧
    Db.record_vote 40 1 "04:A1:B2" "B" d1 = (Return false, d2) ∧
    d2 = Db.with_vote_tracker (Db.vote_tracker d1)
           (Db.seq_vote_tracker d1 + 1) d1 ∧
    (Db.sessions d2 = Db.sessions d1 ∧ Db.cards d2 = Db.cards d1 ∧
     Db.votes d2 = Db.votes d1 ∧ Db.vote_tracker d2 = Db.vote_tracker d1 ∧
     Db.settings d2 = Db.settings d1) ∧
    List.length (List.filter (Db.tracks 1 "04:A1:B2") (Db.vote_tracker d2)) = 1%nat ∧
    Db.votes d2 =
      Db.votes demo_db ++
      [ {| Vote.id := Db.seq_votes demo_db + 1; Vote.session_id := 1;
           Vote.voted_at := 30; Vote.option := "A" |} ].
Proof.
  apply (record_vote_twice demo_db 30 40 1 "04:A1:B2" "A" "B"); reflexivity.
Defined.

(** ** The session resolver *)

Module SessionFacts.
Import Db Spec.

Lemma sorted_snoc l x :
  StronglySorted id_lt l → Forall (fun a => id_lt a x) l →
  StronglySorted id_lt (l ++ [x]).
Proof.
  induction 1 as [|a l Hs IH Ha]; intros Hx; simpl.
  - repeat constructor.
  - inversion Hx; subst. constructor; [auto|].
    apply Forall_app; split; [assumption|]. repeat constructor; assumption.
Qed.

Lemma sorted_map_same_id (f : Session.row → Session.row) l :
  (∀ s, Session.id (f s) = Session.id s) →
  StronglySorted id_lt l → StronglySorted id_lt (List.map f l).
Proof.
  intros Hf. induction 1 as [|a l Hs IH Ha]; simpl; constructor; [assumption|].
  apply Forall_forall. intros y Hy.
  apply list_elem_of_In, in_map_iff in Hy as (x & <- & Hx).
  unfold id_lt. rewrite !Hf.
  rewrite Forall_forall in Ha. apply Ha. now apply list_elem_of_In.
Qed.

Lemma update_row_id i q a b c dd st en act s :
  Session.id (update_row i q a b c dd st en act s) = Session.id s.
Proof. unfold update_row. destruct (Session.id s =? i); reflexivity. Qed.

Lemma record_vote_sessions now sid uid opt d :
  sessions (snd (record_vote now sid uid opt d)) = sessions d ∧
  seq_sessions (snd (record_vote now sid uid opt d)) = seq_sessions d.
Proof.
  unfold record_vote, insert_or_ignore_vote_tracker, insert_vote.
  destruct (card_has_voted uid sid d); simpl; [auto|].
  destruct (fk_session sid d) eqn:E; simpl; [|auto].
  unfold fk_session in *; simpl. rewrite E; simpl. auto.
Qed.

Lemma step_sessions_ok d e : sessions_ok d → sessions_ok (step d e).
Proof.
  intros [Hs Hb]. destruct e as [now o]. destruct o; unfold step; simpl.
  - split; assumption.
  - split; simpl.
    + apply sorted_snoc; [assumption|].
      eapply Forall_impl; [exact Hb|]. unfold id_lt; simpl. intros; lia.
    + apply Forall_app; split.
      * eapply Forall_impl; [exact Hb|]. simpl. intros; lia.
      * repeat constructor. simpl. lia.
  - split; simpl.
    + apply sorted_map_same_id; [apply update_row_id | assumption].
    + apply Forall_forall. intros y Hy.
      apply list_elem_of_In, in_map_iff in Hy as (x & <- & Hx).
      rewrite update_row_id. rewrite Forall_forall in Hb.
      apply Hb. now apply list_elem_of_In.
  - unfold enroll_card. destruct (card_exists uid d); split; assumption.
  - split; assumption.
  - destruct (record_vote_sessions now session_id card_uid option d) as [E1 E2].
    unfold sessions_ok. rewrite E1, E2. split; assumption.
  - split; assumption.
Qed.

Lemma run_sessions_ok h : sessions_ok (run h).
Proof.
  assert (sessions_ok empty_db) as H0 by (split; constructor).
  unfold run. revert H0. generalize empty_db.
  induction h as [|e h IH]; intros d Hd; simpl; [assumption|].
  apply IH, step_sessions_ok, Hd.
Qed.

Lemma sorted_filter p l :
  StronglySorted id_lt l → StronglySorted id_lt (List.filter p l).
Proof.
  induction 1 as [|a l Hs IH Ha]; simpl; [constructor|].
  destruct (p a); [|assumption]. constructor; [assumption|].
  apply Forall_forall. intros y Hy.
  apply list_elem_of_In, filter_In in Hy as [Hy _].
  rewrite Forall_forall in Ha. apply Ha. now apply list_elem_of_In.
Qed.

(** With growing ids the greatest id is the last row. *)
Lemma max_by_id_last l : StronglySorted id_lt l → max_by_id l = last l.
Proof.
  induction 1 as [|a l Hs IH Ha]; simpl; [reflexivity|].
  rewrite IH. destruct l as [|b l]; [reflexivity|].
  change (last (a :: b :: l)) with (last (b :: l)).
  destruct (last (b :: l)) as [m|] eqn:El;
    [|apply last_None in El; discriminate].
  apply last_Some_elem_of in El.
  rewrite Forall_forall in Ha. specialize (Ha m El). unfold id_lt in Ha.
  destruct (Session.id m <? Session.id a) eqn:C; [lia | reflexivity].
Qed.

(** The last selected row splits the table: nothing after it is selected. *)
Lemma last_filter {A} (p : A → bool) (l : list A) (x : A) :
  last (List.filter p l) = Some x →
  ∃ l1 l2, l = l1 ++ x :: l2 ∧ p x = true ∧ Forall (fun y => p y = false) l2.
Proof.
  induction l as [|a l IH]; simpl; [discriminate|].
  destruct (List.filter p l) as [|b r] eqn:F.
  - destruct (p a) eqn:Pa; simpl; [|discriminate].
    intros [= <-]. exists [], l. split; [reflexivity|]. split; [assumption|].
    apply Forall_forall. intros y Hy.
    destruct (p y) eqn:Py; [|reflexivity].
    assert (In y (List.filter p l)) as Hin
      by (apply filter_In; split; [now apply list_elem_of_In | assumption]).
    rewrite F in Hin. destruct Hin.
  - intros Hl.
    assert (last (b :: r) = Some x) as Hl'.
    { destruct (p a); [|assumption]. exact Hl. }
    destruct (IH Hl') as (l1 & l2 & -> & Px & Hl2).
    exists (a :: l1), l2. auto.
Qed.

Lemma filter_nil_iff {A} (p : A → bool) (l : list A) :
  List.filter p l = [] ↔ Forall (fun y => p y = false) l.
Proof.
  induction l as [|a l IH]; simpl.
  - split; [constructor | reflexivity].
  - destruct (p a) eqn:Pa.
    + split; [discriminate|]. intros Hf. inversion Hf; congruence.
    + rewrite IH. split; [intros; constructor; assumption|].
      intros Hf. now inversion Hf.
Qed.

Lemma max_by_id_None l : max_by_id l = None ↔ l = [].
Proof.
  destruct l as [|a l]; simpl; [tauto|].
  split; [|discriminate].
  destruct (max_by_id l) as [m|]; [|discriminate].
  destruct (Session.id m <? Session.id a); discriminate.
Qed.

End SessionFacts.

(** C3.  In every database the application can produce and at every time
    [now]: [get_active_session] returns None exactly when no stored session
    is active with [now] inside [start_time, end_time] (bounds included);
    otherwise it returns a qualifying session, the one created last among
    the qualifying ones (every session created after it does not qualify,
    and it has the greatest id of them). *)
Theorem get_active_session_spec (h : list (Z * Db.op)) (now : Z) :
  (Db.get_active_session now (Db.run h) = None ↔
   Forall (fun s =>
             ¬ (Session.is_active s = 1 ∧
                ∃ a b, Session.start_time s = Some a ∧
                       Session.end_time s = Some b ∧ a <= now <= b))
     (Db.sessions (Db.run h))) ∧
  (∀ s, Db.get_active_session now (Db.run h) = Some s →
     (Session.is_active s = 1 ∧
      ∃ a b, Session.start_time s = Some a ∧ Session.end_time s = Some b ∧
             a <= now <= b) ∧
     (∃ older newer,
        Db.sessions (Db.run h) = older ++ s :: newer ∧
        Forall (fun s' => Db.session_open now s' = false) newer) ∧
     (∀ s', s' ∈ Db.sessions (Db.run h) → Db.session_open now s' = true →
            Session.id s' <= Session.id s)).
Proof.
  assert (Hopen : ∀ s, Db.session_open now s = true ↔
            (Session.is_active s = 1 ∧
             ∃ a b, Session.start_time s = Some a ∧ Session.end_time s = Some b ∧
                    a <= now <= b)).
  { intros s. unfold Db.session_open.
    rewrite andb_true_iff, Z.eqb_eq.
    destruct (Session.start_time s) as [a|], (Session.end_time s) as [b|].
    - rewrite andb_true_iff, !Z.leb_le. split.
      + intros (? & ? & ?). split; [assumption|]. exists a, b. auto.
      + intros (? & a' & b' & [= <-] & [= <-] & ? & ?). auto.
    - split; [intros [_ ?]; discriminate|]. intros (_ & ? & ? & _ & ? & _). discriminate.
    - split; [intros [_ ?]; discriminate|]. intros (_ & ? & ? & ? & _). discriminate.
    - split; [intros [_ ?]; discriminate|]. intros (_ & ? & ? & ? & _). discriminate. }
  destruct (SessionFacts.run_sessions_ok h) as [Hs _].
  set (d := Db.run h) in *.
  unfold Db.get_active_session. split.
  - rewrite SessionFacts.max_by_id_None, SessionFacts.filter_nil_iff.
    split; intros Hf; (eapply Forall_impl; [exact Hf|]); simpl; intros s Hsx.
    + rewrite <- Hopen. congruence.
    + rewrite <- Hopen in Hsx. destruct (Db.session_open now s); congruence.
  - intros s Hg.
    rewrite SessionFacts.max_by_id_last in Hg by now apply SessionFacts.sorted_filter.
    destruct (SessionFacts.last_filter _ _ _ Hg) as (l1 & l2 & Hl & Ps & Hl2).
    split; [now apply Hopen|]. split; [exists l1, l2; auto|].
    intros s' Hin Hs'. rewrite Hl in Hin, Hs.
    apply elem_of_app in Hin as [Hin|Hin].
    + assert (Spec.id_lt s' s); [|unfold Spec.id_lt in *; lia].
      clear -Hs Hin. induction l1 as [|x l1 IH]; [inversion Hin|].
      simpl in Hs. inversion Hs as [|? ? Hr Hx]; subst.
      apply elem_of_cons in Hin as [->|Hin]; [|auto].
      rewrite Forall_forall in Hx. apply Hx. apply elem_of_app. right. left.
    + apply elem_of_cons in Hin as [->|Hin]; [lia|].
      rewrite Forall_forall in Hl2. rewrite (Hl2 _ Hin) in Hs'. discriminate.
Qed.

(** ** Tallies *)

Module TallyFacts.
Import Db Spec.

Lemma cnt_cons p v l : cnt p (v :: l) = (if p v then 1 else 0) + cnt p l.
Proof. unfold cnt; simpl. destruct (p v); simpl; lia. Qed.

Lemma cnt_nonneg p l : 0 <= cnt p l.
Proof. unfold cnt. lia. Qed.

Lemma group_count_lookup l o :
  default 0 (group_count l !! o) = cnt (fun v => String.eqb (Vote.option v) o) l.
Proof.
  induction l as [|v l IH]; [reflexivity|].
  rewrite cnt_cons. cbn [group_count foldr]. fold (group_count l).
  destruct (String.eqb_spec (Vote.option v) o) as [->|Hne].
  - rewrite lookup_insert_eq. simpl. rewrite IH. lia.
  - rewrite lookup_insert_ne by assumption. rewrite IH. lia.
Qed.

Lemma cnt_filter p q l :
  cnt q (List.filter p l) = cnt (fun v => p v && q v) l.
Proof.
  induction l as [|v l IH]; [reflexivity|].
  rewrite cnt_cons. simpl. destruct (p v); simpl; [|assumption].
  rewrite cnt_cons, IH. reflexivity.
Qed.

(** The count the dict holds under a key is the number of vote rows of
    the session that carry this option. *)
Lemma counts_raw_lookup sid d o :
  default 0 (group_count (List.filter (of_session sid) (votes d)) !! o)
  = cnt (fun v => of_session sid v && String.eqb (Vote.option v) o) (votes d).
Proof. rewrite group_count_lookup. apply cnt_filter. Qed.

Lemma cnt_split p k ks l :
  existsb (String.eqb k) ks = false →
  cnt (fun v => p v && existsb (String.eqb (Vote.option v)) (k :: ks)) l
  = cnt (fun v => p v && String.eqb (Vote.option v) k) l
    + cnt (fun v => p v && existsb (String.eqb (Vote.option v)) ks) l.
Proof.
  intros Hk. induction l as [|v l IH]; [reflexivity|].
  rewrite !cnt_cons, IH. simpl.
  destruct (p v); simpl; [|lia].
  destruct (String.eqb_spec (Vote.option v) k) as [->|Hne]; simpl; [|lia].
  rewrite Hk. lia.
Qed.

Lemma sum_over_keys p ks l :
  NoDup ks →
  foldr (fun k acc => cnt (fun v => p v && String.eqb (Vote.option v) k) l + acc) 0 ks
  = cnt (fun v => p v && existsb (String.eqb (Vote.option v)) ks) l.
Proof.
  induction 1 as [|k ks Hk Hnd IH]; simpl.
  - induction l as [|v l IHl]; [reflexivity|].
    rewrite cnt_cons, <- IHl. rewrite andb_false_r. reflexivity.
  - rewrite IH. symmetry. apply cnt_split.
    destruct (existsb (String.eqb k) ks) eqn:E; [|reflexivity].
    apply existsb_exists in E as (x & Hx & Hkx).
    apply String.eqb_eq in Hkx as ->.
    exfalso. apply Hk. now apply list_elem_of_In.
Qed.

Lemma option_keys_NoDup s : NoDup (option_keys s).
Proof.
  unfold option_keys.
  destruct (truthy (Session.option_c s)), (truthy (Session.option_d s)); simpl;
    apply (bool_decide_unpack _); reflexivity.
Qed.

End TallyFacts.

(** C10.  For an existing session [get_vote_counts] is the dict with, in
    this order, the entry 'A' labelled with the session's [option_a], the
    entry 'B' labelled with its [option_b], the entry 'C' labelled with its
    [option_c] exactly when that label is set, and the entry 'D' labelled
    with its [option_d] exactly when that label is set; the count of each
    entry is the number (zero or more) of the session's vote rows with that
    letter, so rows with any other letter are in no entry and the counts add
    up to the rows whose letter is a defined key.  For an unknown session id
    the result is the empty dict. *)
Theorem get_vote_counts_spec (d : Db.db) (session_id : Z) :
  (Db.get_session session_id d = None → Db.get_vote_counts session_id d = []) ∧
  (∀ s, Db.get_session session_id d = Some s →
     let n := fun opt : string =>
       Z.of_nat (List.length
         (List.filter
            (fun v => (Vote.session_id v =? session_id)
                      && String.eqb (Vote.option v) opt)
            (Db.votes d))) in
     Db.get_vote_counts session_id d
     = [ ("A", {| Db.label := Some (Session.option_a s); Db.count := n "A" |});
         ("B", {| Db.label := Some (Session.option_b s); Db.count := n "B" |}) ]
       ++ (if truthy (Session.option_c s)
           then [("C", {| Db.label := Session.option_c s; Db.count := n "C" |})]
           else [])
       ++ (if truthy (Session.option_d s)
           then [("D", {| Db.label := Session.option_d s; Db.count := n "D" |})]
           else []) ∧
     List.map fst (Db.get_vote_counts session_id d)
     = ["A"; "B"] ++ (if truthy (Session.option_c s) then ["C"] else [])
                  ++ (if truthy (Session.option_d s) then ["D"] else []) ∧
     (∀ opt t, (opt, t) ∈ Db.get_vote_counts session_id d →
        (opt = "A" ∧ Db.label t = Some (Session.option_a s) ∨
         opt = "B" ∧ Db.label t = Some (Session.option_b s) ∨
         opt = "C" ∧ Db.label t = Session.option_c s
                   ∧ truthy (Session.option_c s) = true ∨
         opt = "D" ∧ Db.label t = Session.option_d s
                   ∧ truthy (Session.option_d s) = true) ∧
        Db.count t = n opt ∧
        0 <= Db.count t) ∧
     Sheets.sum_counts (Db.get_vote_counts session_id d) =
       Z.of_nat (List.length
         (List.filter
            (fun v => (Vote.session_id v =? session_id)
                      && existsb (String.eqb (Vote.option v))
                           (List.map fst (Db.get_vote_counts session_id d)))
            (Db.votes d)))).
Proof.
  unfold Db.get_vote_counts. split.
  - intros ->. reflexivity.
  - intros s Hs. cbv zeta. rewrite Hs.
    pose (n := fun opt : string =>
            Z.of_nat (List.length
              (List.filter
                 (fun v => (Vote.session_id v =? session_id)
                           && String.eqb (Vote.option v) opt)
                 (Db.votes d)))).
    assert (Hn : ∀ opt,
              default 0
                (Db.group_count
                   (List.filter (Db.of_session session_id) (Db.votes d)) !! opt)
              = n opt).
    { intros opt. rewrite TallyFacts.counts_raw_lookup. reflexivity. }
    assert (Hkeys : ∀ (f : string → Db.tally),
              List.map fst (List.map (fun opt => (opt, f opt)) (Db.option_keys s))
              = Db.option_keys s).
    { intros f. rewrite List.map_map. apply List.map_id. }
    split; [|split; [apply Hkeys|split]].
    + unfold Db.option_keys.
      destruct (truthy (Session.option_c s)), (truthy (Session.option_d s));
        cbn [List.map app]; rewrite !Hn; reflexivity.
    + intros opt t Hin.
      apply list_elem_of_In, in_map_iff in Hin as (k & [= <- <-] & Hk).
      cbn [Db.label Db.count]. rewrite Hn.
      split; [|split; [reflexivity|unfold n; lia]].
      revert Hk. unfold Db.option_keys.
      destruct (truthy (Session.option_c s)), (truthy (Session.option_d s));
        cbn [app In]; intros Hk;
        repeat (destruct Hk as [<-|Hk]; [auto 10|]); contradiction.
    + rewrite Hkeys.
      change (Z.of_nat _) with
        (Spec.cnt
           (fun v => Db.of_session session_id v
                     && existsb (String.eqb (Vote.option v)) (Db.option_keys s))
           (Db.votes d)).
      rewrite <- TallyFacts.sum_over_keys by apply TallyFacts.option_keys_NoDup.
      unfold Sheets.sum_counts. clear Hkeys Hn.
      induction (Db.option_keys s) as [|k ks IH]; [reflexivity|].
      simpl. rewrite IH, TallyFacts.counts_raw_lookup. reflexivity.
Qed.

(** ** The capability token *)

Module TokenFacts.
Import Token.

Lemma rsplit_no_sep b : contains_sep b = false → rsplit b = None.
Proof.
  induction b as [|c b IH]; simpl; [reflexivity|].
  intros E. apply orb_false_elim in E as [Ec Eb].
  rewrite (IH Eb), Ec. reflexivity.
Qed.

(** Splitting at the last separator undoes appending a separator-free
    suffix, whatever the prefix holds. *)
Lemma rsplit_app a b :
  contains_sep b = false → rsplit (a +:+ String sep b) = Some (a, b).
Proof.
  intros Hb. induction a as [|c a IH]; simpl.
  - rewrite (rsplit_no_sep b Hb). reflexivity.
  - rewrite IH. reflexivity.
Qed.

Section WithLaws.
Context `{SerializerLaws}.
Variable SECRET_KEY : string.

Lemma signer_unsign_sign value :
  signer_unsign SECRET_KEY (signer_sign SECRET_KEY value) = Return value.
Proof.
  unfold signer_unsign, signer_sign.
  rewrite rsplit_app by apply signature_no_sep.
  rewrite signature_verifies. reflexivity.
Qed.

(** Unsigning what was signed at [t0]: only the age decides. *)
Lemma unsign_sign now max_age t0 value :
  0 <= t0 →
  unsign SECRET_KEY now max_age (sign SECRET_KEY t0 value) =
    if max_age <? now - t0 then Raise SignatureExpired
    else if now - t0 <? 0 then Raise SignatureExpired
    else Return value.
Proof.
  intros Ht0. unfold unsign, sign.
  rewrite signer_unsign_sign.
  rewrite rsplit_app by apply timestamp_no_sep.
  rewrite timestamp_decode_encode by assumption. reflexivity.
Qed.

(** The signer itself never raises [BadPayload]. *)
Lemma unsign_not_BadPayload now max_age token :
  unsign SECRET_KEY now max_age token ≠ Raise BadPayload.
Proof.
  unfold unsign.
  destruct (signer_unsign SECRET_KEY token) as [v|p];
    [destruct (rsplit v) as [[a b]|] | destruct (rsplit (payload_or_empty p)) as [[a b]|]];
    try discriminate.
  destruct (timestamp_decode b); [|discriminate].
  destruct (_ <? _); [discriminate|]. destruct (_ <? _); discriminate.
Qed.

(** A signature that does not verify, a missing or unreadable timestamp and
    an age outside [0, max age] all give [None]. *)
Lemma verify_token_unsign_fails now token e :
  unsign SECRET_KEY now Config.TOKEN_MAX_AGE token = Raise e →
  verify_token SECRET_KEY now token = Return None.
Proof.
  intros U. unfold verify_token, loads.
  pose proof (unsign_not_BadPayload now Config.TOKEN_MAX_AGE token) as Hn.
  rewrite U in *. destruct e; simpl; congruence.
Qed.

End WithLaws.

(** The unary serializer keeps the laws. *)

Lemma count_ones_ones n : Plain.count_ones (Plain.ones n) = (n, EmptyString).
Proof. induction n as [|n IH]; simpl; [reflexivity|]. rewrite IH. reflexivity. Qed.

Lemma count_ones_colon n u :
  Plain.count_ones (Plain.ones n +:+ String ":" u) = (n, String ":" u).
Proof. induction n as [|n IH]; simpl; [reflexivity|]. rewrite IH. reflexivity. Qed.

Lemma ones_no_sep n : contains_sep (Plain.ones n) = false.
Proof. induction n as [|n IH]; simpl; [reflexivity|assumption]. Qed.

Lemma plain_laws : @SerializerLaws Plain.serializer.
Proof.
  split; simpl.
  - intros [u s]. unfold Plain.dump_payload, Plain.load_payload; simpl.
    rewrite count_ones_colon. simpl.
    destruct (s <? 0) eqn:E; simpl; f_equal; f_equal; lia.
  - intros t Ht. unfold Plain.timestamp_encode, Plain.timestamp_decode.
    rewrite count_ones_ones. f_equal. lia.
  - intros t. apply ones_no_sep.
  - intros k v. unfold Plain.verify_signature. apply String.eqb_refl.
  - intros k v. apply ones_no_sep.
Qed.

End TokenFacts.

(** C2.  A token issued for (u, s) at clock reading [t0] verifies to exactly
    {uid: u, session_id: s} when read at once and up to TOKEN_MAX_AGE = 300
    seconds later; read after more than 300 seconds it is invalid (None).
    Clock readings are the serializer's whole seconds. *)
Theorem verify_after_issue `{Token.SerializerLaws} (SECRET_KEY : string)
    (u : string) (s : Z) (t0 : Z) :
  0 <= t0 →
  Token.verify_token SECRET_KEY t0
    (Token.make_token SECRET_KEY t0 {| Token.uid := u; Token.session_id := s |})
  = Return (Some {| Token.uid := u; Token.session_id := s |}) ∧
  (∀ now, 0 <= now - t0 <= Config.TOKEN_MAX_AGE →
     Token.verify_token SECRET_KEY now
       (Token.make_token SECRET_KEY t0 {| Token.uid := u; Token.session_id := s |})
     = Return (Some {| Token.uid := u; Token.session_id := s |})) ∧
  (∀ now, Config.TOKEN_MAX_AGE < now - t0 →
     Token.verify_token SECRET_KEY now
       (Token.make_token SECRET_KEY t0 {| Token.uid := u; Token.session_id := s |})
     = Return None).
Proof.
  intros Ht0.
  assert (Hfresh : ∀ now, 0 <= now - t0 <= Config.TOKEN_MAX_AGE →
     Token.verify_token SECRET_KEY now
       (Token.make_token SECRET_KEY t0 {| Token.uid := u; Token.session_id := s |})
     = Return (Some {| Token.uid := u; Token.session_id := s |})).
  { intros now Hage.
    unfold Token.verify_token, Token.loads, Token.make_token, Token.dumps.
    rewrite TokenFacts.unsign_sign by assumption.
    destruct (Z.ltb_spec Config.TOKEN_MAX_AGE (now - t0)); [lia|].
    destruct (Z.ltb_spec (now - t0) 0); [lia|].
    rewrite Token.load_dump. reflexivity. }
  split; [apply Hfresh; unfold Config.TOKEN_MAX_AGE; lia|].
  split; [exact Hfresh|].
  intros now Hage.
  unfold Token.verify_token, Token.loads, Token.make_token, Token.dumps.
  rewrite TokenFacts.unsign_sign by assumption.
  destruct (Z.ltb_spec Config.TOKEN_MAX_AGE (now - t0)); [reflexivity|lia].
Qed.

Lemma verify_after_issue_witness :
  Token.verify_token (H := Plain.serializer) "k" 7
    (Token.make_token (H := Plain.serializer) "k" 7
       {| Token.uid := "04:A1:B2"; Token.session_id := 1 |})
  = Return (Some {| Token.uid := "04:A1:B2"; Token.session_id := 1 |}) ∧
  (∀ now, 0 <= now - 7 <= Config.TOKEN_MAX_AGE →
     Token.verify_token (H := Plain.serializer) "k" now
       (Token.make_token (H := Plain.serializer) "k" 7
          {| Token.uid := "04:A1:B2"; Token.session_id := 1 |})
     = Return (Some {| Token.uid := "04:A1:B2"; Token.session_id := 1 |})) ∧
  (∀ now, Config.TOKEN_MAX_AGE < now - 7 →
     Token.verify_token (H := Plain.serializer) "k" now
       (Token.make_token (H := Plain.serializer) "k" 7
          {| Token.uid := "04:A1:B2"; Token.session_id := 1 |})
     = Return None).
Proof.
  apply (verify_after_issue (H0 := TokenFacts.plain_laws) "k" "04:A1:B2" 1 7).
  lia.
Defined.

(** C8 (where the code departs).  A token whose signature and timestamp are
    accepted but whose payload does not decode makes [verify_token] raise
    [BadPayload] instead of returning None: the [except] clause names
    [BadSignature] and [SignatureExpired] only. *)
Theorem verify_token_bad_payload `{Token.SerializerLaws} (SECRET_KEY : string)
    (value : string) (t0 now : Z) :
  0 <= t0 →
  0 <= now - t0 <= Config.TOKEN_MAX_AGE →
  Token.load_payload value = None →
  Token.verify_token SECRET_KEY now (Token.sign SECRET_KEY t0 value)
  = Raise Token.BadPayload.
Proof.
  intros Ht0 Hage Hload.
  unfold Token.verify_token, Token.loads.
  rewrite TokenFacts.unsign_sign by assumption.
  destruct (Z.ltb_spec Config.TOKEN_MAX_AGE (now - t0)); [lia|].
  destruct (Z.ltb_spec (now - t0) 0); [lia|].
  rewrite Hload. reflexivity.
Qed.

Lemma verify_token_bad_payload_witness :
  Token.verify_token (H := Plain.serializer) "k" 9
    (Token.sign (H := Plain.serializer) "k" 7 "")
  = Raise Token.BadPayload.
Proof.
  apply (verify_token_bad_payload (H0 := TokenFacts.plain_laws) "k" "" 7 9);
    [lia | unfold Config.TOKEN_MAX_AGE; lia | reflexivity].
Defined.

(** ** The card gate *)

Module GateFacts.

Lemma emit_spec e ns w :
  emit e ns w =
    (Return tt,
     {| store := store w; emitted := emitted w ++ [(e, ns)]; threads := threads w |}).
Proof. reflexivity. Qed.

End GateFacts.

(** C4.  A scan never writes: it returns with the database (so the
    vote_tracker table) untouched and no thread started.  It emits the raw
    scan to the admin console and then exactly one kiosk event, decided by
    the gates in the order session open, card registered and active, not
    yet voted: with no open session the event is the rejection "voting not
    open" whatever the card's registration and history; with an open
    session and an unregistered card it is "not registered" whatever the
    history; then "already voted"; and when all gates pass it is the
    authorization [card_valid] carrying the path '/vote/<token>' of a token
    for (uid, session id). *)
Theorem process_scan_gates `{Token.Serializer} (SECRET_KEY : string)
    (now clock : Z) (uid : string) (w : world) :
  ∃ w' e,
    Nfc._process_scan SECRET_KEY now clock uid w = (Return tt, w') ∧
    store w' = store w ∧ threads w' = threads w ∧
    Db.vote_tracker (store w') = Db.vote_tracker (store w) ∧
    Spec.scan_emits uid w w' e ∧
    (Db.get_active_session now (store w) = None →
       e = card_error "Voting is not open right now.") ∧
    (∀ session, Db.get_active_session now (store w) = Some session →
       (Db.card_is_registered uid (store w) = false →
          e = card_error "Card not registered. Please see an administrator.") ∧
       (Db.card_is_registered uid (store w) = true →
        Db.card_has_voted uid (Session.id session) (store w) = true →
          e = card_error "You have already voted this week!") ∧
       (Db.card_is_registered uid (store w) = true →
        Db.card_has_voted uid (Session.id session) (store w) = false →
          e = card_valid
                ("/vote/" +:+
                 Token.dumps SECRET_KEY clock
                   {| Token.uid := uid; Token.session_id := Session.id session |}))).
Proof.
  unfold Nfc._process_scan, bind, query, emit, Spec.scan_emits.
  run_world.
  destruct (Db.get_active_session now (store w)) as [session|] eqn:Ha;
    run_world.
  - destruct (Db.card_is_registered uid (store w)) eqn:Hr; run_world.
    + destruct (Db.card_has_voted uid (Session.id session) (store w)) eqn:Hv;
        run_world;
        eexists _, _; (split; [reflexivity|]); run_world;
        rewrite <- app_assoc; do 4 (split; [reflexivity|]);
        (split; [discriminate|]); intros s' [= <-];
        repeat split; try discriminate; try reflexivity; congruence.
    + eexists _, _; (split; [reflexivity|]); run_world.
      rewrite <- app_assoc; do 4 (split; [reflexivity|]).
      split; [discriminate|]. intros s' [= <-].
      repeat split; try discriminate; reflexivity.
  - eexists _, _; (split; [reflexivity|]); run_world.
    rewrite <- app_assoc; do 4 (split; [reflexivity|]).
    split; [reflexivity|]. intros s' [=].
Qed.

(** ** Redeeming a token *)

Module RedeemFacts.

Lemma get_session_fk sid d s :
  Db.get_session sid d = Some s → Db.fk_session sid d = true.
Proof.
  unfold Db.get_session, Db.fk_session. intros Hf.
  apply find_some in Hf as [Hin Hid].
  apply existsb_exists. exists s. auto.
Qed.

Section WithSerializer.
Context `{Token.Serializer}.
Variable SECRET_KEY : string.

(** The empty text is never a valid token. *)
Lemma verify_token_empty clock :
  Token.verify_token SECRET_KEY clock "" = Return None.
Proof. reflexivity. Qed.

Lemma no_empty_option vsession :
  App.mem "" (List.map fst (App._build_options vsession)) = false.
Proof.
  unfold App._build_options.
  destruct (truthy (Session.option_c vsession)), (truthy (Session.option_d vsession));
    reflexivity.
Qed.

(** A valid submission: the vote is committed, the sync thread is started
    when syncing is enabled (its result is never read), the new total is
    announced and the request ends on the thank-you page. *)
Lemma submit_vote_commits now clock token form_option data vsession w :
  Token.verify_token SECRET_KEY clock token = Return (Some data) →
  Db.get_session (Token.session_id data) (store w) = Some vsession →
  App.mem (App.upper form_option) (List.map fst (App._build_options vsession)) = true →
  Db.card_has_voted (Token.uid data) (Token.session_id data) (store w) = false →
  ∃ d',
    Db.record_vote now (Token.session_id data) (Token.uid data)
      (App.upper form_option) (store w) = (Return true, d') ∧
    App.submit_vote SECRET_KEY now clock token form_option w
    = (Return (App.redirect_thankyou (Token.session_id data)),
       {| store := d';
          emitted :=
            emitted w ++
            [(vote_update (Token.session_id data)
                (Db.get_total_votes (Token.session_id data) d'), kiosk)];
          threads :=
            threads w ++
            (if bool_decide (Db.get_setting "sheets_enabled" (store w) = Some "1")
             then [Token.session_id data] else []) |}).
Proof.
  intros Hv Hs Hopt Hnv.
  assert (token ≠ "") as Htok.
  { intros ->. rewrite verify_token_empty in Hv. discriminate. }
  assert (App.upper form_option ≠ "") as Hne.
  { intros E. rewrite E, no_empty_option in Hopt. discriminate. }
  pose proof (DbFacts.record_vote_fresh now _ _ (App.upper form_option) _
                (get_session_fk _ _ _ Hs) Hnv) as Hrec.
  eexists. split; [exact Hrec|].
  unfold App.submit_vote.
  apply String.eqb_neq in Htok, Hne. rewrite Htok, Hne. cbn [orb].
  unfold App.verify, bind, query, record_vote, sync_to_sheets, emit, ret.
  rewrite Hv. run_world. rewrite Hs, Hopt. run_world.
  rewrite Hrec. run_world.
  change (Db.get_setting "sheets_enabled" (Db.with_votes _ _ (Db.with_vote_tracker _ _ (store w))))
    with (Db.get_setting "sheets_enabled" (store w)).
  destruct (bool_decide (Db.get_setting "sheets_enabled" (store w) = Some "1"));
    run_world; rewrite ?app_nil_r; reflexivity.
Qed.

End WithSerializer.
End RedeemFacts.

(** C5 (where the code departs).  [submit_vote] never consults the active
    session: with a token that still verifies for a stored session, a valid
    option and a card that has not voted, the vote is committed and the
    request ends on the thank-you page even though that session is not the
    open one, where the ballot page [vote] answers 'session_changed'. *)
Theorem submit_vote_stale_session `{Token.Serializer} (SECRET_KEY : string)
    (now clock : Z) (token form_option : string) (data : Token.payload)
    (vsession : Session.row) (w : world) :
  Token.verify_token SECRET_KEY clock token = Return (Some data) →
  Db.get_session (Token.session_id data) (store w) = Some vsession →
  App.mem (App.upper form_option) (List.map fst (App._build_options vsession)) = true →
  Db.card_has_voted (Token.uid data) (Token.session_id data) (store w) = false →
  (∀ a, Db.get_active_session now (store w) = Some a →
        Session.id a ≠ Token.session_id data) →
  fst (App.vote SECRET_KEY now clock token w)
    = Return (App.redirect_error "session_changed") ∧
  ∃ w',
    App.submit_vote SECRET_KEY now clock token form_option w
      = (Return (App.redirect_thankyou (Token.session_id data)), w') ∧
    Db.votes (store w') =
      Db.votes (store w) ++
      [ {| Vote.id := Db.seq_votes (store w) + 1;
           Vote.session_id := Token.session_id data;
           Vote.voted_at := now; Vote.option := App.upper form_option |} ] ∧
    Db.card_has_voted (Token.uid data) (Token.session_id data) (store w') = true.
Proof.
  intros Hv Hs Hopt Hnv Hstale. split.
  - unfold App.vote, App.verify, bind, query, ret. rewrite Hv.
    run_world.
    destruct (Db.get_active_session now (store w)) as [a|] eqn:Ha; [|reflexivity].
    specialize (Hstale a eq_refl).
    destruct (Z.eqb_spec (Session.id a) (Token.session_id data)); [contradiction|].
    reflexivity.
  - destruct (RedeemFacts.submit_vote_commits SECRET_KEY now clock token
                form_option data vsession w Hv Hs Hopt Hnv) as (d' & Hrec & Hsub).
    rewrite (DbFacts.record_vote_fresh now _ _ (App.upper form_option) _
               (RedeemFacts.get_session_fk _ _ _ Hs) Hnv) in Hrec.
    injection Hrec as <-.
    eexists. split; [exact Hsub|]. cbn [store].
    split; [reflexivity|].
    unfold Db.card_has_voted;
      cbn [Db.vote_tracker Db.with_votes Db.with_vote_tracker].
    rewrite existsb_app; cbn [existsb].
    rewrite DbFacts.tracks_refl. apply orb_true_iff; right; reflexivity.
Qed.

Lemma submit_vote_stale_session_witness :
  fst (App.vote (H := Plain.serializer) "k" 1100 1100 stale_token kiosk_world)
    = Return (App.redirect_error "session_changed") ∧
  ∃ w',
    App.submit_vote (H := Plain.serializer) "k" 1100 1100 stale_token "a" kiosk_world
      = (Return (App.redirect_thankyou 1), w') ∧
    Db.votes (store w') =
      Db.votes demo_db ++
      [ {| Vote.id := Db.seq_votes demo_db + 1; Vote.session_id := 1;
           Vote.voted_at := 1100; Vote.option := "A" |} ] ∧
    Db.card_has_voted "04:A1:B2" 1 (store w') = true.
Proof.
  refine (submit_vote_stale_session (H := Plain.serializer) "k" 1100 1100
            stale_token "a" {| Token.uid := "04:A1:B2"; Token.session_id := 1 |}
            {| Session.id := 1; Session.question := "Lunch?";
               Session.option_a := "Yes"; Session.option_b := "No";
               Session.option_c := None; Session.option_d := None;
               Session.start_time := Some 0; Session.end_time := Some 1000;
               Session.created_at := 10; Session.is_active := 1 |}
            kiosk_world _ _ _ _ _);
    try (vm_compute; reflexivity).
  intros a Ha. vm_compute in Ha. discriminate Ha.
Defined.

(** ** Anonymity of the tally *)

Module AnonFacts.
Import Db Anon.

Section Injective.
Variable f : string → string.
Hypothesis f_inj : ∀ x y, f x = f y → x = y.

Lemma eqb_rename a b : String.eqb (f a) (f b) = String.eqb a b.
Proof.
  destruct (String.eqb_spec a b) as [->|Hne].
  - apply String.eqb_refl.
  - apply String.eqb_neq. intros E. apply Hne, f_inj, E.
Qed.

Lemma existsb_map {A B} (g : A → B) (p : B → bool) (l : list A) :
  existsb p (List.map g l) = existsb (fun x => p (g x)) l.
Proof. induction l as [|a l IH]; simpl; [reflexivity|]. now rewrite IH. Qed.

Lemma existsb_ext' {A} (p q : A → bool) (l : list A) :
  (∀ x, p x = q x) → existsb p l = existsb q l.
Proof. intros E. induction l as [|a l IH]; simpl; [reflexivity|]. now rewrite E, IH. Qed.

Lemma card_exists_rename u d : card_exists (f u) (rename_db f d) = card_exists u d.
Proof.
  unfold card_exists; simpl. rewrite existsb_map.
  apply existsb_ext'. intros c; simpl. apply eqb_rename.
Qed.

Lemma card_has_voted_rename u sid d :
  card_has_voted (f u) sid (rename_db f d) = card_has_voted u sid d.
Proof.
  unfold card_has_voted; simpl. rewrite existsb_map.
  apply existsb_ext'. intros t. unfold tracks; simpl. now rewrite eqb_rename.
Qed.

Lemma enroll_card_rename now u l d :
  enroll_card now (f u) l (rename_db f d) = rename_db f (enroll_card now u l d).
Proof.
  unfold enroll_card. rewrite card_exists_rename.
  destruct (card_exists u d); unfold rename_db, with_cards; simpl; f_equal.
  - rewrite !List.map_map. apply List.map_ext. intros c; simpl.
    rewrite eqb_rename. destruct (String.eqb (Card.uid c) u); reflexivity.
  - rewrite List.map_app. reflexivity.
Qed.

Lemma deactivate_card_rename i d :
  deactivate_card i (rename_db f d) = rename_db f (deactivate_card i d).
Proof.
  unfold deactivate_card, rename_db, with_cards; simpl; f_equal.
  rewrite !List.map_map. apply List.map_ext. intros c; simpl.
  destruct (Card.id c =? i); reflexivity.
Qed.

Lemma record_vote_rename now sid u opt d :
  record_vote now sid (f u) opt (rename_db f d)
  = (fst (record_vote now sid u opt d), rename_db f (snd (record_vote now sid u opt d))).
Proof.
  unfold record_vote, insert_or_ignore_vote_tracker.
  rewrite card_has_voted_rename.
  destruct (card_has_voted u sid d); [reflexivity|].
  change (fk_session sid (rename_db f d)) with (fk_session sid d).
  destruct (fk_session sid d) eqn:Hfk; [|reflexivity].
  cbn [negb Z.eqb]. unfold insert_vote.
  change (fk_session sid (with_vote_tracker _ _ (rename_db f d)))
    with (fk_session sid d).
  change (fk_session sid (with_vote_tracker _ _ d)) with (fk_session sid d).
  rewrite Hfk. cbn [negb fst snd].
  unfold rename_db, with_votes, with_vote_tracker; simpl. f_equal. f_equal.
  rewrite List.map_app. reflexivity.
Qed.

Lemma step_rename d e :
  step (rename_db f d) (rename_event f e) = rename_db f (step d e).
Proof.
  destruct e as [now o]. destruct o; unfold step, rename_event; simpl;
    try reflexivity.
  - apply enroll_card_rename.
  - apply deactivate_card_rename.
  - rewrite record_vote_rename. reflexivity.
Qed.

Lemma run_rename h : run (List.map (rename_event f) h) = rename_db f (run h).
Proof.
  unfold run. change empty_db with (rename_db f empty_db) at 1.
  generalize empty_db.
  induction h as [|e h IH]; intros d; simpl; [reflexivity|].
  rewrite step_rename. apply IH.
Qed.

End Injective.

Lemma elem_of_insert_by_time p x l :
  p ∈ insert_by_time x l ↔ p = x ∨ p ∈ l.
Proof.
  induction l as [|y l IH]; simpl.
  - rewrite list_elem_of_singleton, elem_of_nil. tauto.
  - destruct (fst x <? fst y).
    + rewrite !elem_of_cons. tauto.
    + rewrite !elem_of_cons, IH. tauto.
Qed.

Lemma elem_of_order_by_time p l : p ∈ order_by_time l ↔ p ∈ l.
Proof.
  unfold order_by_time.
  assert (∀ acc, p ∈ foldl (fun acc x => insert_by_time x acc) acc l ↔ p ∈ acc ∨ p ∈ l) as G.
  { induction l as [|x l IH]; intros acc; simpl.
    - rewrite elem_of_nil. tauto.
    - rewrite IH, elem_of_insert_by_time, elem_of_cons. tauto. }
  rewrite G, elem_of_nil. tauto.
Qed.

End AnonFacts.

(** C6.  Over every history of the database: a vote row holds an id, a
    session id, a time and an option (the [Vote.row] record has no UID
    field) and what [record_vote] writes there does not depend on the card:
    relabelling the cards with any one-to-one [f] leaves the votes table and
    the export exactly as they were.  The export of a session is made of
    the (voted_at, option) pairs of that session's vote rows and nothing
    else. *)
Theorem votes_carry_no_uid (f : string → string) (h : list (Z * Db.op))
    (session_id : Z) :
  (∀ x y, f x = f y → x = y) →
  Db.votes (Db.run (List.map (Anon.rename_event f) h)) = Db.votes (Db.run h) ∧
  Db.get_all_votes_for_export session_id (Db.run (List.map (Anon.rename_event f) h))
    = Db.get_all_votes_for_export session_id (Db.run h) ∧
  (∀ p, p ∈ Db.get_all_votes_for_export session_id (Db.run h) ↔
        ∃ v, v ∈ Db.votes (Db.run h) ∧ Vote.session_id v = session_id ∧
             p = (Vote.voted_at v, Vote.option v)).
Proof.
  intros Hinj.
  rewrite (AnonFacts.run_rename f Hinj h).
  split; [reflexivity|]. split; [reflexivity|].
  intros p. unfold Db.get_all_votes_for_export.
  rewrite AnonFacts.elem_of_order_by_time, list_elem_of_In, in_map_iff.
  split.
  - intros (v & <- & Hv). apply filter_In in Hv as [Hin Hs].
    exists v. split; [now apply list_elem_of_In|].
    split; [now apply Z.eqb_eq | reflexivity].
  - intros (v & Hin & Hs & ->). exists v. split; [reflexivity|].
    apply filter_In. split; [now apply list_elem_of_In|].
    now apply Z.eqb_eq.
Qed.

Lemma votes_carry_no_uid_witness :
  Db.votes (Db.run (List.map (Anon.rename_event (String "x")) two_votes))
    = Db.votes (Db.run two_votes) ∧
  Db.get_all_votes_for_export 1
      (Db.run (List.map (Anon.rename_event (String "x")) two_votes))
    = Db.get_all_votes_for_export 1 (Db.run two_votes) ∧
  (∀ p, p ∈ Db.get_all_votes_for_export 1 (Db.run two_votes) ↔
        ∃ v, v ∈ Db.votes (Db.run two_votes) ∧ Vote.session_id v = 1 ∧
             p = (Vote.voted_at v, Vote.option v)).
Proof.
  apply (votes_carry_no_uid (String "x") two_votes 1).
  intros x y E. injection E. trivial.
Defined.

Example export_two_votes :
  Db.get_all_votes_for_export 1 (Db.run two_votes) = [(30, "A"); (31, "B")].
Proof. reflexivity. Qed.

(** ** The sheet sync *)

Module SyncFacts.
Import Sheets Spec.

Section WithService.
Context {R : Type} `{Service R}.
Variable SHEETS_AVAILABLE : bool.
Variable CREDENTIALS_PATH : string.
Variable format_percentage : Z → Z → string.

Lemma quiet_ret {A} (a : A) : quiet (ret a : Prog (state R) error A).
Proof. intros st. split; [reflexivity|]. exists []. simpl. now rewrite app_nil_r. Qed.

Lemma quiet_bind {A B} (m : Prog (state R) error A) (k : A → Prog (state R) error B) :
  quiet m → (∀ a, quiet (k a)) → quiet (bind m k).
Proof.
  intros Hm Hk st. unfold bind.
  destruct (Hm st) as [Ht [l Hl]].
  destruct (m st) as [[a|e] st1]; simpl in *.
  - destruct (Hk a st1) as [Ht' [l' Hl']].
    split; [congruence|]. exists (l ++ l'). rewrite Hl', Hl. now rewrite app_assoc.
  - split; [assumption|]. exists l. assumption.
Qed.

Lemma remote_call_state c st :
  _last_sync_time (snd (remote_call c st)) = _last_sync_time st ∧
  calls (snd (remote_call c st)) = calls st ++ [c].
Proof.
  unfold remote_call. destruct (respond (remote st) c) as [r rem]. split; reflexivity.
Qed.

Lemma quiet_remote_call c : quiet (remote_call c).
Proof.
  intros st. destruct (remote_call_state c st) as [Ht Hc].
  split; [assumption|]. exists [c]. assumption.
Qed.

Lemma quiet_worksheet_or_add title rows cols : quiet (worksheet_or_add title rows cols).
Proof.
  intros st. unfold worksheet_or_add.
  destruct (remote_call_state (worksheet title) st) as [Ht Hc].
  destruct (remote_call (worksheet title) st) as [[u|e] st1]; simpl in *.
  - split; [assumption|]. exists [worksheet title]. assumption.
  - destruct (worksheet_not_found e).
    + destruct (remote_call_state (add_worksheet title rows cols) st1) as [Ht' Hc'].
      split; [congruence|].
      exists [worksheet title; add_worksheet title rows cols].
      rewrite Hc', Hc, <- app_assoc. reflexivity.
    + split; [assumption|]. exists [worksheet title]. assumption.
Qed.

Lemma quiet_subscript_question session :
  quiet (R := R) (subscript_question session).
Proof.
  intros st. unfold subscript_question.
  destruct session; simpl; (split; [reflexivity|]); exists []; now rewrite app_nil_r.
Qed.

Lemma quiet_when b (m : Prog (state R) error unit) : quiet m → quiet (when b m).
Proof. intros Hm. unfold when. destruct b; [assumption|apply quiet_ret]. Qed.

Create HintDb quiet.
#[local] Hint Resolve quiet_ret quiet_remote_call quiet_worksheet_or_add
  quiet_subscript_question quiet_when : quiet.

Lemma quiet_sync_body d session_id spreadsheet_id :
  quiet (sync_body CREDENTIALS_PATH format_percentage d session_id spreadsheet_id).
Proof.
  unfold sync_body.
  repeat (apply quiet_bind; [auto with quiet | intros ?]).
  auto with quiet.
Qed.

(** The body opens with the [authorize] call. *)
Lemma sync_body_calls d session_id spreadsheet_id st :
  ∃ l, calls (snd (sync_body CREDENTIALS_PATH format_percentage d session_id
                     spreadsheet_id st))
       = calls st ++ authorize CREDENTIALS_PATH :: l.
Proof.
  unfold sync_body.
  match goal with
  | |- context [bind (remote_call ?c) ?k] =>
      assert (∀ a, quiet (k a)) as Hk
  end.
  { intros ?.
    repeat (apply quiet_bind; [auto with quiet | intros ?]).
    auto with quiet. }
  unfold bind at 1.
  destruct (remote_call_state (authorize CREDENTIALS_PATH) st) as [_ Hc].
  destruct (remote_call (authorize CREDENTIALS_PATH) st) as [[u|e] st1]; simpl in Hc.
  - destruct (Hk u st1) as [_ [l Hl]]. exists l.
    rewrite Hl, Hc, <- app_assoc. reflexivity.
  - exists []. assumption.
Qed.

Local Abbreviation auto_sync :=
  (sync_to_sheets SHEETS_AVAILABLE CREDENTIALS_PATH format_percentage).
Local Abbreviation forced_sync :=
  (sync_to_sheets_blocking SHEETS_AVAILABLE CREDENTIALS_PATH format_percentage).

(** An automatic sync inside the window does nothing at all. *)
Lemma auto_sync_debounced now creds d sid st :
  SHEETS_AVAILABLE = true →
  now - _last_sync_time st < Config.SHEETS_SYNC_DEBOUNCE →
  auto_sync now creds d sid st = (Return (Failure "Debounced"), st).
Proof.
  intros Ha Hlt. unfold sync_to_sheets, _do_sync. rewrite Ha. cbn [negb andb].
  destruct (Z.ltb_spec (now - _last_sync_time st) Config.SHEETS_SYNC_DEBOUNCE);
    [reflexivity | lia].
Qed.

(** An automatic sync outside the window stamps the time, however it ends. *)
Lemma auto_sync_stamps now creds d sid st :
  SHEETS_AVAILABLE = true →
  Config.SHEETS_SYNC_DEBOUNCE <= now - _last_sync_time st →
  _last_sync_time (snd (auto_sync now creds d sid st)) = now.
Proof.
  intros Ha Hge. unfold sync_to_sheets, _do_sync. rewrite Ha. cbn [negb andb].
  destruct (Z.ltb_spec (now - _last_sync_time st) Config.SHEETS_SYNC_DEBOUNCE);
    [lia|].
  destruct (bool_decide _); cbn [negb]; [|reflexivity].
  destruct (String.eqb _ ""); [reflexivity|].
  destruct creds; cbn [negb]; [|reflexivity].
  match goal with
  | |- context [sync_body ?p ?f ?d ?s ?i ?st0] =>
      destruct (quiet_sync_body d s i st0) as [Ht _];
      destruct (sync_body p f d s i st0) as [[t|e] st1]
  end; simpl in *; exact Ht.
Qed.

(** A forced sync leaves the timestamp at zero. *)
Lemma forced_sync_resets now creds d sid st :
  _last_sync_time (snd (forced_sync now creds d sid st)) = 0.
Proof.
  unfold sync_to_sheets_blocking, _do_sync.
  destruct SHEETS_AVAILABLE; cbn [negb andb]; [|reflexivity].
  destruct (bool_decide _); cbn [negb]; [|reflexivity].
  destruct (String.eqb _ ""); [reflexivity|].
  destruct creds; cbn [negb]; [|reflexivity].
  match goal with
  | |- context [sync_body ?p ?f ?d ?s ?i ?st0] =>
      destruct (quiet_sync_body d s i st0) as [Ht _];
      destruct (sync_body p f d s i st0) as [[t|e] st1]
  end; simpl in *; exact Ht.
Qed.

(** Past the gates, with the settings and the credentials in place, the
    service is called. *)
Lemma auto_sync_calls now d sid st i :
  SHEETS_AVAILABLE = true →
  Config.SHEETS_SYNC_DEBOUNCE <= now - _last_sync_time st →
  Db.get_setting "sheets_enabled" d = Some "1" →
  Db.get_setting "sheets_spreadsheet_id" d = Some i → i ≠ "" →
  ∃ l, calls (snd (auto_sync now true d sid st))
       = calls st ++ authorize CREDENTIALS_PATH :: l.
Proof.
  intros Ha Hge He Hi Hne. unfold sync_to_sheets, _do_sync.
  rewrite Ha. cbn [negb andb].
  destruct (Z.ltb_spec (now - _last_sync_time st) Config.SHEETS_SYNC_DEBOUNCE);
    [lia|].
  rewrite He, Hi. rewrite bool_decide_true by reflexivity. cbn [negb from_option id].
  apply String.eqb_neq in Hne. rewrite Hne.
  match goal with
  | |- context [sync_body ?p ?f ?d ?s ?i ?st0] =>
      destruct (sync_body_calls d s i st0) as [l Hl];
      destruct (sync_body p f d s i st0) as [[t|e] st1]
  end; simpl in *; exists l; exact Hl.
Qed.

End WithService.
End SyncFacts.

(** C7.  With the client library importable, and [_last_sync_time] the
    reading of the last automatic sync that went ahead:
    - an automatic sync less than SHEETS_SYNC_DEBOUNCE = 30 seconds after it
      reports 'Debounced' and touches nothing (no call on the service, the
      timestamp unchanged);
    - an automatic sync that goes ahead stamps its time whether it then
      succeeds or fails, so the next automatic sync within 30 seconds is
      debounced;
    - a blocking sync leaves the timestamp at zero, so an automatic sync
      issued right after it (any clock reading of 30 or more) goes ahead: it
      stamps its time and, with the settings and credentials in place,
      calls the service. *)
Theorem debounce_spec {R : Type} `{Sheets.Service R} (SHEETS_AVAILABLE : bool)
    (CREDENTIALS_PATH : string) (format_percentage : Z → Z → string)
    (st : Sheets.state R) :
  SHEETS_AVAILABLE = true →
  (∀ now creds d sid,
     now - Sheets._last_sync_time st < Config.SHEETS_SYNC_DEBOUNCE →
     Sheets.sync_to_sheets SHEETS_AVAILABLE CREDENTIALS_PATH format_percentage
       now creds d sid st
     = (Return (Sheets.Failure "Debounced"), st)) ∧
  (∀ t0 creds d sid,
     Config.SHEETS_SYNC_DEBOUNCE <= t0 - Sheets._last_sync_time st →
     ∀ st1,
       st1 = snd (Sheets.sync_to_sheets SHEETS_AVAILABLE CREDENTIALS_PATH
                    format_percentage t0 creds d sid st) →
       Sheets._last_sync_time st1 = t0 ∧
       ∀ t1 creds' d' sid',
         t1 - t0 < Config.SHEETS_SYNC_DEBOUNCE →
         Sheets.sync_to_sheets SHEETS_AVAILABLE CREDENTIALS_PATH format_percentage
           t1 creds' d' sid' st1
         = (Return (Sheets.Failure "Debounced"), st1)) ∧
  (∀ tb creds d sid st1,
     st1 = snd (Sheets.sync_to_sheets_blocking SHEETS_AVAILABLE CREDENTIALS_PATH
                  format_percentage tb creds d sid st) →
     Sheets._last_sync_time st1 = 0 ∧
     ∀ now creds' d' sid',
       Config.SHEETS_SYNC_DEBOUNCE <= now →
       Sheets._last_sync_time
         (snd (Sheets.sync_to_sheets SHEETS_AVAILABLE CREDENTIALS_PATH
                 format_percentage now creds' d' sid' st1)) = now ∧
       ∀ i,
         Db.get_setting "sheets_enabled" d' = Some "1" →
         Db.get_setting "sheets_spreadsheet_id" d' = Some i → i ≠ "" →
         creds' = true →
         ∃ l,
           Sheets.calls
             (snd (Sheets.sync_to_sheets SHEETS_AVAILABLE CREDENTIALS_PATH
                     format_percentage now creds' d' sid' st1))
           = Sheets.calls st1 ++ Sheets.authorize CREDENTIALS_PATH :: l).
Proof.
  intros Ha. split; [|split].
  - intros now creds d sid Hlt. now apply SyncFacts.auto_sync_debounced.
  - intros t0 creds d sid Hge st1 ->.
    pose proof (SyncFacts.auto_sync_stamps SHEETS_AVAILABLE CREDENTIALS_PATH
                  format_percentage t0 creds d sid st Ha Hge) as Hst.
    split; [exact Hst|].
    intros t1 creds' d' sid' Hlt.
    apply SyncFacts.auto_sync_debounced; [assumption|]. rewrite Hst. exact Hlt.
  - intros tb creds d sid st1 ->.
    pose proof (SyncFacts.forced_sync_resets SHEETS_AVAILABLE CREDENTIALS_PATH
                  format_percentage tb creds d sid st) as Hz.
    split; [exact Hz|].
    intros now creds' d' sid' Hnow. split.
    + apply SyncFacts.auto_sync_stamps; [assumption|]. rewrite Hz. lia.
    + intros i He Hi Hne ->.
      eapply SyncFacts.auto_sync_calls; eauto. rewrite Hz. lia.
Qed.

Lemma debounce_spec_witness :
  Sheets.sync_to_sheets (H := online) true "cred.json" percent_stub
    1005 true demo_db 1 idle
  = (Return (Sheets.Failure "Debounced"), idle).
Proof.
  apply (debounce_spec (H := online) true "cred.json" percent_stub idle eq_refl).
  vm_compute. reflexivity.
Defined.

(** ** The body of the [try] block *)

Module SyncMore.
Import Sheets.

Section WithService.
Context {R : Type} `{Service R}.
Variable CREDENTIALS_PATH : string.
Variable format_percentage : Z → Z → string.

(** The body of the [try] returns only after [session['question']] was
    read, and what it returns is the sum of the counts. *)
Lemma sync_body_returns d session_id spreadsheet_id st total st' :
  sync_body CREDENTIALS_PATH format_percentage d session_id spreadsheet_id st
    = (Return total, st') →
  total = sum_counts (Db.get_vote_counts session_id d) ∧
  is_Some (Db.get_session session_id d).
Proof.
  unfold sync_body, bind, subscript_question, ret.
  repeat
    (match goal with
     | |- context [match remote_call ?c ?s with _ => _ end] =>
         destruct (remote_call c s) as [[[]|?] ?]
     | |- context [match worksheet_or_add ?a ?b ?c ?s with _ => _ end] =>
         destruct (worksheet_or_add a b c s) as [[[]|?] ?]
     | |- context [match when ?b ?m ?s with _ => _ end] =>
         destruct (when b m s) as [[[]|?] ?]
     | |- context [match Db.get_session ?i ?d with _ => _ end] =>
         destruct (Db.get_session i d)
     end; cbv beta iota; try discriminate).
  intros [= <- _]. split; [reflexivity|eauto].
Qed.

Lemma remote_call_accepted c st :
  Inv.accepts R →
  remote_call c st =
    (Return tt,
     {| _last_sync_time := _last_sync_time st;
        remote := snd (respond (remote st) c);
        calls := calls st ++ [c] |}).
Proof.
  intros Hacc. unfold remote_call. specialize (Hacc (remote st) c).
  destruct (respond (remote st) c) as [r rem]. cbn in *. now subst r.
Qed.

End WithService.
End SyncMore.

(** ** The sync against the service, call by call *)

Module TraceFacts.
Import Sheets Trace.

Section WithService.
Context {R : Type} `{Service R}.
Variable SHEETS_AVAILABLE : bool.
Variable CREDENTIALS_PATH : string.
Variable format_percentage : Z → Z → string.

Lemma replay_app (r : R) l1 l2 : replay r (l1 ++ l2) = replay (replay r l1) l2.
Proof. revert r. induction l1 as [|c l1 IH]; intros r; simpl; auto. Qed.

Lemma all_pass_app (r : R) l1 l2 :
  all_pass r (l1 ++ l2) = all_pass r l1 && all_pass (replay r l1) l2.
Proof.
  revert r. induction l1 as [|c l1 IH]; intros r; simpl; [reflexivity|].
  rewrite IH, andb_assoc. reflexivity.
Qed.

(** A call of a run in which every call passed was answered, in some state
    of the service, by an answer that passes. *)
Lemma all_pass_elem (r : R) l c :
  all_pass r l = true → c ∈ l → ∃ r0, passes c (fst (respond r0 c)) = true.
Proof.
  revert r. induction l as [|c' l IH]; intros r Hp Hin.
  - apply elem_of_nil in Hin. contradiction.
  - simpl in Hp. apply andb_true_iff in Hp as [Hc Hl].
    apply elem_of_cons in Hin as [->|Hin]; [exists r; exact Hc|].
    exact (IH _ Hl Hin).
Qed.

Lemma traced_ret {A} (a : A) :
  traced (ret a : Prog (state R) error A) [] (fun x => x = a).
Proof.
  intros st. exists []. cbn. rewrite app_nil_r. repeat split; reflexivity.
Qed.

Lemma traced_remote_call c :
  is_add c = false → is_lookup c = false →
  traced (remote_call c) [c] (fun _ => True).
Proof.
  intros Ha Hl st. exists [c]. unfold remote_call.
  destruct (respond (remote st) c) as [[u|exc] rem] eqn:E;
    cbn [fst snd calls remote replay all_pass];
    rewrite ?E; cbn [fst snd].
  - split; [reflexivity|]. split; [reflexivity|].
    split; [reflexivity|]. split; [|exact I].
    cbn. rewrite Ha. reflexivity.
  - split; [reflexivity|]. split; [reflexivity|].
    exists [], c. split; [reflexivity|]. split; [reflexivity|].
    cbn [replay]. rewrite E. split; [reflexivity|].
    cbn. now rewrite Hl.
Qed.

Lemma traced_worksheet_or_add title rows cols :
  traced (worksheet_or_add title rows cols) [worksheet title] (fun _ => True).
Proof.
  intros st. unfold worksheet_or_add, remote_call.
  destruct (respond (remote st) (worksheet title)) as [[u|exc] rem] eqn:E;
    cbn [fst snd calls remote].
  - exists [worksheet title]. cbn [replay all_pass]. rewrite E.
    repeat split; reflexivity.
  - destruct (worksheet_not_found exc) eqn:Hnf; cbn [fst snd calls remote].
    + destruct (respond rem (add_worksheet title rows cols)) as [[u|exc'] rem'] eqn:E';
        cbn [fst snd calls remote];
        exists [worksheet title; add_worksheet title rows cols];
        cbn [replay all_pass]; rewrite E; cbn [fst snd]; rewrite E';
        cbn [fst snd passes is_lookup andb]; rewrite ?Hnf;
        (split; [now rewrite <- app_assoc|]); (split; [reflexivity|]).
      * repeat split; reflexivity.
      * exists [worksheet title], (add_worksheet title rows cols).
        cbn [replay all_pass]. rewrite E. cbn [fst snd passes is_lookup andb].
        rewrite Hnf, E'. repeat split; reflexivity.
    + exists [worksheet title]. cbn [replay all_pass]. rewrite E.
      split; [reflexivity|]. split; [reflexivity|].
      exists [], (worksheet title). cbn [replay all_pass app]. rewrite E.
      cbn [fst passes is_lookup andb]. rewrite Hnf. repeat split; reflexivity.
Qed.

Lemma traced_bind {A B} (m : Prog (state R) error A)
    (k : A → Prog (state R) error B) e1 e2 (P : A → Prop) (Q : B → Prop) :
  traced m e1 P → (∀ a, P a → traced (k a) e2 Q) →
  traced (bind m k) (e1 ++ e2) Q.
Proof.
  intros Hm Hk st. unfold bind.
  destruct (Hm st) as (l1 & Hc & Hr & Hres).
  destruct (m st) as [[a|exc] st1]; cbn [fst snd] in *.
  - destruct Hres as (Hp1 & Hf1 & Ha).
    destruct (Hk a Ha st1) as (l2 & Hc2 & Hr2 & Hres2).
    exists (l1 ++ l2).
    split; [now rewrite Hc2, Hc, app_assoc|].
    split; [now rewrite Hr2, Hr, replay_app|].
    destruct (fst (k a st1)) as [b|exc].
    + destruct Hres2 as (Hp2 & Hf2 & Hb).
      split; [rewrite all_pass_app, Hp1, <- Hr, Hp2; reflexivity|].
      split; [now rewrite List.filter_app, Hf1, Hf2|exact Hb].
    + destruct Hres2 as (l0 & c & -> & Hp0 & Hex & Hnp).
      exists (l1 ++ l0), c.
      split; [now rewrite app_assoc|].
      split; [rewrite all_pass_app, Hp1, <- Hr, Hp0; reflexivity|].
      split; [now rewrite replay_app, <- Hr|exact Hnp].
  - exists l1. auto.
Qed.

Lemma traced_when b (m : Prog (state R) error unit) e :
  traced m e (fun _ => True) →
  traced (when b m) (if b then e else []) (fun _ => True).
Proof.
  intros Hm. unfold when. destruct b; [exact Hm|].
  intros st. exists []. cbn. rewrite app_nil_r. repeat split; reflexivity.
Qed.

Lemma traced_subscript_question s :
  traced (R := R) (subscript_question (Some s)) []
    (fun q => q = Session.question s).
Proof.
  intros st. exists []. cbn. rewrite app_nil_r. repeat split; reflexivity.
Qed.

Lemma traced_eq {A} (m : Prog (state R) error A) e e' (Q : A → Prop) :
  traced m e Q → e = e' → traced m e' Q.
Proof. intros Hm <-. exact Hm. Qed.

Ltac traced_leaf :=
  first [ apply traced_worksheet_or_add
        | apply traced_subscript_question
        | apply traced_remote_call; reflexivity
        | apply traced_when; apply traced_remote_call; reflexivity ].

(** The [try] block for a stored session, whatever the service answers. *)
Lemma traced_sync_body d session_id spreadsheet_id s :
  Db.get_session session_id d = Some s →
  traced
    (sync_body CREDENTIALS_PATH format_percentage d session_id spreadsheet_id)
    (script CREDENTIALS_PATH format_percentage d session_id spreadsheet_id s)
    (fun total => total = sum_counts (Db.get_vote_counts session_id d)).
Proof.
  intros Hs. unfold sync_body. rewrite Hs. cbv zeta.
  eapply traced_eq.
  - repeat (eapply traced_bind;
              [traced_leaf | intros ? HP; cbv beta in HP; try subst; try clear HP]).
    apply traced_ret.
  - unfold script. cbv zeta.
    repeat match goal with
           | |- context [if nonempty ?l then _ else _] => destruct (nonempty l)
           end; reflexivity.
Qed.

(** [_do_sync] never raises. *)
Lemma do_sync_returns now creds d session_id force (st : state R) :
  ∃ r st',
    _do_sync SHEETS_AVAILABLE CREDENTIALS_PATH format_percentage now creds d
      session_id force st = (Return r, st').
Proof.
  unfold _do_sync.
  repeat (match goal with
          | |- context [if ?b then _ else _] => destruct b
          | |- context [match ?x with _ => _ end] => destruct x as [[?|?] ?]
          end; try (eexists _, _; reflexivity)).
Qed.

End WithService.
End TraceFacts.

(** C9.  [_do_sync] (automatic or forced, from any state of the module and
    of the service) returns a result dict and never raises.  In each
    failure mode the dict is {success: False, error: reason}:
    the client library missing; an automatic call inside the debounce
    window; and, past the debounce gate, sync disabled in the settings, no
    spreadsheet id, no credentials file (all three before any call on the
    service), and any exception of the service or of the body of the [try].
    For a stored session the run is fixed call by call, whatever the
    service answers: the sync fails exactly when the service answers one of
    its calls with an exception (other than WorksheetNotFound to a
    worksheet lookup), that call is the last one made and the error text is
    the text of that exception; it succeeds only when every call of the
    script (authorize, open, the Summary sheet and its writes, the Detail
    sheet and its writes) was made and answered, so a service out of reach
    at any of these calls never gives success; for a session id that is
    not stored the sync fails as well.  The sync only reads the database.
    The voting path: [submit_vote] with a valid token and option for a card
    that has not voted commits the vote and answers with the thank-you
    redirect; the sync is only started, as a thread, when syncing is
    enabled, its result is never read, and whatever the state of the
    library, the settings, the credentials and the service, the thread body
    returns. *)
Theorem do_sync_failures {R : Type} `{Sheets.Service R} `{Token.Serializer}
    (SHEETS_AVAILABLE : bool)
    (CREDENTIALS_PATH : string) (format_percentage : Z → Z → string)
    (now : Z) (credentials_exist : bool) (d : Db.db) (session_id : Z)
    (force : bool) (st : Sheets.state R) :
  (∃ r st',
    Sheets._do_sync SHEETS_AVAILABLE CREDENTIALS_PATH format_percentage
      now credentials_exist d session_id force st = (Return r, st') ∧
    (SHEETS_AVAILABLE = false →
       r = Sheets.Failure "gspread library not installed" ∧ st' = st) ∧
    (SHEETS_AVAILABLE = true → force = false →
     now - Sheets._last_sync_time st < Config.SHEETS_SYNC_DEBOUNCE →
       r = Sheets.Failure "Debounced" ∧ st' = st) ∧
    (SHEETS_AVAILABLE = true →
     (force = true ∨
      Config.SHEETS_SYNC_DEBOUNCE <= now - Sheets._last_sync_time st) →
       (Db.get_setting "sheets_enabled" d ≠ Some "1" →
          r = Sheets.Failure "Sheets sync is disabled in settings" ∧
          Sheets.calls st' = Sheets.calls st) ∧
       (Db.get_setting "sheets_enabled" d = Some "1" →
        default "" (Db.get_setting "sheets_spreadsheet_id" d) = "" →
          r = Sheets.Failure "No Spreadsheet ID configured in settings" ∧
          Sheets.calls st' = Sheets.calls st) ∧
       (Db.get_setting "sheets_enabled" d = Some "1" →
        default "" (Db.get_setting "sheets_spreadsheet_id" d) ≠ "" →
          (credentials_exist = false →
             r = Sheets.Failure ("Credentials file not found: " +:+ CREDENTIALS_PATH) ∧
             Sheets.calls st' = Sheets.calls st) ∧
          (credentials_exist = true →
             (∀ exc rem,
                Sheets.respond (Sheets.remote st) (Sheets.authorize CREDENTIALS_PATH)
                  = (Raise exc, rem) →
                r = Sheets.Failure (Sheets.str exc)) ∧
             (∀ exc st0,
                Sheets.sync_body CREDENTIALS_PATH format_percentage d session_id
                  (default "" (Db.get_setting "sheets_spreadsheet_id" d))
                  (if force then st else Sheets.set_last_sync_time now st)
                  = (Raise exc, st0) →
                r = Sheets.Failure (Sheets.str exc) ∧ st' = st0) ∧
             (∀ s, Db.get_session session_id d = Some s →
                ∃ l,
                  Sheets.calls st' = Sheets.calls st ++ l ∧
                  Sheets.remote st' = Trace.replay (Sheets.remote st) l ∧
                  match r with
                  | Sheets.Success total =>
                      Trace.all_pass (Sheets.remote st) l = true ∧
                      List.filter (fun c => negb (Trace.is_add c)) l
                      = Trace.script CREDENTIALS_PATH format_percentage d
                          session_id
                          (default "" (Db.get_setting "sheets_spreadsheet_id" d)) s ∧
                      total = Sheets.sum_counts (Db.get_vote_counts session_id d)
                  | Sheets.Failure msg =>
                      ∃ l0 c exc,
                        l = l0 ++ [c] ∧
                        Trace.all_pass (Sheets.remote st) l0 = true ∧
                        fst (Sheets.respond
                               (Trace.replay (Sheets.remote st) l0) c)
                        = Raise exc ∧
                        Trace.passes c (Raise exc) = false ∧
                        msg = Sheets.str exc
                  end) ∧
             (∀ s c, Db.get_session session_id d = Some s →
                c ∈ Trace.script CREDENTIALS_PATH format_percentage d session_id
                      (default "" (Db.get_setting "sheets_spreadsheet_id" d)) s →
                (∀ r0, Trace.passes c (fst (Sheets.respond r0 c)) = false) →
                ∃ exc, r = Sheets.Failure (Sheets.str exc)) ∧
             (Db.get_session session_id d = None →
                ∃ exc, r = Sheets.Failure (Sheets.str exc))))))
  ∧
  (∀ (SECRET_KEY : string) (now' clock : Z) (token form_option : string)
     (data : Token.payload) (vsession : Session.row) (w : world),
     Token.verify_token SECRET_KEY clock token = Return (Some data) →
     Db.get_session (Token.session_id data) (store w) = Some vsession →
     App.mem (App.upper form_option)
       (List.map fst (App._build_options vsession)) = true →
     Db.card_has_voted (Token.uid data) (Token.session_id data) (store w) = false →
     ∃ w',
       App.submit_vote SECRET_KEY now' clock token form_option w
       = (Return (App.redirect_thankyou (Token.session_id data)), w') ∧
       Db.votes (store w') =
         Db.votes (store w) ++
         [ {| Vote.id := Db.seq_votes (store w) + 1;
              Vote.session_id := Token.session_id data;
              Vote.voted_at := now'; Vote.option := App.upper form_option |} ] ∧
       threads w' =
         threads w ++
         (if bool_decide (Db.get_setting "sheets_enabled" (store w) = Some "1")
          then [Token.session_id data] else []) ∧
       ∀ (available exists_ : bool) (t : Z) (st0 : Sheets.state R),
         ∃ r st',
           Sheets._do_sync available CREDENTIALS_PATH format_percentage
             t exists_ (store w') (Token.session_id data) false st0
           = (Return r, st')).
Proof.
  split.
  2:{ intros SECRET_KEY now' clock token form_option data vsession w Hv Hs Hopt Hnv.
      destruct (RedeemFacts.submit_vote_commits SECRET_KEY now' clock token
                  form_option data vsession w Hv Hs Hopt Hnv) as (d' & Hrec & Hsub).
      rewrite (DbFacts.record_vote_fresh now' _ _ (App.upper form_option) _
                 (RedeemFacts.get_session_fk _ _ _ Hs) Hnv) in Hrec.
      injection Hrec as <-.
      eexists. split; [exact Hsub|]. cbn [store threads].
      split; [reflexivity|]. split; [reflexivity|].
      intros available exists_ t st0. apply TraceFacts.do_sync_returns. }
  unfold Sheets._do_sync.
  destruct SHEETS_AVAILABLE; cbn [negb].
  2:{ eexists _, _. split; [reflexivity|]. split; [auto|].
      split; discriminate. }
  destruct (negb force && (now - Sheets._last_sync_time st <? Config.SHEETS_SYNC_DEBOUNCE))
    eqn:Hgate.
  { eexists _, _. split; [reflexivity|]. split; [discriminate|].
    split; [auto|].
    intros _ Hpast. exfalso.
    apply andb_true_iff in Hgate as [Hf Hlt]. apply Z.ltb_lt in Hlt.
    destruct Hpast as [->|Hge]; [discriminate | lia]. }
  assert (Hopen : force = false →
            now - Sheets._last_sync_time st < Config.SHEETS_SYNC_DEBOUNCE → False).
  { intros -> Hlt. apply Z.ltb_lt in Hlt. rewrite Hlt in Hgate. discriminate. }
  assert (Hcalls : Sheets.calls
                     (if negb force then Sheets.set_last_sync_time now st else st)
                   = Sheets.calls st)
    by (destruct force; reflexivity).
  destruct (decide (Db.get_setting "sheets_enabled" d = Some "1")) as [He|He].
  2:{ rewrite bool_decide_false by assumption. cbn [negb].
      eexists _, _. split; [reflexivity|]. split; [discriminate|].
      split; [intros _ Hf Hlt; destruct (Hopen Hf Hlt)|].
      intros _ _. split; [intros _; split; [reflexivity|exact Hcalls]|].
      split; intros; contradiction. }
  rewrite bool_decide_true by assumption. cbn [negb].
  destruct (String.eqb_spec (default "" (Db.get_setting "sheets_spreadsheet_id" d)) "")
    as [Hi|Hi].
  { eexists _, _. split; [reflexivity|]. split; [discriminate|].
    split; [intros _ Hf Hlt; destruct (Hopen Hf Hlt)|].
    intros _ _. split; [intros; contradiction|].
    split; [intros _ _; split; [reflexivity|exact Hcalls]|].
    intros; contradiction. }
  destruct credentials_exist; cbn [negb].
  2:{ eexists _, _. split; [reflexivity|]. split; [discriminate|].
      split; [intros _ Hf Hlt; destruct (Hopen Hf Hlt)|].
      intros _ _. split; [intros; contradiction|]. split; [intros; contradiction|].
      intros _ _. split; [intros _; split; [reflexivity|exact Hcalls]|].
      discriminate. }
  assert (Hst : (if negb force then Sheets.set_last_sync_time now st else st)
                = (if force then st else Sheets.set_last_sync_time now st))
    by (destruct force; reflexivity).
  rewrite Hst. clear Hcalls.
  set (st0 := if force then st else Sheets.set_last_sync_time now st).
  assert (Hrem : Sheets.remote st0 = Sheets.remote st)
    by (unfold st0; destruct force; reflexivity).
  assert (Hcal : Sheets.calls st0 = Sheets.calls st)
    by (unfold st0; destruct force; reflexivity).
  assert (Htrace : ∀ s, Db.get_session session_id d = Some s →
            Trace.traced
              (Sheets.sync_body CREDENTIALS_PATH format_percentage d session_id
                 (default "" (Db.get_setting "sheets_spreadsheet_id" d)))
              (Trace.script CREDENTIALS_PATH format_percentage d session_id
                 (default "" (Db.get_setting "sheets_spreadsheet_id" d)) s)
              (fun total =>
                 total = Sheets.sum_counts (Db.get_vote_counts session_id d)))
    by (intros s Hs; now apply TraceFacts.traced_sync_body).
  destruct (Sheets.sync_body CREDENTIALS_PATH format_percentage d session_id
              (default "" (Db.get_setting "sheets_spreadsheet_id" d)) st0)
    as [[total|exc] st2] eqn:Hbody.
  - eexists _, _. split; [reflexivity|]. split; [discriminate|].
    split; [intros _ Hf Hlt; destruct (Hopen Hf Hlt)|].
    intros _ _. split; [intros; contradiction|]. split; [intros; contradiction|].
    intros _ _. split; [discriminate|]. intros _.
    split; [|split; [discriminate|split; [|split]]].
    + intros exc rem Hresp. exfalso.
      revert Hbody. unfold Sheets.sync_body, bind at 1, Sheets.remote_call at 1.
      rewrite Hrem, Hresp. discriminate.
    + intros s Hs. destruct (Htrace s Hs st0) as (l & Hc & Hr & Hres).
      rewrite Hbody in Hc, Hr, Hres. cbn [fst snd] in Hc, Hr, Hres.
      rewrite Hrem in Hr, Hres. rewrite Hcal in Hc.
      exists l. auto.
    + intros s c Hs Hin Hdown. exfalso.
      destruct (Htrace s Hs st0) as (l & _ & _ & Hres).
      rewrite Hbody in Hres. cbn [fst] in Hres.
      destruct Hres as (Hp & Hf & _).
      assert (Hl : c ∈ l).
      { rewrite <- Hf in Hin. apply list_elem_of_In, filter_In in Hin as [Hin _].
        now apply list_elem_of_In. }
      destruct (TraceFacts.all_pass_elem _ _ _ Hp Hl) as [r0 Hr0].
      rewrite Hdown in Hr0. discriminate.
    + intros Hnone. exfalso.
      destruct (SyncMore.sync_body_returns _ _ _ _ _ _ _ _ Hbody) as [_ [s Hs]].
      congruence.
  - eexists _, _. split; [reflexivity|]. split; [discriminate|].
    split; [intros _ Hf Hlt; destruct (Hopen Hf Hlt)|].
    intros _ _. split; [intros; contradiction|]. split; [intros; contradiction|].
    intros _ _. split; [discriminate|]. intros _.
    split; [|split; [|split; [|split]]].
    + intros exc' rem Hresp.
      revert Hbody. unfold Sheets.sync_body, bind at 1, Sheets.remote_call at 1.
      rewrite Hrem, Hresp. intros [= <- _]. reflexivity.
    + intros exc' st3 [= <- <-]. split; reflexivity.
    + intros s Hs. destruct (Htrace s Hs st0) as (l & Hc & Hr & Hres).
      rewrite Hbody in Hc, Hr, Hres. cbn [fst snd] in Hc, Hr, Hres.
      rewrite Hrem in Hr, Hres. rewrite Hcal in Hc.
      destruct Hres as (l0 & c & Hl & Hp & Hex & Hnp).
      exists l. split; [exact Hc|]. split; [exact Hr|].
      exists l0, c, exc. auto.
    + intros s c _ _ _. exists exc. reflexivity.
    + intros _. exists exc. reflexivity.
Qed.

Example sync_unreachable :
  Sheets.sync_to_sheets_blocking (H := offline) true "cred.json" percent_stub
    2000 true
    (Db.set_setting "sheets_spreadsheet_id" "sheet-1"
       (Db.set_setting "sheets_enabled" "1" demo_db)) 1 idle
  = (Return (Sheets.Failure "Connection refused"),
     {| Sheets._last_sync_time := 0; Sheets.remote := tt;
        Sheets.calls := [Sheets.authorize "cred.json"] |}).
Proof. reflexivity. Qed.

(** The service lost after [authorize], and lost after the Summary sheet was
    written: the sync stops at the call that fails and reports it. *)
Example sync_unreachable_at_open :
  Sheets.sync_to_sheets_blocking (H := reachable_for) true "cred.json" percent_stub
    2000 true
    (Db.set_setting "sheets_spreadsheet_id" "sheet-1"
       (Db.set_setting "sheets_enabled" "1" demo_db)) 1
    {| Sheets._last_sync_time := 0; Sheets.remote := 1%nat; Sheets.calls := [] |}
  = (Return (Sheets.Failure "Connection refused"),
     {| Sheets._last_sync_time := 0; Sheets.remote := 0%nat;
        Sheets.calls := [Sheets.authorize "cred.json"; Sheets.open_by_key "sheet-1"] |}).
Proof. reflexivity. Qed.

Example sync_unreachable_at_detail :
  let '(r, st') :=
    Sheets.sync_to_sheets_blocking (H := reachable_for) true "cred.json" percent_stub
      2000 true
      (Db.set_setting "sheets_spreadsheet_id" "sheet-1"
         (Db.set_setting "sheets_enabled" "1" demo_db)) 1
      {| Sheets._last_sync_time := 0; Sheets.remote := 8%nat; Sheets.calls := [] |} in
  r = Return (Sheets.Failure "Connection refused") ∧
  List.length (Sheets.calls st') = 9%nat ∧
  last (Sheets.calls st') = Some (Sheets.worksheet "Detail").
Proof. vm_compute. repeat split. Qed.

(** ** The scenario of the design, run end to end

    Session {A: "Yes", B: "No"} open, card 04:A1:B2 registered and not yet
    voted: the scan authorizes, submitting "A" with the reference succeeds
    with tally {A: 1, B: 0}, and submitting again is a duplicate that leaves
    the tally as it is. *)

Example scenario_scan :
  Nfc._process_scan (H := Plain.serializer) "k" 100 100 "04:A1:B2" kiosk_world
  = (Return tt,
     {| store := demo_db;
        emitted :=
          [ (card_scan_raw "04:A1:B2" true, admin);
            (card_valid
               ("/vote/" +:+
                Token.dumps (H := Plain.serializer) "k" 100
                  {| Token.uid := "04:A1:B2"; Token.session_id := 1 |}), kiosk) ];
        threads := [] |}).
Proof. reflexivity. Qed.

Example scenario_submit :
  let token :=
    Token.dumps (H := Plain.serializer) "k" 100
      {| Token.uid := "04:A1:B2"; Token.session_id := 1 |} in
  let '(r1, w1) := App.submit_vote (H := Plain.serializer) "k" 150 150 token "a" kiosk_world in
  let '(r2, w2) := App.submit_vote (H := Plain.serializer) "k" 160 160 token "b" w1 in
  r1 = Return (App.redirect_thankyou 1) ∧
  List.map (fun x => (fst x, Db.count (snd x))) (Db.get_vote_counts 1 (store w1))
    = [("A", 1); ("B", 0)] ∧
  r2 = Return (App.redirect_error "already_voted") ∧
  List.map (fun x => (fst x, Db.count (snd x))) (Db.get_vote_counts 1 (store w2))
    = [("A", 1); ("B", 0)] ∧
  Db.votes (store w2) = Db.votes (store w1) ∧
  Db.vote_tracker (store w2) = Db.vote_tracker (store w1).
Proof. vm_compute. repeat split. Qed.

Example scenario_debounce :
  let d := Db.set_setting "sheets_spreadsheet_id" "sheet-1"
             (Db.set_setting "sheets_enabled" "1" demo_db) in
  let auto := Sheets.sync_to_sheets (H := online) true "cred.json" percent_stub in
  let forced := Sheets.sync_to_sheets_blocking (H := online) true "cred.json" percent_stub in
  let '(r1, s1) := auto 2000 true d 1 idle in
  let '(r2, s2) := auto 2005 true d 1 s1 in
  let '(r3, s3) := forced 2006 true d 1 s2 in
  let '(r4, s4) := auto 2007 true d 1 s3 in
  r1 = Return (Sheets.Success 0) ∧
  r2 = Return (Sheets.Failure "Debounced") ∧ s2 = s1 ∧
  r3 = Return (Sheets.Success 0) ∧ Sheets._last_sync_time s3 = 0 ∧
  r4 = Return (Sheets.Success 0) ∧ Sheets._last_sync_time s4 = 2007.
Proof. vm_compute. repeat split. Qed.

(** * Further properties of the code *)

(** ** Invariants of the vote tables *)

Module TrackerFacts.
Import Db Inv.

Lemma not_voted_fresh uid sid l :
  existsb (tracks sid uid) l = false → (sid, uid) ∉ List.map tracker_key l.
Proof.
  intros E Hin. apply list_elem_of_In, in_map_iff in Hin as (t & Hk & Ht).
  assert (existsb (tracks sid uid) l = true) as E'; [|congruence].
  apply existsb_exists. exists t. split; [assumption|].
  unfold tracker_key in Hk. injection Hk as <- <-.
  unfold tracks. rewrite Z.eqb_refl, String.eqb_refl. reflexivity.
Qed.

(** What [record_vote] does: either it writes no row (a duplicate, which
    only uses up a rowid of the tracker, or a foreign-key failure, which is
    rolled back), or it returns True and has appended one tracker entry and
    one vote row. *)
Lemma record_vote_cases now sid uid opt d :
  (same_rows d (snd (record_vote now sid uid opt d)) ∧
   fst (record_vote now sid uid opt d) ≠ Return true) ∨
  (fk_session sid d = true ∧ card_has_voted uid sid d = false ∧
   fst (record_vote now sid uid opt d) = Return true ∧
   ∃ t v,
     Tracker.session_id t = sid ∧ Tracker.card_uid t = uid ∧
     Vote.session_id v = sid ∧ Vote.option v = opt ∧ Vote.voted_at v = now ∧
     vote_tracker (snd (record_vote now sid uid opt d)) = vote_tracker d ++ [t] ∧
     votes (snd (record_vote now sid uid opt d)) = votes d ++ [v] ∧
     sessions (snd (record_vote now sid uid opt d)) = sessions d ∧
     cards (snd (record_vote now sid uid opt d)) = cards d ∧
     settings (snd (record_vote now sid uid opt d)) = settings d ∧
     seq_cards (snd (record_vote now sid uid opt d)) = seq_cards d).
Proof.
  destruct (card_has_voted uid sid d) eqn:Hv.
  - left. rewrite DbFacts.record_vote_duplicate by assumption.
    split; [|discriminate].
    unfold same_rows; cbn. repeat split; lia.
  - destruct (fk_session sid d) eqn:Hfk.
    + right. rewrite (DbFacts.record_vote_fresh now sid uid opt d Hfk Hv).
      do 3 (split; [reflexivity|]).
      eexists _, _. cbn. repeat split; reflexivity.
    + left. unfold record_vote, insert_or_ignore_vote_tracker.
      rewrite Hv, Hfk. cbn. split; [|discriminate].
      unfold same_rows. repeat split; lia.
Qed.

Lemma step_tracker_ok d e : tracker_ok d → tracker_ok (step d e).
Proof.
  intros Hd. destruct e as [now o]. destruct o; unfold step; cbn [fst snd];
    try exact Hd.
  - unfold enroll_card. destruct (card_exists uid d); exact Hd.
  - destruct (record_vote_cases now session_id card_uid option d)
      as [[(_ & _ & _ & Ht & _) _]
         |(_ & Hv & _ & t & v & Hs & Hu & _ & _ & _ & Ht & _)];
      [unfold tracker_ok; rewrite Ht; exact Hd|].
    unfold tracker_ok. rewrite Ht, List.map_app. cbn [List.map].
    apply NoDup_app. split; [exact Hd|]. split; [|apply NoDup_singleton].
    intros k Hk Hk'. apply list_elem_of_singleton in Hk'. subst k.
    unfold tracker_key in Hk. rewrite Hs, Hu in Hk.
    exact (not_voted_fresh _ _ _ Hv Hk).
Qed.

(** Induction over the histories of the database. *)
Lemma run_ind (P : db → Prop) :
  P empty_db → (∀ d e, P d → P (step d e)) → ∀ h, P (run h).
Proof.
  intros H0 Hstep h. unfold run. revert H0. generalize empty_db.
  induction h as [|e h IH]; intros d Hd; simpl; [assumption|].
  apply IH, Hstep, Hd.
Qed.

Lemma step_paired sid d e :
  get_total_votes sid d
    = Z.of_nat (List.length
        (List.filter (fun t => Tracker.session_id t =? sid) (vote_tracker d))) →
  get_total_votes sid (step d e)
    = Z.of_nat (List.length
        (List.filter (fun t => Tracker.session_id t =? sid)
           (vote_tracker (step d e)))).
Proof.
  intros Hd. destruct e as [now o]. destruct o; unfold step; cbn [fst snd];
    try exact Hd.
  - unfold enroll_card. destruct (card_exists uid d); exact Hd.
  - destruct (record_vote_cases now session_id card_uid option d)
      as [[(_ & _ & Hvs & Ht & _) _]
         |(_ & _ & _ & t & v & Hs & _ & Hs' & _ & _ & Ht & Hvs & _)];
      [unfold get_total_votes in *; rewrite Ht, Hvs; exact Hd|].
    unfold get_total_votes in *. rewrite Ht, Hvs, !List.filter_app, !List.length_app.
    rewrite !Nat2Z.inj_add, Hd. f_equal. cbn [List.filter].
    unfold of_session. rewrite Hs, Hs'.
    destruct (session_id =? sid); reflexivity.
Qed.

End TrackerFacts.

(** X1.  In every history the tracker holds at most one entry for a pair
    (session, card): the UNIQUE constraint survives every operation, so a
    card that has voted is found by exactly one entry. *)
Theorem tracker_unique (h : list (Z * Db.op)) (session_id : Z) (uid : string) :
  NoDup (List.map Inv.tracker_key (Db.vote_tracker (Db.run h))) ∧
  (List.length (List.filter (Db.tracks session_id uid) (Db.vote_tracker (Db.run h)))
   = if Db.card_has_voted uid session_id (Db.run h) then 1%nat else 0%nat).
Proof.
  assert (Hnd : Inv.tracker_ok (Db.run h)).
  { apply TrackerFacts.run_ind; [constructor | apply TrackerFacts.step_tracker_ok]. }
  split; [exact Hnd|].
  unfold Db.card_has_voted, Inv.tracker_ok in *.
  induction (Db.vote_tracker (Db.run h)) as [|t l IH]; [reflexivity|].
  cbn [List.map] in Hnd. apply NoDup_cons in Hnd as [Hnotin Hnd].
  cbn [List.filter existsb]. destruct (Db.tracks session_id uid t) eqn:Ht.
  - cbn [orb List.length]. f_equal.
    rewrite (DbFacts.filter_none (Db.tracks session_id uid) l); [reflexivity|].
    destruct (existsb (Db.tracks session_id uid) l) eqn:E; [|reflexivity].
    exfalso. apply Hnotin.
    apply existsb_exists in E as (t' & Hin & Ht').
    apply list_elem_of_In, in_map_iff. exists t'. split; [|assumption].
    unfold Db.tracks in *. apply andb_true_iff in Ht as [H1 H2], Ht' as [H1' H2'].
    apply Z.eqb_eq in H1, H1'. apply String.eqb_eq in H2, H2'.
    unfold Inv.tracker_key. congruence.
  - cbn [orb]. apply IH, Hnd.
Qed.

(** X2.  In every history and for every session, the number of its vote
    rows equals the number of its tracker entries: a commit writes both
    rows or neither. *)
Theorem votes_match_tracker (h : list (Z * Db.op)) (session_id : Z) :
  Db.get_total_votes session_id (Db.run h)
  = Z.of_nat (List.length
      (List.filter (fun t => Tracker.session_id t =? session_id)
         (Db.vote_tracker (Db.run h)))).
Proof.
  apply (TrackerFacts.run_ind
           (fun d => Db.get_total_votes session_id d
                     = Z.of_nat (List.length
                         (List.filter (fun t => Tracker.session_id t =? session_id)
                            (Db.vote_tracker d))))).
  - reflexivity.
  - intros d e. apply TrackerFacts.step_paired.
Qed.

(** ** Cards *)

Module CardFacts.
Import Db Inv.

Lemma reactivate_keys uid label c :
  Card.id (reactivate uid label c) = Card.id c ∧
  Card.uid (reactivate uid label c) = Card.uid c.
Proof. unfold reactivate. destruct (String.eqb (Card.uid c) uid); split; reflexivity. Qed.

Lemma deactivate_keys i c :
  Card.id (deactivate i c) = Card.id c ∧ Card.uid (deactivate i c) = Card.uid c.
Proof. unfold deactivate. destruct (Card.id c =? i); split; reflexivity. Qed.

(** Rewriting rows in place, ids and UIDs kept, keeps the table well formed. *)
Lemma map_cards_ok (f : Card.row → Card.row) seq d :
  (∀ c, Card.id (f c) = Card.id c ∧ Card.uid (f c) = Card.uid c) →
  seq_cards d <= seq →
  cards_ok d → cards_ok (with_cards (List.map f (cards d)) seq d).
Proof.
  intros Hf Hseq (Hnd & Hs & Hb). unfold cards_ok; cbn [cards seq_cards with_cards].
  split; [|split].
  - rewrite List.map_map.
    rewrite (List.map_ext (fun c => Card.uid (f c)) Card.uid); [assumption|].
    intros c. apply Hf.
  - clear Hnd Hb. induction Hs as [|a l Hs IH Ha]; cbn [List.map]; constructor;
      [assumption|].
    apply Forall_forall. intros y Hy.
    apply list_elem_of_In, in_map_iff in Hy as (x & <- & Hx).
    unfold card_lt. rewrite (proj1 (Hf a)), (proj1 (Hf x)).
    rewrite Forall_forall in Ha. apply Ha. now apply list_elem_of_In.
  - apply Forall_forall. intros y Hy.
    apply list_elem_of_In, in_map_iff in Hy as (x & <- & Hx).
    rewrite (proj1 (Hf x)). rewrite Forall_forall in Hb.
    apply list_elem_of_In, Hb in Hx. lia.
Qed.

Lemma card_exists_elem uid d :
  card_exists uid d = true ↔ uid ∈ List.map Card.uid (cards d).
Proof.
  unfold card_exists. rewrite existsb_exists, list_elem_of_In, in_map_iff.
  split; intros (c & H1 & H2); exists c.
  - apply String.eqb_eq in H2. auto.
  - split; [assumption|]. now apply String.eqb_eq.
Qed.

Lemma sorted_cards_snoc l x :
  StronglySorted card_lt l → Forall (fun a => card_lt a x) l →
  StronglySorted card_lt (l ++ [x]).
Proof.
  induction 1 as [|a l Hs IH Ha]; intros Hx; simpl.
  - repeat constructor.
  - inversion Hx; subst. constructor; [auto|].
    apply Forall_app; split; [assumption|]. repeat constructor; assumption.
Qed.

Lemma enroll_card_ok now uid label d : cards_ok d → cards_ok (enroll_card now uid label d).
Proof.
  intros Hd. unfold enroll_card. destruct (card_exists uid d) eqn:E.
  - apply (map_cards_ok (reactivate uid label));
      [apply reactivate_keys|lia|assumption].
  - destruct Hd as (Hnd & Hs & Hb). unfold cards_ok; cbn [cards seq_cards with_cards].
    split; [|split].
    + rewrite List.map_app. cbn [List.map Card.uid].
      apply NoDup_app. split; [assumption|]. split; [|apply NoDup_singleton].
      intros u Hu Hu'. apply list_elem_of_singleton in Hu'. subst u.
      apply card_exists_elem in Hu. congruence.
    + apply sorted_cards_snoc; [assumption|].
      eapply Forall_impl; [exact Hb|]. unfold card_lt; simpl. intros; lia.
    + apply Forall_app; split.
      * eapply Forall_impl; [exact Hb|]. simpl. intros; lia.
      * repeat constructor. simpl. lia.
Qed.

Lemma step_cards_ok d e : cards_ok d → cards_ok (step d e).
Proof.
  intros Hd. destruct e as [now o]. destruct o; unfold step; cbn [fst snd];
    try exact Hd.
  - apply enroll_card_ok, Hd.
  - apply (map_cards_ok (deactivate card_id));
      [apply deactivate_keys|lia|assumption].
  - destruct (TrackerFacts.record_vote_cases now session_id card_uid option d)
      as [[(_ & Hc & _ & _ & _ & _ & Hq & _) _]
         |(_ & _ & _ & t & v & _ & _ & _ & _ & _ & _ & _ & _ & Hc & _ & Hq)];
      unfold cards_ok; rewrite Hc, Hq; exact Hd.
Qed.

Lemma run_cards_ok h : cards_ok (run h).
Proof.
  apply TrackerFacts.run_ind; [|apply step_cards_ok].
  split; [constructor|]. split; constructor.
Qed.

(** With unique UIDs, being registered is a matter of the one row. *)
Lemma registered_row l c uid :
  NoDup (List.map Card.uid l) → c ∈ l → Card.uid c = uid →
  existsb (fun c => String.eqb (Card.uid c) uid && (Card.is_active c =? 1)) l
  = (Card.is_active c =? 1).
Proof.
  intros Hnd Hin Hu. induction l as [|a l IH]; [inversion Hin|].
  cbn [List.map] in Hnd. apply NoDup_cons in Hnd as [Hnotin Hnd].
  cbn [existsb]. apply elem_of_cons in Hin as [<-|Hin].
  - rewrite Hu, String.eqb_refl. cbn [andb].
    destruct (Card.is_active c =? 1); [reflexivity|]. cbn [orb].
    destruct (existsb _ l) eqn:E; [|reflexivity].
    exfalso. apply Hnotin. apply existsb_exists in E as (x & Hx & Hx').
    apply andb_true_iff in Hx' as [Hx' _]. apply String.eqb_eq in Hx'.
    apply list_elem_of_In, in_map_iff. exists x. split; congruence.
  - rewrite (IH Hnd Hin).
    destruct (String.eqb_spec (Card.uid a) uid) as [Ha|Ha]; [|reflexivity].
    exfalso. apply Hnotin. apply list_elem_of_In, in_map_iff.
    exists c. split; [congruence | now apply list_elem_of_In].
Qed.

Lemma existsb_map_ext {A} (f : A → A) (p : A → bool) (l : list A) :
  (∀ x, p (f x) = p x) → existsb p (List.map f l) = existsb p l.
Proof.
  intros E. induction l as [|a l IH]; simpl; [reflexivity|]. now rewrite E, IH.
Qed.

Lemma existsb_map_ext_in {A} (f : A → A) (p : A → bool) (l : list A) :
  (∀ x, x ∈ l → p (f x) = p x) → existsb p (List.map f l) = existsb p l.
Proof.
  induction l as [|a l IH]; intros E; simpl; [reflexivity|].
  rewrite E by left. rewrite IH; [reflexivity|].
  intros x Hx. apply E. now right.
Qed.

(** Growing ids are unique ids. *)
Lemma sorted_id_inj l x y :
  StronglySorted card_lt l → x ∈ l → y ∈ l → Card.id x = Card.id y → x = y.
Proof.
  induction 1 as [|a l Hs IH Ha]; intros Hx Hy E; [inversion Hx|].
  rewrite Forall_forall in Ha. unfold card_lt in Ha.
  apply elem_of_cons in Hx as [->|Hx], Hy as [->|Hy]; auto.
  - specialize (Ha y Hy). lia.
  - specialize (Ha x Hx). lia.
Qed.

(** After [enroll_card] the card is registered. *)
Lemma enroll_registered now uid label d :
  card_is_registered uid (enroll_card now uid label d) = true.
Proof.
  unfold enroll_card. destruct (card_exists uid d) eqn:E;
    unfold card_exists, card_is_registered in *; cbn [cards with_cards].
  - apply existsb_exists in E as (c & Hin & Hc).
    apply existsb_exists. exists (reactivate uid label c).
    split; [now apply in_map|].
    unfold reactivate. rewrite Hc. cbn. rewrite Hc. reflexivity.
  - rewrite existsb_app. cbn. rewrite String.eqb_refl. apply orb_true_r.
Qed.

(** Enrolling a UID that exists keeps every id. *)
Lemma enroll_existing_ids now uid label d :
  card_exists uid d = true →
  List.map Card.id (cards (enroll_card now uid label d)) = List.map Card.id (cards d).
Proof.
  intros E. unfold enroll_card. rewrite E. cbn [cards with_cards].
  rewrite List.map_map. apply List.map_ext. intros c.
  destruct (String.eqb (Card.uid c) uid); reflexivity.
Qed.

End CardFacts.

(** X3.  Enrolling a card, in any database: afterwards the card exists and
    is registered, and the existence and registration of every other UID
    are as before.  For a UID already in the table no row is added: the row
    keeps its id and enrolment time and takes the new label; for a new UID
    one row is appended. *)
Theorem enroll_card_registers (now : Z) (uid : string) (label : option string)
    (d : Db.db) :
  Db.card_exists uid (Db.enroll_card now uid label d) = true ∧
  Db.card_is_registered uid (Db.enroll_card now uid label d) = true ∧
  (∀ u, u ≠ uid →
     Db.card_exists u (Db.enroll_card now uid label d) = Db.card_exists u d ∧
     Db.card_is_registered u (Db.enroll_card now uid label d)
     = Db.card_is_registered u d) ∧
  (Db.card_exists uid d = true →
     List.map (fun c => (Card.id c, Card.uid c, Card.enrolled_at c))
       (Db.cards (Db.enroll_card now uid label d))
     = List.map (fun c => (Card.id c, Card.uid c, Card.enrolled_at c)) (Db.cards d) ∧
     ∀ c, c ∈ Db.cards (Db.enroll_card now uid label d) → Card.uid c = uid →
          Card.label c = label) ∧
  (Db.card_exists uid d = false →
     List.length (Db.cards (Db.enroll_card now uid label d))
     = S (List.length (Db.cards d))).
Proof.
  unfold Db.enroll_card.
  destruct (Db.card_exists uid d) eqn:E;
    unfold Db.card_exists, Db.card_is_registered in *; cbn [Db.cards Db.with_cards].
  - fold (Inv.reactivate uid label).
    assert (Hex : ∀ u, existsb (fun c => String.eqb (Card.uid c) u)
                        (List.map (Inv.reactivate uid label) (Db.cards d))
                      = existsb (fun c => String.eqb (Card.uid c) u) (Db.cards d)).
    { intros u. apply CardFacts.existsb_map_ext. intros c.
      now rewrite (proj2 (CardFacts.reactivate_keys uid label c)). }
    split; [rewrite Hex; exact E|]. split; [|split; [|split; [|discriminate]]].
    + apply existsb_exists in E as (c & Hin & Hc).
      apply existsb_exists. exists (Inv.reactivate uid label c).
      split; [now apply in_map|].
      unfold Inv.reactivate. rewrite Hc. simpl. rewrite Hc. reflexivity.
    + intros u Hu. split; [apply Hex|].
      apply CardFacts.existsb_map_ext. intros c. unfold Inv.reactivate.
      destruct (String.eqb_spec (Card.uid c) uid) as [Hc|Hc]; [|reflexivity].
      simpl. destruct (String.eqb_spec (Card.uid c) u); [congruence|reflexivity].
    + intros _. split.
      * rewrite List.map_map. apply List.map_ext. intros c.
        unfold Inv.reactivate.
        destruct (String.eqb (Card.uid c) uid); reflexivity.
      * intros c Hin Hc. apply list_elem_of_In, in_map_iff in Hin as (x & <- & _).
        revert Hc. unfold Inv.reactivate.
        destruct (String.eqb_spec (Card.uid x) uid); [reflexivity|contradiction].
  - rewrite !existsb_app. cbn [existsb Card.uid Card.is_active].
    rewrite String.eqb_refl. cbn.
    split; [apply orb_true_r|]. split; [apply orb_true_r|].
    split; [|split; [discriminate|]].
    + intros u Hu. apply not_eq_sym, String.eqb_neq in Hu.
      rewrite !existsb_app. cbn [existsb Card.uid Card.is_active].
      rewrite Hu. cbn. rewrite !orb_false_r. split; reflexivity.
    + intros _. rewrite List.length_app. cbn. lia.
Qed.

(** X4.  Deactivating a stored card, in every history: the card stays in the
    table but is no longer registered, every other UID is untouched, and
    enrolling it again registers it under its old id.  An id that no card
    has changes nothing. *)
Theorem deactivate_card_soft (h : list (Z * Db.op)) (card_id : Z) :
  (∀ c, c ∈ Db.cards (Db.run h) → Card.id c = card_id →
     Db.card_exists (Card.uid c) (Db.deactivate_card card_id (Db.run h)) = true ∧
     Db.card_is_registered (Card.uid c) (Db.deactivate_card card_id (Db.run h)) = false ∧
     (∀ u, u ≠ Card.uid c →
        Db.card_is_registered u (Db.deactivate_card card_id (Db.run h))
        = Db.card_is_registered u (Db.run h)) ∧
     (∀ now label,
        Db.card_is_registered (Card.uid c)
          (Db.enroll_card now (Card.uid c) label
             (Db.deactivate_card card_id (Db.run h))) = true ∧
        List.map Card.id
          (Db.cards (Db.enroll_card now (Card.uid c) label
                       (Db.deactivate_card card_id (Db.run h))))
        = List.map Card.id (Db.cards (Db.run h)))) ∧
  ((∀ c, c ∈ Db.cards (Db.run h) → Card.id c ≠ card_id) →
     Db.deactivate_card card_id (Db.run h) = Db.run h).
Proof.
  destruct (CardFacts.run_cards_ok h) as (Hnd & Hs & _).
  set (d := Db.run h) in *. split.
  - intros c Hin Hid.
    assert (Hex : ∀ u, Db.card_exists u (Db.deactivate_card card_id d)
                       = Db.card_exists u d).
    { intros u. unfold Db.card_exists, Db.deactivate_card; cbn [Db.cards Db.with_cards].
      fold (Inv.deactivate card_id).
      apply CardFacts.existsb_map_ext. intros x.
      now rewrite (proj2 (CardFacts.deactivate_keys card_id x)). }
    assert (Hc : Db.card_exists (Card.uid c) d = true).
    { apply CardFacts.card_exists_elem, list_elem_of_In, in_map.
      now apply list_elem_of_In. }
    assert (Hin' : Inv.deactivate card_id c
                   ∈ List.map (Inv.deactivate card_id) (Db.cards d)).
    { apply list_elem_of_In, in_map. now apply list_elem_of_In. }
    assert (Hnd' : NoDup (List.map Card.uid
                            (List.map (Inv.deactivate card_id) (Db.cards d)))).
    { rewrite List.map_map.
      rewrite (List.map_ext _ Card.uid); [assumption|].
      intros x. apply CardFacts.deactivate_keys. }
    split; [rewrite Hex; exact Hc|]. split; [|split].
    + unfold Db.card_is_registered, Db.deactivate_card; cbn [Db.cards Db.with_cards].
      fold (Inv.deactivate card_id).
      rewrite (CardFacts.registered_row _ _ (Card.uid c) Hnd' Hin'
                 (proj2 (CardFacts.deactivate_keys card_id c))).
      unfold Inv.deactivate. rewrite Hid, Z.eqb_refl. reflexivity.
    + intros u Hu.
      unfold Db.card_is_registered, Db.deactivate_card; cbn [Db.cards Db.with_cards].
      fold (Inv.deactivate card_id).
      apply CardFacts.existsb_map_ext_in. intros x Hxin. unfold Inv.deactivate.
      destruct (Z.eqb_spec (Card.id x) card_id) as [Hx|Hx]; [|reflexivity].
      cbn [Card.uid Card.is_active].
      destruct (String.eqb_spec (Card.uid x) u) as [Hxu|Hxu]; [|reflexivity].
      exfalso. apply Hu. rewrite <- Hxu. f_equal.
      apply (CardFacts.sorted_id_inj (Db.cards d)); [assumption..|congruence].
    + intros now label. split; [apply CardFacts.enroll_registered|].
      rewrite CardFacts.enroll_existing_ids by (rewrite Hex; exact Hc).
      unfold Db.deactivate_card; cbn [Db.cards Db.with_cards].
      fold (Inv.deactivate card_id).
      rewrite List.map_map. apply List.map_ext. intros x.
      apply CardFacts.deactivate_keys.
  - intros Hno. unfold Db.deactivate_card.
    fold (Inv.deactivate card_id).
    rewrite (List.map_ext_in (Inv.deactivate card_id) (fun c => c)).
    + rewrite List.map_id. destruct d; reflexivity.
    + intros c Hin. unfold Inv.deactivate.
      destruct (Z.eqb_spec (Card.id c) card_id) as [Hx|Hx]; [|reflexivity].
      exfalso. apply (Hno c); [now apply list_elem_of_In | assumption].
Qed.

(** ** Sessions *)

Module SessionMore.
Import Db Spec.

Lemma find_snoc {A} (p : A → bool) (l : list A) (x : A) :
  List.find p (l ++ [x]) =
    match List.find p l with
    | Some y => Some y
    | None => if p x then Some x else None
    end.
Proof.
  induction l as [|a l IH]; simpl; [reflexivity|].
  destruct (p a); [reflexivity|assumption].
Qed.

Lemma find_none_below (i : Z) (l : list Session.row) :
  Forall (fun s => Session.id s < i) l →
  List.find (fun s => Session.id s =? i) l = None.
Proof.
  induction 1 as [|a l Ha Hl IH]; simpl; [reflexivity|].
  destruct (Z.eqb_spec (Session.id a) i); [lia|assumption].
Qed.

Lemma find_map_same_id (f : Session.row → Session.row) (i : Z) l :
  (∀ s, Session.id (f s) = Session.id s) →
  List.find (fun s => Session.id s =? i) (List.map f l)
  = option_map f (List.find (fun s => Session.id s =? i) l).
Proof.
  intros Hf. induction l as [|a l IH]; simpl; [reflexivity|].
  rewrite Hf. destruct (Session.id a =? i); [reflexivity|assumption].
Qed.

(** In a table with growing ids every row before [s] has a smaller id. *)
Lemma sorted_before l1 s l2 :
  StronglySorted id_lt (l1 ++ s :: l2) → Forall (fun y => id_lt y s) l1.
Proof.
  induction l1 as [|x l1 IH]; intros Hs; [constructor|].
  simpl in Hs. inversion Hs as [|? ? Hr Hx]; subst.
  constructor; [|auto].
  rewrite Forall_forall in Hx. apply Hx. apply elem_of_app. right. left.
Qed.

(** With growing ids, [get_session] of a stored row's id is that row. *)
Lemma get_session_stored d s :
  StronglySorted id_lt (sessions d) → s ∈ sessions d →
  get_session (Session.id s) d = Some s.
Proof.
  unfold get_session. intros Hs Hin.
  induction (sessions d) as [|a l IH]; [inversion Hin|].
  inversion Hs as [|? ? Hr Ha]; subst. simpl.
  apply elem_of_cons in Hin as [->|Hin]; [now rewrite Z.eqb_refl|].
  rewrite Forall_forall in Ha. specialize (Ha s Hin). unfold id_lt in Ha.
  destruct (Z.eqb_spec (Session.id a) (Session.id s)); [lia|auto].
Qed.

Lemma get_active_session_stored now d s :
  get_active_session now d = Some s → s ∈ sessions d ∧ session_open now s = true.
Proof.
  unfold get_active_session.
  assert (G : ∀ l, max_by_id l = Some s → s ∈ l).
  { induction l as [|a l IH]; simpl; [discriminate|].
    destruct (max_by_id l) as [m|].
    - destruct (Session.id m <? Session.id a); intros [= <-];
        [left | right; auto].
    - intros [= <-]. left. }
  intros Hm. apply G, list_elem_of_In, filter_In in Hm as [Hin Hopen].
  split; [now apply list_elem_of_In | assumption].
Qed.

Lemma insert_desc_head s acc :
  (∀ y, head acc = Some y → Session.id y < Session.id s) →
  Listing.insert_by_id_desc s acc = s :: acc.
Proof.
  destruct acc as [|y r]; intros Hh; simpl; [reflexivity|].
  specialize (Hh y eq_refl). destruct (Z.ltb_spec (Session.id y) (Session.id s));
    [reflexivity|lia].
Qed.

Lemma order_desc_rev l1 l2 :
  StronglySorted id_lt (l1 ++ l2) →
  foldl (fun acc s => Listing.insert_by_id_desc s acc) (rev l1) l2
  = rev (l1 ++ l2).
Proof.
  revert l1. induction l2 as [|s l2 IH]; intros l1 Hs; simpl.
  - now rewrite app_nil_r.
  - rewrite insert_desc_head.
    + change (s :: rev l1) with (rev [s] ++ rev l1). rewrite <- rev_app_distr.
      rewrite IH; rewrite <- app_assoc; [reflexivity|exact Hs].
    + intros y Hy. apply sorted_before in Hs. rewrite Forall_forall in Hs.
      apply Hs. apply head_Some_elem_of, list_elem_of_In in Hy.
      apply list_elem_of_In, in_rev, Hy.
Qed.

End SessionMore.

(** X5.  Creating a session, in every history: the returned id is greater
    than every stored id; [get_session] of it gives the new row, with the
    fields as passed (empty option C or D stored as NULL), active, stamped
    with the creation time; every other id reads as before; and at any time
    inside its window the new session is the active one, whatever older
    sessions are open. *)
Theorem create_session_lookup (h : list (Z * Db.op)) (now : Z)
    (question option_a option_b : string) (option_c option_d : option string)
    (start_time end_time : option Z) :
  ∃ rowid d' row,
    Db.create_session now question option_a option_b option_c option_d
      start_time end_time (Db.run h) = (rowid, d') ∧
    row = {| Session.id := rowid; Session.question := question;
             Session.option_a := option_a; Session.option_b := option_b;
             Session.option_c := or_None option_c;
             Session.option_d := or_None option_d;
             Session.start_time := start_time; Session.end_time := end_time;
             Session.created_at := now; Session.is_active := 1 |} ∧
    Forall (fun s => Session.id s < rowid) (Db.sessions (Db.run h)) ∧
    Db.get_session rowid d' = Some row ∧
    (∀ j, j ≠ rowid → Db.get_session j d' = Db.get_session j (Db.run h)) ∧
    (∀ t a b, start_time = Some a → end_time = Some b → a <= t <= b →
       Db.get_active_session t d' = Some row).
Proof.
  destruct (SessionFacts.run_sessions_ok h) as [Hs Hb].
  set (d := Db.run h) in *.
  eexists _, _, _. split; [reflexivity|]. split; [reflexivity|].
  assert (Hlt : Forall (fun s => Session.id s < Db.seq_sessions d + 1) (Db.sessions d)).
  { eapply Forall_impl; [exact Hb|]. simpl. intros; lia. }
  split; [exact Hlt|]. unfold Db.get_session; cbn [Db.sessions Db.with_sessions].
  split; [|split].
  - rewrite SessionMore.find_snoc, SessionMore.find_none_below by assumption.
    cbn [Session.id]. now rewrite Z.eqb_refl.
  - intros j Hj. rewrite SessionMore.find_snoc.
    destruct (List.find _ (Db.sessions d)); [reflexivity|].
    cbn [Session.id]. destruct (Z.eqb_spec (Db.seq_sessions d + 1) j); [lia|reflexivity].
  - intros t a b -> -> Ht. unfold Db.get_active_session.
    cbn [Db.sessions Db.with_sessions].
    rewrite List.filter_app. cbn [List.filter].
    assert (Hopen : ∀ r, Session.is_active r = 1 → Session.start_time r = Some a →
                         Session.end_time r = Some b → Db.session_open t r = true).
    { intros r H1 H2 H3. unfold Db.session_open. rewrite H1, H2, H3. cbn.
      apply andb_true_iff. split; apply Z.leb_le; lia. }
    rewrite Hopen by reflexivity.
    rewrite SessionFacts.max_by_id_last.
    + apply last_snoc.
    + apply SessionFacts.sorted_snoc.
      * now apply SessionFacts.sorted_filter.
      * apply Forall_forall. intros y Hy.
        apply list_elem_of_In, filter_In in Hy as [Hy _].
        rewrite Forall_forall in Hlt. apply Hlt. now apply list_elem_of_In.
Qed.

(** X6.  Updating a session, in any database: a stored id reads back with
    the new fields and its old id and creation time; every other id reads as
    before; for an id that is not stored nothing changes (no row is
    inserted). *)
Theorem update_session_lookup (d : Db.db) (session_id : Z)
    (question option_a option_b : string) (option_c option_d : option string)
    (start_time end_time : option Z) (is_active : Z) :
  (∀ s, Db.get_session session_id d = Some s →
     Db.get_session session_id
       (Db.update_session session_id question option_a option_b option_c
          option_d start_time end_time is_active d)
     = Some {| Session.id := session_id; Session.question := question;
               Session.option_a := option_a; Session.option_b := option_b;
               Session.option_c := or_None option_c;
               Session.option_d := or_None option_d;
               Session.start_time := start_time; Session.end_time := end_time;
               Session.created_at := Session.created_at s;
               Session.is_active := is_active |}) ∧
  (∀ j, j ≠ session_id →
     Db.get_session j
       (Db.update_session session_id question option_a option_b option_c
          option_d start_time end_time is_active d)
     = Db.get_session j d) ∧
  (Db.get_session session_id d = None →
     Db.update_session session_id question option_a option_b option_c
       option_d start_time end_time is_active d = d).
Proof.
  unfold Db.get_session, Db.update_session; cbn [Db.sessions Db.with_sessions].
  set (f := Db.update_row session_id question option_a option_b option_c option_d
              start_time end_time is_active).
  assert (Hid : ∀ s, Session.id (f s) = Session.id s)
    by (intros s; apply SessionFacts.update_row_id).
  split; [|split].
  - intros s Hf. rewrite SessionMore.find_map_same_id, Hf by assumption. cbn.
    apply find_some in Hf as [_ Hs]. apply Z.eqb_eq in Hs.
    unfold f, Db.update_row. rewrite Hs, Z.eqb_refl. reflexivity.
  - intros j Hj. rewrite SessionMore.find_map_same_id by assumption.
    destruct (List.find _ (Db.sessions d)) as [s|] eqn:Hf; [|reflexivity].
    cbn. apply find_some in Hf as [_ Hs]. apply Z.eqb_eq in Hs.
    unfold f, Db.update_row.
    destruct (Z.eqb_spec (Session.id s) session_id); [lia|reflexivity].
  - intros Hnone.
    rewrite (List.map_ext_in f (fun s => s)).
    + rewrite List.map_id. destruct d; reflexivity.
    + intros s Hin. unfold f, Db.update_row.
      destruct (Z.eqb_spec (Session.id s) session_id) as [E|E]; [|reflexivity].
      exfalso. eapply find_none in Hnone; [|exact Hin].
      cbn in Hnone. apply Z.eqb_neq in Hnone. contradiction.
Qed.

(** X7.  In every history [get_all_sessions] (ORDER BY id DESC) lists the
    sessions newest first: it is the table in reverse creation order. *)
Theorem get_all_sessions_newest_first (h : list (Z * Db.op)) :
  Listing.get_all_sessions (Db.run h) = rev (Db.sessions (Db.run h)).
Proof.
  destruct (SessionFacts.run_sessions_ok h) as [Hs _].
  unfold Listing.get_all_sessions, Listing.order_by_id_desc.
  exact (SessionMore.order_desc_rev [] _ Hs).
Qed.

(** ** Totals and export *)

Module ExportFacts.
Import Db Inv.

Lemma insert_by_time_perm x l : insert_by_time x l ≡ₚ x :: l.
Proof.
  induction l as [|y l IH]; simpl; [reflexivity|].
  destruct (fst x <? fst y); [reflexivity|].
  rewrite IH. apply Permutation_swap.
Qed.

Lemma order_by_time_perm l : order_by_time l ≡ₚ l.
Proof.
  unfold order_by_time.
  assert (G : ∀ acc, foldl (fun acc x => insert_by_time x acc) acc l ≡ₚ acc ++ l).
  { induction l as [|x l IH]; intros acc; simpl.
    - now rewrite app_nil_r.
    - rewrite IH, insert_by_time_perm.
      change (x :: acc) with ([x] ++ acc).
      rewrite (Permutation_app_comm [x] acc), <- app_assoc. reflexivity. }
  apply (G []).
Qed.

Lemma insert_by_time_sorted x l :
  StronglySorted by_time l → StronglySorted by_time (insert_by_time x l).
Proof.
  induction 1 as [|y l Hs IH Hy]; simpl; [repeat constructor|].
  destruct (Z.ltb_spec (fst x) (fst y)).
  - constructor; [constructor; assumption|].
    constructor; [unfold by_time; lia|].
    eapply Forall_impl; [exact Hy|]. unfold by_time. intros; lia.
  - constructor; [assumption|].
    rewrite insert_by_time_perm. constructor; [unfold by_time; lia|assumption].
Qed.

Lemma order_by_time_sorted l : StronglySorted by_time (order_by_time l).
Proof.
  unfold order_by_time.
  assert (G : ∀ acc, StronglySorted by_time acc →
                     StronglySorted by_time
                       (foldl (fun acc x => insert_by_time x acc) acc l)).
  { induction l as [|x l IH]; intros acc Hacc; simpl; [assumption|].
    apply IH, insert_by_time_sorted, Hacc. }
  apply G. constructor.
Qed.

End ExportFacts.

(** X8.  The export of a session, in any database: it is a rearrangement of
    the (voted_at, option) pairs of the session's vote rows, so it has as
    many rows as [get_total_votes] counts, and it is in non-decreasing
    order of [voted_at]. *)
Theorem export_sorted_complete (d : Db.db) (session_id : Z) :
  Db.get_all_votes_for_export session_id d
    ≡ₚ List.map (fun v => (Vote.voted_at v, Vote.option v))
         (List.filter (fun v => Vote.session_id v =? session_id) (Db.votes d)) ∧
  Z.of_nat (List.length (Db.get_all_votes_for_export session_id d))
    = Db.get_total_votes session_id d ∧
  StronglySorted Inv.by_time (Db.get_all_votes_for_export session_id d).
Proof.
  unfold Db.get_all_votes_for_export, Db.get_total_votes.
  split; [apply ExportFacts.order_by_time_perm|].
  split; [|apply ExportFacts.order_by_time_sorted].
  rewrite (Permutation_length (ExportFacts.order_by_time_perm _)).
  now rewrite List.length_map.
Qed.

(** X9.  The total that [results_data] and the sheet sync derive from
    [get_vote_counts] never exceeds [get_total_votes]; the two agree when
    every vote row of the session carries one of the session's defined
    option keys, and for an unknown session the derived total is 0. *)
Theorem counts_total_bound (d : Db.db) (session_id : Z) :
  Sheets.sum_counts (Db.get_vote_counts session_id d)
    <= Db.get_total_votes session_id d ∧
  (∀ s, Db.get_session session_id d = Some s →
     Forall (fun v => Vote.session_id v = session_id →
                      Vote.option v ∈ Db.option_keys s) (Db.votes d) →
     Sheets.sum_counts (Db.get_vote_counts session_id d)
     = Db.get_total_votes session_id d) ∧
  (Db.get_session session_id d = None →
     Sheets.sum_counts (Db.get_vote_counts session_id d) = 0).
Proof.
  assert (Hsum : ∀ s, Db.get_session session_id d = Some s →
            Sheets.sum_counts (Db.get_vote_counts session_id d)
            = Spec.cnt (fun v => Db.of_session session_id v
                         && existsb (String.eqb (Vote.option v)) (Db.option_keys s))
                (Db.votes d)).
  { intros s Hs. unfold Db.get_vote_counts. rewrite Hs.
    rewrite <- TallyFacts.sum_over_keys by apply TallyFacts.option_keys_NoDup.
    unfold Sheets.sum_counts.
    induction (Db.option_keys s) as [|k ks IH]; [reflexivity|].
    simpl. rewrite IH, TallyFacts.counts_raw_lookup. reflexivity. }
  assert (Hle : ∀ (p q : Vote.row → bool) l,
            Spec.cnt (fun v => p v && q v) l <= Spec.cnt p l).
  { intros p q l. induction l as [|v l IH]; [reflexivity|].
    rewrite !TallyFacts.cnt_cons. destruct (p v), (q v); simpl; lia. }
  split; [|split].
  - destruct (Db.get_session session_id d) as [s|] eqn:Hs.
    + rewrite (Hsum s eq_refl). apply Hle.
    + unfold Db.get_vote_counts, Db.get_total_votes. rewrite Hs. simpl. lia.
  - intros s Hs Hall. rewrite (Hsum s Hs). clear Hsum. unfold Db.get_total_votes.
    fold (Spec.cnt (Db.of_session session_id) (Db.votes d)).
    induction Hall as [|v l Hv Hl IH]; [reflexivity|].
    rewrite !TallyFacts.cnt_cons, IH. f_equal.
    unfold Db.of_session.
    destruct (Z.eqb_spec (Vote.session_id v) session_id) as [E|E]; [|reflexivity].
    cbn [andb]. specialize (Hv E).
    apply list_elem_of_In in Hv.
    assert (existsb (String.eqb (Vote.option v)) (Db.option_keys s) = true) as ->;
      [|reflexivity].
    apply existsb_exists. exists (Vote.option v). split; [assumption|].
    apply String.eqb_refl.
  - intros Hs. unfold Db.get_vote_counts. rewrite Hs. reflexivity.
Qed.

(** ** Settings *)

(** X10.  [init_db] may be run again at any time: it changes no table, it
    never overwrites a setting that has a row, it leaves both default keys
    present, and running it twice is running it once.  A saved setting
    reads back, leaves every other key alone, and survives [init_db]. *)
Theorem settings_survive_init (d : Db.db) (key value : string) :
  Db.init_db (Db.init_db d) = Db.init_db d ∧
  (Db.sessions (Db.init_db d), Db.cards (Db.init_db d), Db.votes (Db.init_db d),
   Db.vote_tracker (Db.init_db d))
  = (Db.sessions d, Db.cards d, Db.votes d, Db.vote_tracker d) ∧
  (∀ k v, Db.settings d !! k = Some v → Db.settings (Db.init_db d) !! k = Some v) ∧
  is_Some (Db.settings (Db.init_db d) !! "sheets_enabled") ∧
  is_Some (Db.settings (Db.init_db d) !! "sheets_spreadsheet_id") ∧
  Db.get_setting key (Db.set_setting key value d) = Some value ∧
  (∀ k, k ≠ key →
     Db.get_setting k (Db.set_setting key value d) = Db.get_setting k d) ∧
  Db.get_setting key (Db.init_db (Db.set_setting key value d)) = Some value.
Proof.
  assert (Hkeep : ∀ (m : gmap string (option string)) k0 v0 k v,
            m !! k = Some v → Db.insert_or_ignore_setting k0 v0 m !! k = Some v).
  { intros m k0 v0 k v Hk. unfold Db.insert_or_ignore_setting.
    destruct (m !! k0) eqn:E; [assumption|].
    rewrite lookup_insert_ne; [assumption|]. intros ->. congruence. }
  assert (Hhas : ∀ (m : gmap string (option string)) k0 v0,
            is_Some (Db.insert_or_ignore_setting k0 v0 m !! k0)).
  { intros m k0 v0. unfold Db.insert_or_ignore_setting.
    destruct (m !! k0) eqn:E; [rewrite E; eauto|].
    rewrite lookup_insert_eq. eauto. }
  assert (Hidem : ∀ (m : gmap string (option string)) k0 v0,
            is_Some (m !! k0) → Db.insert_or_ignore_setting k0 v0 m = m).
  { intros m k0 v0 [x Hx]. unfold Db.insert_or_ignore_setting. now rewrite Hx. }
  assert (Hinit : ∀ d0 k v, Db.settings d0 !! k = Some v →
                            Db.settings (Db.init_db d0) !! k = Some v).
  { intros d0 k v Hk. unfold Db.init_db; cbn [Db.settings Db.set_settings].
    now apply Hkeep, Hkeep. }
  split; [|split; [reflexivity|split; [exact (Hinit d)|]]].
  - unfold Db.init_db; cbn [Db.settings Db.set_settings]. unfold Db.set_settings.
    cbn. f_equal.
    rewrite (Hidem _ "sheets_spreadsheet_id").
    + apply Hidem, Hhas.
    + destruct (Hhas (Db.settings d) "sheets_spreadsheet_id" (Some "")) as [x Hx].
      exists x. now apply Hkeep.
  - split; [apply Hhas|]. split.
    + unfold Db.init_db; cbn [Db.settings Db.set_settings].
      destruct (Hhas (Db.settings d) "sheets_spreadsheet_id" (Some "")) as [x Hx].
      exists x. now apply Hkeep.
    + assert (Hget : Db.settings (Db.set_setting key value d) !! key = Some (Some value)).
      { unfold Db.set_setting; cbn [Db.settings Db.set_settings].
        apply lookup_insert_eq. }
      split; [unfold Db.get_setting; now rewrite Hget|]. split.
      * intros k Hk. unfold Db.get_setting, Db.set_setting;
          cbn [Db.settings Db.set_settings].
        rewrite lookup_insert_ne by congruence. reflexivity.
      * unfold Db.get_setting. now rewrite (Hinit _ _ _ Hget).
Qed.

(** ** The datetime-local helpers *)

Module HtmlFacts.
Import Html.

Lemma length_replace a b s : String.length (replace a b s) = String.length s.
Proof. induction s as [|c s IH]; simpl; [reflexivity|]. now rewrite IH. Qed.

Lemma prefix_app n s t : String.length s = n → prefix n (s +:+ t) = s.
Proof.
  revert n. induction s as [|c s IH]; intros n Hn; simpl in *.
  - subst n. reflexivity.
  - destruct n as [|n]; [discriminate|]. simpl. f_equal. apply IH. lia.
Qed.

(** Swapping [a] for [b] and back gives the text again when it had no [b]. *)
Lemma replace_back a b s :
  contains b s = false → replace b a (replace a b s) = s.
Proof.
  induction s as [|c s IH]; simpl; [reflexivity|].
  intros E. apply orb_false_elim in E as [Ec Es]. rewrite (IH Es). f_equal.
  destruct (Ascii.eqb_spec c a) as [->|Hca].
  - now rewrite Ascii.eqb_refl.
  - now rewrite Ec.
Qed.

Lemma nonempty_length s n : String.length s = S n → String.eqb s "" = false.
Proof. destruct s; [discriminate|reflexivity]. Qed.

End HtmlFacts.

(** X11.  The two datetime helpers undo each other on the texts they are
    made for: a 16-character form value without a space (such as
    '2025-09-15T09:00') survives the way to the database and back, and a
    database text of 16 characters without 'T' followed by ':00' survives
    the way to the form and back.  Both map the empty text to itself. *)
Theorem time_helpers_round_trip :
  (Html.db_time_to_html "" = "" ∧ Html.html_time_to_db "" = "") ∧
  (∀ s, String.length s = 16%nat → Html.contains " " s = false →
     Html.db_time_to_html (Html.html_time_to_db s) = s) ∧
  (∀ p, String.length p = 16%nat → Html.contains "T" p = false →
     Html.html_time_to_db (Html.db_time_to_html (p +:+ ":00")) = p +:+ ":00").
Proof.
  split; [split; reflexivity|]. split.
  - intros s Hlen Hsp. unfold Html.html_time_to_db.
    rewrite (HtmlFacts.nonempty_length s 15 Hlen).
    unfold Html.db_time_to_html.
    assert (String.eqb (Html.replace "T" " " s +:+ ":00") "" = false) as ->.
    { destruct s; [discriminate|reflexivity]. }
    rewrite HtmlFacts.prefix_app by (now rewrite HtmlFacts.length_replace).
    now apply HtmlFacts.replace_back.
  - intros p Hlen HT. unfold Html.db_time_to_html.
    assert (String.eqb (p +:+ ":00") "" = false) as ->.
    { destruct p; [discriminate|reflexivity]. }
    rewrite HtmlFacts.prefix_app by assumption.
    unfold Html.html_time_to_db.
    assert (String.eqb (Html.replace " " "T" p) "" = false) as ->.
    { destruct p; [discriminate|reflexivity]. }
    now rewrite HtmlFacts.replace_back.
Qed.

Example time_helpers_example :
  Html.html_time_to_db "2025-09-15T09:00" = "2025-09-15 09:00:00" ∧
  Html.db_time_to_html "2025-09-15 09:00:00" = "2025-09-15T09:00".
Proof. split; reflexivity. Qed.

(** ** The reader loop *)

Module ReaderFacts.
Import Reader.

Lemma hex_digit_inj a b :
  (a < 16)%N → (b < 16)%N → hex_digit a = hex_digit b → a = b.
Proof.
  intros Ha Hb.
  assert (Ea : (a = 0 ∨ a = 1 ∨ a = 2 ∨ a = 3 ∨ a = 4 ∨ a = 5 ∨ a = 6 ∨ a = 7 ∨
                a = 8 ∨ a = 9 ∨ a = 10 ∨ a = 11 ∨ a = 12 ∨ a = 13 ∨ a = 14 ∨
                a = 15)%N) by lia.
  assert (Eb : (b = 0 ∨ b = 1 ∨ b = 2 ∨ b = 3 ∨ b = 4 ∨ b = 5 ∨ b = 6 ∨ b = 7 ∨
                b = 8 ∨ b = 9 ∨ b = 10 ∨ b = 11 ∨ b = 12 ∨ b = 13 ∨ b = 14 ∨
                b = 15)%N) by lia.
  repeat (destruct Ea as [->|Ea]); try subst a;
    repeat (destruct Eb as [->|Eb]); try subst b;
    cbn; intros E; solve [reflexivity | discriminate E].
Qed.

Lemma hex2_inj b1 b2 : hex2 b1 = hex2 b2 → b1 = b2.
Proof.
  unfold hex2. intros [= Hq Hr].
  pose proof (Byte.to_N_bounded b1) as B1. pose proof (Byte.to_N_bounded b2) as B2.
  apply hex_digit_inj in Hq;
    [|apply N.Div0.div_lt_upper_bound; lia | apply N.Div0.div_lt_upper_bound; lia].
  apply hex_digit_inj in Hr; [|apply N.mod_lt; lia | apply N.mod_lt; lia].
  assert (Byte.to_N b1 = Byte.to_N b2) as E.
  { rewrite (N.div_mod' (Byte.to_N b1) 16), (N.div_mod' (Byte.to_N b2) 16). congruence. }
  pose proof (Byte.of_to_N b1) as O1. rewrite E, Byte.of_to_N in O1. congruence.
Qed.

Lemma join_cons p r :
  join (p :: r) = p +:+ match r with [] => EmptyString | _ => String ":" (join r) end.
Proof.
  destruct r; [|reflexivity]. cbn [join].
  induction p as [|c p IH]; [reflexivity|]. change (String c p = String c (p +:+ "")). now f_equal.
Qed.

Lemma length_app (a b : string) :
  String.length (a +:+ b) = (String.length a + String.length b)%nat.
Proof.
  induction a as [|c a IH]; [reflexivity|].
  change (String.length (String c (a +:+ b)) = S (String.length a + String.length b)).
  cbn [String.length]. now rewrite IH.
Qed.

Lemma join_hex_nonempty b r : join (List.map hex2 (b :: r)) ≠ EmptyString.
Proof. rewrite List.map_cons, join_cons. discriminate. Qed.

(** A processed scan that follows the state's card is a cooldown later. *)
Lemma processed_head reads r t u rest :
  processed reads r = (t, u) :: rest → _last_uid r = Some u →
  SCAN_COOLDOWN <= t - _last_scan_time r.
Proof.
  revert r. induction reads as [|[now bs] reads IH]; intros r; simpl; [discriminate|].
  unfold poll. destruct bs as [bs|]; [|apply IH].
  destruct (bool_decide (Some (format_uid bs) = _last_uid r)
            && (now - _last_scan_time r <? SCAN_COOLDOWN)) eqn:G; [apply IH|].
  intros [= <- <- _] Hu.
  rewrite bool_decide_true in G by congruence. cbn [andb] in G.
  apply Z.ltb_ge in G. exact G.
Qed.

End ReaderFacts.

(** X12.  The UID text of a card: byte sequences that differ give UIDs that
    differ, so two cards never share a UID text; a card of [n] bytes (n at
    least 1) gives [3n - 1] characters, and no bytes give the empty text. *)
Theorem format_uid_injective (l1 l2 : list Byte.byte) :
  (Reader.format_uid l1 = Reader.format_uid l2 → l1 = l2) ∧
  (l1 ≠ [] →
   Z.of_nat (String.length (Reader.format_uid l1)) = 3 * Z.of_nat (List.length l1) - 1) ∧
  Reader.format_uid [] = "".
Proof.
  split; [|split; [|reflexivity]].
  - unfold Reader.format_uid. revert l2.
    induction l1 as [|b1 r1 IH]; intros [|b2 r2] E; [reflexivity| | |].
    + symmetry in E. destruct (ReaderFacts.join_hex_nonempty _ _ E).
    + destruct (ReaderFacts.join_hex_nonempty _ _ E).
    + rewrite !List.map_cons, !ReaderFacts.join_cons in E.
      unfold Reader.hex2 at 1 3 in E. cbn [String.append] in E.
      injection E as Hq Hr Hrest.
      assert (b1 = b2) as ->.
      { apply ReaderFacts.hex2_inj. unfold Reader.hex2. congruence. }
      f_equal. apply IH.
      destruct r1 as [|x1 r1], r2 as [|x2 r2]; cbn [List.map] in *;
        try reflexivity; try discriminate.
      now injection Hrest.
  - unfold Reader.format_uid. induction l1 as [|b r IH]; intros Hne; [contradiction|].
    rewrite List.map_cons, ReaderFacts.join_cons, ReaderFacts.length_app.
    destruct r as [|x r]; [reflexivity|].
    change (List.map Reader.hex2 (x :: r))
      with (Reader.hex2 x :: List.map Reader.hex2 r) at 1.
    cbn iota. cbn [String.length Reader.hex2].
    rewrite Nat2Z.inj_add, !Nat2Z.inj_succ.
    rewrite IH by discriminate. cbn [List.length]. lia.
Qed.

(** X13.  Repeat-tap suppression over any run of the polling loop, from any
    state: of the scans handed to the card gate, two neighbouring ones of
    the same card are at least SCAN_COOLDOWN = 2 seconds apart by the
    thread's clock; a read that gives no card hands over nothing. *)
Theorem cooldown_spacing (reads : list (Z * option (list Byte.byte)))
    (r : Reader.reader) :
  Reader.spaced (Reader.processed reads r) ∧
  (∀ now, Reader.poll now None r = (r, None)).
Proof.
  split; [|reflexivity].
  revert r. induction reads as [|[now bs] reads IH]; intros r; [exact I|].
  cbn [Reader.processed].
  destruct (Reader.poll now bs r) as [r1 [uid|]] eqn:P; [|apply IH].
  assert (Hr1 : r1 = {| Reader._last_uid := Some uid; Reader._last_scan_time := now |}).
  { revert P. unfold Reader.poll. destruct bs as [bs|]; [|discriminate].
    destruct (_ && _); [discriminate|]. intros [= <- <-]. reflexivity. }
  specialize (IH r1).
  destruct (Reader.processed reads r1) as [|[t u] rest] eqn:Rest; [exact I|].
  cbn [Reader.spaced fst snd]. split; [|exact IH].
  intros <-.
  pose proof (ReaderFacts.processed_head reads r1 t uid rest Rest) as Hh.
  rewrite Hr1 in Hh. cbn in Hh. apply Hh. reflexivity.
Qed.

Example cooldown_example :
  Reader.processed
    [ (100, Some [Byte.x04; Byte.xa1; Byte.xb2]);
      (101, Some [Byte.x04; Byte.xa1; Byte.xb2]);
      (101, None);
      (102, Some [Byte.x04; Byte.xa1; Byte.xb2]);
      (102, Some [Byte.x04; Byte.xc3]) ]
    Reader.init
  = [(100, "04:A1:B2"); (102, "04:A1:B2"); (102, "04:C3")].
Proof. reflexivity. Qed.

(** ** The kiosk routes *)

Module RouteFacts.

Lemma world_eta w :
  {| store := store w; emitted := emitted w; threads := threads w |} = w.
Proof. destruct w; reflexivity. Qed.

Lemma cnt_app p l1 l2 : Spec.cnt p (l1 ++ l2) = Spec.cnt p l1 + Spec.cnt p l2.
Proof.
  unfold Spec.cnt. rewrite List.filter_app, List.length_app. lia.
Qed.

(** The keys of the ballot are the keys of the tally. *)
Lemma build_options_keys s : List.map fst (App._build_options s) = Db.option_keys s.
Proof.
  unfold App._build_options, Db.option_keys.
  destruct (truthy (Session.option_c s)), (truthy (Session.option_d s)); reflexivity.
Qed.

(** A ballot key is its own upper case. *)
Lemma upper_key s key :
  key ∈ Db.option_keys s → App.upper key = key.
Proof.
  unfold Db.option_keys.
  destruct (truthy (Session.option_c s)), (truthy (Session.option_d s));
    cbn [app]; rewrite ?elem_of_cons, elem_of_nil; intros Hk;
    repeat (destruct Hk as [->|Hk]; [reflexivity|]); contradiction.
Qed.

Lemma mem_elem x l : App.mem x l = true ↔ x ∈ l.
Proof.
  unfold App.mem. rewrite existsb_exists, list_elem_of_In. split.
  - intros (y & Hy & E). apply String.eqb_eq in E. now subst.
  - intros Hx. exists x. split; [assumption|apply String.eqb_refl].
Qed.

Section WithSerializer.
Context `{Token.Serializer}.
Variable SECRET_KEY : string.

(** The ballot page only reads. *)
Lemma vote_reads now clock token w :
  snd (App.vote SECRET_KEY now clock token w) = w.
Proof.
  unfold App.vote, App.verify, bind, query, ret.
  destruct (Token.verify_token SECRET_KEY clock token) as [[data|]|e]; run_world;
    try reflexivity.
  destruct (Db.get_active_session now (store w)) as [a|]; run_world; [|reflexivity].
  destruct (Session.id a =? Token.session_id data); run_world; [|reflexivity].
  destruct (Db.card_has_voted (Token.uid data) (Session.id a) (store w));
    reflexivity.
Qed.

(** A submission by a card that the tracker holds: no row is written, the
    ignored tracker insert uses up one rowid. *)
Lemma submit_vote_duplicate now clock token form_option data vsession w :
  Token.verify_token SECRET_KEY clock token = Return (Some data) →
  Db.get_session (Token.session_id data) (store w) = Some vsession →
  App.mem (App.upper form_option) (List.map fst (App._build_options vsession)) = true →
  Db.card_has_voted (Token.uid data) (Token.session_id data) (store w) = true →
  App.submit_vote SECRET_KEY now clock token form_option w
  = (Return (App.redirect_error "already_voted"),
     {| store :=
          Db.with_vote_tracker (Db.vote_tracker (store w))
            (Db.seq_vote_tracker (store w) + 1) (store w);
        emitted := emitted w; threads := threads w |}).
Proof.
  intros Hv Hs Hopt Hvoted.
  assert (token ≠ "") as Htok.
  { intros ->. rewrite RedeemFacts.verify_token_empty in Hv. discriminate. }
  assert (App.upper form_option ≠ "") as Hne.
  { intros E. rewrite E, RedeemFacts.no_empty_option in Hopt. discriminate. }
  unfold App.submit_vote.
  apply String.eqb_neq in Htok, Hne. rewrite Htok, Hne. cbn [orb].
  unfold App.verify, bind, query, record_vote, ret.
  rewrite Hv. run_world. rewrite Hs, Hopt. run_world.
  rewrite DbFacts.record_vote_duplicate by assumption. run_world.
  reflexivity.
Qed.

End WithSerializer.
End RouteFacts.

(** X14.  [submit_vote] writes a row, emits an event or starts a thread only
    when it answers with the thank-you redirect.  Of the other outcomes,
    'already_voted' leaves every table, the emitted events and the started
    threads as they were and uses up one rowid of [vote_tracker] (the
    AUTOINCREMENT counter advances by one, for the ignored insert); every
    other error redirect, and an exception, leaves the database, the events
    and the threads exactly as before. *)
Theorem submit_vote_writes_on_success `{Token.Serializer} (SECRET_KEY : string)
    (now clock : Z) (token form_option : string) (w : world) :
  (∃ session_id,
     fst (App.submit_vote SECRET_KEY now clock token form_option w)
     = Return (App.redirect_thankyou session_id)) ∨
  (fst (App.submit_vote SECRET_KEY now clock token form_option w)
   = Return (App.redirect_error "already_voted") ∧
   snd (App.submit_vote SECRET_KEY now clock token form_option w)
   = {| store :=
          Db.with_vote_tracker (Db.vote_tracker (store w))
            (Db.seq_vote_tracker (store w) + 1) (store w);
        emitted := emitted w; threads := threads w |} ∧
   Inv.same_rows (store w)
     (store (snd (App.submit_vote SECRET_KEY now clock token form_option w)))) ∨
  (snd (App.submit_vote SECRET_KEY now clock token form_option w) = w ∧
   fst (App.submit_vote SECRET_KEY now clock token form_option w)
   ≠ Return (App.redirect_error "already_voted")).
Proof.
  unfold App.submit_vote.
  destruct (String.eqb token "" || String.eqb (App.upper form_option) "");
    [right; right; split; [reflexivity|discriminate]|].
  unfold App.verify, bind, query, record_vote, sync_to_sheets, emit, ret.
  destruct (Token.verify_token SECRET_KEY clock token) as [[data|]|e]; run_world;
    try (right; right; split; [reflexivity|discriminate]).
  destruct (Db.get_session (Token.session_id data) (store w)) as [vs|]; run_world;
    [|right; right; split; [reflexivity|discriminate]].
  destruct (App.mem _ _); run_world;
    [|right; right; split; [reflexivity|discriminate]].
  destruct (Db.card_has_voted (Token.uid data) (Token.session_id data) (store w))
    eqn:Hv.
  - right; left.
    rewrite DbFacts.record_vote_duplicate by assumption. run_world.
    split; [reflexivity|]. split; [reflexivity|].
    unfold Inv.same_rows; cbn. repeat split; lia.
  - destruct (Db.fk_session (Token.session_id data) (store w)) eqn:Hfk.
    + left. exists (Token.session_id data).
      rewrite (DbFacts.record_vote_fresh now _ _ (App.upper form_option) _ Hfk Hv).
      run_world. destruct (bool_decide _); reflexivity.
    + right; right.
      unfold Db.record_vote, Db.insert_or_ignore_vote_tracker.
      rewrite Hv, Hfk. cbn [negb]. run_world.
      split; [apply RouteFacts.world_eta|discriminate].
Qed.

(** X15.  A successful submission moves the tally by exactly one: the total
    of the session grows by one, the count of the chosen option (the upper
    case of the form value) grows by one and every other entry of
    [get_vote_counts] is as before, and the [vote_update] event carries the
    new total. *)
Theorem submit_vote_tally `{Token.Serializer} (SECRET_KEY : string)
    (now clock : Z) (token form_option : string) (data : Token.payload)
    (vsession : Session.row) (w : world) :
  Token.verify_token SECRET_KEY clock token = Return (Some data) →
  Db.get_session (Token.session_id data) (store w) = Some vsession →
  App.mem (App.upper form_option) (List.map fst (App._build_options vsession)) = true →
  Db.card_has_voted (Token.uid data) (Token.session_id data) (store w) = false →
  ∃ w',
    App.submit_vote SECRET_KEY now clock token form_option w
      = (Return (App.redirect_thankyou (Token.session_id data)), w') ∧
    Db.get_total_votes (Token.session_id data) (store w')
      = Db.get_total_votes (Token.session_id data) (store w) + 1 ∧
    Db.get_vote_counts (Token.session_id data) (store w')
      = List.map
          (fun item =>
             (fst item,
              {| Db.label := Db.label (snd item);
                 Db.count :=
                   Db.count (snd item)
                   + (if String.eqb (App.upper form_option) (fst item) then 1 else 0) |}))
          (Db.get_vote_counts (Token.session_id data) (store w)) ∧
    App.upper form_option
      ∈ List.map fst (Db.get_vote_counts (Token.session_id data) (store w')) ∧
    emitted w' =
      emitted w ++
      [(vote_update (Token.session_id data)
          (Db.get_total_votes (Token.session_id data) (store w) + 1), kiosk)].
Proof.
  intros Hv Hs Hopt Hnv.
  destruct (RedeemFacts.submit_vote_commits SECRET_KEY now clock token
              form_option data vsession w Hv Hs Hopt Hnv) as (d' & Hrec & Hsub).
  rewrite (DbFacts.record_vote_fresh now _ _ (App.upper form_option) _
             (RedeemFacts.get_session_fk _ _ _ Hs) Hnv) in Hrec.
  injection Hrec as <-.
  eexists. split; [exact Hsub|]. cbn [store emitted].
  set (sid := Token.session_id data) in *.
  set (v := {| Vote.id := Db.seq_votes (store w) + 1; Vote.session_id := sid;
               Vote.voted_at := now; Vote.option := App.upper form_option |}).
  assert (Htot : ∀ d0, Db.votes d0 = Db.votes (store w) ++ [v] →
                       Db.get_total_votes sid d0 = Db.get_total_votes sid (store w) + 1).
  { intros d0 Hd0. unfold Db.get_total_votes. rewrite Hd0.
    fold (Spec.cnt (Db.of_session sid) (Db.votes (store w) ++ [v])).
    rewrite RouteFacts.cnt_app. unfold Spec.cnt at 2. cbn [List.filter].
    unfold Db.of_session at 2. cbn [Vote.session_id v]. rewrite Z.eqb_refl.
    reflexivity. }
  split; [apply Htot; reflexivity|].
  assert (Hkeys : List.map fst
                    (Db.get_vote_counts sid
                       (Db.with_votes (Db.votes (store w) ++ [v])
                          (Db.seq_votes (store w) + 1)
                          (Db.with_vote_tracker
                             (Db.vote_tracker (store w) ++
                              [{| Tracker.id := Db.seq_vote_tracker (store w) + 1;
                                  Tracker.session_id := sid;
                                  Tracker.card_uid := Token.uid data;
                                  Tracker.voted_at := now |}])
                             (Db.seq_vote_tracker (store w) + 1) (store w))))
                  = Db.option_keys vsession).
  { unfold Db.get_vote_counts.
    change (Db.get_session sid (Db.with_votes _ _ _)) with (Db.get_session sid (store w)).
    rewrite Hs, List.map_map. apply List.map_id. }
  split; [|split].
  - unfold Db.get_vote_counts.
    change (Db.get_session sid (Db.with_votes _ _ _)) with (Db.get_session sid (store w)).
    rewrite Hs, List.map_map. apply List.map_ext. intros k. cbn [fst snd Db.label Db.count].
    f_equal. f_equal.
    rewrite !TallyFacts.counts_raw_lookup. cbn [Db.votes Db.with_votes].
    rewrite RouteFacts.cnt_app. f_equal.
    unfold Spec.cnt. cbn [List.filter]. unfold Db.of_session.
    cbn [Vote.session_id Vote.option v]. rewrite Z.eqb_refl. cbn [andb].
    destruct (String.eqb (App.upper form_option) k); reflexivity.
  - rewrite Hkeys, <- RouteFacts.build_options_keys.
    now apply RouteFacts.mem_elem.
  - rewrite Htot by reflexivity. reflexivity.
Qed.

Lemma submit_vote_tally_witness :
  ∃ w',
    App.submit_vote (H := Plain.serializer) "k" 950 950 stale_token "b" kiosk_world
      = (Return (App.redirect_thankyou 1), w') ∧
    Db.get_total_votes 1 (store w') = Db.get_total_votes 1 demo_db + 1 ∧
    Db.get_vote_counts 1 (store w')
      = List.map
          (fun item =>
             (fst item,
              {| Db.label := Db.label (snd item);
                 Db.count :=
                   Db.count (snd item)
                   + (if String.eqb (App.upper "b") (fst item) then 1 else 0) |}))
          (Db.get_vote_counts 1 demo_db) ∧
    App.upper "b" ∈ List.map fst (Db.get_vote_counts 1 (store w')) ∧
    emitted w' =
      [] ++ [(vote_update 1 (Db.get_total_votes 1 demo_db + 1), kiosk)].
Proof.
  refine (submit_vote_tally (H := Plain.serializer) "k" 950 950
            stale_token "b" {| Token.uid := "04:A1:B2"; Token.session_id := 1 |}
            {| Session.id := 1; Session.question := "Lunch?";
               Session.option_a := "Yes"; Session.option_b := "No";
               Session.option_c := None; Session.option_d := None;
               Session.start_time := Some 0; Session.end_time := Some 1000;
               Session.created_at := 10; Session.is_active := 1 |}
            kiosk_world _ _ _ _);
    vm_compute; reflexivity.
Defined.

(** X16.  The ballot page, over every history: [vote] never changes the
    database, the events or the threads; and when it renders the ballot,
    the token verifies for the session that is active now, the card has not
    voted in it, the options shown are those of that session, and
    submitting any of the shown keys with the same token at that moment
    ends on the thank-you page. *)
Theorem vote_then_submit `{Token.Serializer} (SECRET_KEY : string)
    (h : list (Z * Db.op)) (now clock : Z) (token : string) (w : world) :
  store w = Db.run h →
  snd (App.vote SECRET_KEY now clock token w) = w ∧
  ∀ active options token',
    fst (App.vote SECRET_KEY now clock token w)
      = Return (App.render_vote active options token') →
    token' = token ∧ options = App._build_options active ∧
    Db.get_active_session now (store w) = Some active ∧
    (∃ data,
       Token.verify_token SECRET_KEY clock token = Return (Some data) ∧
       Token.session_id data = Session.id active ∧
       Db.card_has_voted (Token.uid data) (Session.id active) (store w) = false) ∧
    ∀ key, key ∈ List.map fst options →
      fst (App.submit_vote SECRET_KEY now clock token key w)
      = Return (App.redirect_thankyou (Session.id active)).
Proof.
  intros Hw. split; [apply RouteFacts.vote_reads|].
  intros active options token'.
  unfold App.vote, App.verify, bind, query, ret.
  destruct (Token.verify_token SECRET_KEY clock token) as [[data|]|e] eqn:Hv;
    run_world; try discriminate.
  destruct (Db.get_active_session now (store w)) as [a|] eqn:Ha; run_world;
    [|discriminate].
  destruct (Z.eqb_spec (Session.id a) (Token.session_id data)) as [Hid|Hid];
    run_world; [|discriminate].
  destruct (Db.card_has_voted (Token.uid data) (Session.id a) (store w)) eqn:Hnv;
    [discriminate|].
  intros [= <- <- <-].
  split; [reflexivity|]. split; [reflexivity|]. split; [reflexivity|].
  split; [exists data; auto|].
  intros key Hkey.
  assert (Hs : Db.get_session (Token.session_id data) (store w) = Some a).
  { rewrite <- Hid. apply SessionMore.get_session_stored.
    - rewrite Hw. apply SessionFacts.run_sessions_ok.
    - now apply (SessionMore.get_active_session_stored now). }
  rewrite RouteFacts.build_options_keys in Hkey.
  assert (Hopt : App.mem (App.upper key) (List.map fst (App._build_options a)) = true).
  { rewrite (RouteFacts.upper_key a key Hkey), RouteFacts.build_options_keys.
    now apply RouteFacts.mem_elem. }
  rewrite Hid in Hnv.
  destruct (RedeemFacts.submit_vote_commits SECRET_KEY now clock token key data a w
              Hv Hs Hopt Hnv) as (d' & _ & Hsub).
  rewrite Hsub, Hid. reflexivity.
Qed.

Lemma vote_then_submit_witness :
  snd (App.vote (H := Plain.serializer) "k" 950 950 stale_token kiosk_world)
    = kiosk_world ∧
  ∀ active options token',
    fst (App.vote (H := Plain.serializer) "k" 950 950 stale_token kiosk_world)
      = Return (App.render_vote active options token') →
    token' = stale_token ∧ options = App._build_options active ∧
    Db.get_active_session 950 (store kiosk_world) = Some active ∧
    (∃ data,
       Token.verify_token (H := Plain.serializer) "k" 950 stale_token
         = Return (Some data) ∧
       Token.session_id data = Session.id active ∧
       Db.card_has_voted (Token.uid data) (Session.id active) (store kiosk_world)
         = false) ∧
    ∀ key, key ∈ List.map fst options →
      fst (App.submit_vote (H := Plain.serializer) "k" 950 950 stale_token key
             kiosk_world)
      = Return (App.redirect_thankyou (Session.id active)).
Proof.
  apply (vote_then_submit (H := Plain.serializer) "k"
           [ (0, Db.InitDb);
             (10, Db.CreateSession "Lunch?" "Yes" "No" None None (Some 0) (Some 1000));
             (20, Db.EnrollCard "04:A1:B2" (Some "Ada")) ]
           950 950 stale_token kiosk_world).
  reflexivity.
Defined.

(** X17.  One card, one vote, by every route.  When a token verifies for
    the active session and a registered card that has not voted, a
    submission with a valid option succeeds; from then on, at that moment,
    a second submission with any valid option answers 'already_voted' and
    writes no row, emits nothing and starts no thread (the ignored tracker
    insert uses up one rowid, so the counter of [vote_tracker] is one
    higher and the tables and the tally are as they were), the ballot page
    answers 'already_voted' and changes nothing, and a new scan of the card
    is rejected with the already-voted message without touching the
    database. *)
Theorem one_card_one_vote `{Token.Serializer} (SECRET_KEY : string)
    (now clock : Z) (token form_option : string) (data : Token.payload)
    (active : Session.row) (w : world) :
  Token.verify_token SECRET_KEY clock token = Return (Some data) →
  Db.get_active_session now (store w) = Some active →
  Session.id active = Token.session_id data →
  Db.get_session (Token.session_id data) (store w) = Some active →
  App.mem (App.upper form_option) (List.map fst (App._build_options active)) = true →
  Db.card_is_registered (Token.uid data) (store w) = true →
  Db.card_has_voted (Token.uid data) (Token.session_id data) (store w) = false →
  ∃ w1,
    App.submit_vote SECRET_KEY now clock token form_option w
      = (Return (App.redirect_thankyou (Token.session_id data)), w1) ∧
    (∀ option2,
       App.mem (App.upper option2) (List.map fst (App._build_options active)) = true →
       ∃ w1',
         App.submit_vote SECRET_KEY now clock token option2 w1
         = (Return (App.redirect_error "already_voted"), w1') ∧
         store w1' =
           Db.with_vote_tracker (Db.vote_tracker (store w1))
             (Db.seq_vote_tracker (store w1) + 1) (store w1) ∧
         Inv.same_rows (store w1) (store w1') ∧
         Db.get_vote_counts (Token.session_id data) (store w1')
         = Db.get_vote_counts (Token.session_id data) (store w1) ∧
         emitted w1' = emitted w1 ∧ threads w1' = threads w1) ∧
    App.vote SECRET_KEY now clock token w1
      = (Return (App.redirect_error "already_voted"), w1) ∧
    ∃ w2,
      Nfc._process_scan SECRET_KEY now clock (Token.uid data) w1 = (Return tt, w2) ∧
      store w2 = store w1 ∧
      emitted w2 =
        emitted w1 ++
        [ (card_scan_raw (Token.uid data)
             (Db.card_exists (Token.uid data) (store w)), admin);
          (card_error "You have already voted this week!", kiosk) ].
Proof.
  intros Hv Ha Hid Hs Hopt Hreg Hnv.
  destruct (RedeemFacts.submit_vote_commits SECRET_KEY now clock token
              form_option data active w Hv Hs Hopt Hnv) as (d' & Hrec & Hsub).
  rewrite (DbFacts.record_vote_fresh now _ _ (App.upper form_option) _
             (RedeemFacts.get_session_fk _ _ _ Hs) Hnv) in Hrec.
  injection Hrec as <-.
  eexists. split; [exact Hsub|].
  match goal with
  | |- context [App.vote _ _ _ _ ?x] => set (w1 := x) in *
  end.
  assert (Hvoted : Db.card_has_voted (Token.uid data) (Token.session_id data)
                     (store w1) = true).
  { unfold Db.card_has_voted; cbn [store w1 Db.vote_tracker Db.with_votes
                                     Db.with_vote_tracker].
    rewrite existsb_app; cbn [existsb].
    rewrite DbFacts.tracks_refl. apply orb_true_iff; right; reflexivity. }
  assert (Hs1 : Db.get_session (Token.session_id data) (store w1) = Some active)
    by exact Hs.
  assert (Ha1 : Db.get_active_session now (store w1) = Some active) by exact Ha.
  assert (Hreg1 : Db.card_is_registered (Token.uid data) (store w1) = true)
    by exact Hreg.
  assert (Hex1 : Db.card_exists (Token.uid data) (store w1)
                 = Db.card_exists (Token.uid data) (store w)) by reflexivity.
  clearbody w1.
  split; [|split].
  - intros option2 Hopt2. eexists.
    split; [now apply (RouteFacts.submit_vote_duplicate SECRET_KEY now clock
                         token option2 data active w1)|].
    cbn [store emitted threads].
    split; [reflexivity|]. split; [|repeat split].
    unfold Inv.same_rows; cbn. repeat split; lia.
  - unfold App.vote, App.verify, bind, query, ret.
    rewrite Hv. run_world. rewrite Ha1. run_world.
    rewrite Hid, Z.eqb_refl. run_world. rewrite Hvoted. reflexivity.
  - unfold Nfc._process_scan, bind, query, emit. run_world.
    rewrite Ha1. run_world. rewrite Hreg1. run_world.
    rewrite Hid, Hvoted. run_world.
    eexists. split; [reflexivity|]. run_world. split; [reflexivity|].
    rewrite Hex1, <- app_assoc. reflexivity.
Qed.

Lemma one_card_one_vote_witness :
  ∃ w1,
    App.submit_vote (H := Plain.serializer) "k" 950 950 stale_token "a" kiosk_world
      = (Return (App.redirect_thankyou 1), w1) ∧
    (∀ option2,
       App.mem (App.upper option2)
         (List.map fst
            (App._build_options
               {| Session.id := 1; Session.question := "Lunch?";
                  Session.option_a := "Yes"; Session.option_b := "No";
                  Session.option_c := None; Session.option_d := None;
                  Session.start_time := Some 0; Session.end_time := Some 1000;
                  Session.created_at := 10; Session.is_active := 1 |})) = true →
       ∃ w1',
         App.submit_vote (H := Plain.serializer) "k" 950 950 stale_token option2 w1
         = (Return (App.redirect_error "already_voted"), w1') ∧
         store w1' =
           Db.with_vote_tracker (Db.vote_tracker (store w1))
             (Db.seq_vote_tracker (store w1) + 1) (store w1) ∧
         Inv.same_rows (store w1) (store w1') ∧
         Db.get_vote_counts 1 (store w1') = Db.get_vote_counts 1 (store w1) ∧
         emitted w1' = emitted w1 ∧ threads w1' = threads w1) ∧
    App.vote (H := Plain.serializer) "k" 950 950 stale_token w1
      = (Return (App.redirect_error "already_voted"), w1) ∧
    ∃ w2,
      Nfc._process_scan (H := Plain.serializer) "k" 950 950 "04:A1:B2" w1
        = (Return tt, w2) ∧
      store w2 = store w1 ∧
      emitted w2 =
        emitted w1 ++
        [ (card_scan_raw "04:A1:B2" (Db.card_exists "04:A1:B2" demo_db), admin);
          (card_error "You have already voted this week!", kiosk) ].
Proof.
  refine (one_card_one_vote (H := Plain.serializer) "k" 950 950 stale_token "a"
            {| Token.uid := "04:A1:B2"; Token.session_id := 1 |}
            {| Session.id := 1; Session.question := "Lunch?";
               Session.option_a := "Yes"; Session.option_b := "No";
               Session.option_c := None; Session.option_d := None;
               Session.start_time := Some 0; Session.end_time := Some 1000;
               Session.created_at := 10; Session.is_active := 1 |}
            kiosk_world _ _ _ _ _ _ _);
    vm_compute; reflexivity.
Defined.

(** ** More on the sheet sync *)

(** X18.  [_do_sync] reports success only when a sync really ran: the
    client library is there, syncing is enabled, a spreadsheet id is set,
    the credentials file exists and the session is stored; the total it
    reports is the sum of the counts of [get_vote_counts]; and an automatic
    call that succeeds was at least 30 seconds after the last one and has
    stamped its time. *)
Theorem sync_success_means {R : Type} `{Sheets.Service R} (SHEETS_AVAILABLE : bool)
    (CREDENTIALS_PATH : string) (format_percentage : Z → Z → string)
    (now : Z) (credentials_exist : bool) (d : Db.db) (session_id : Z)
    (force : bool) (st st' : Sheets.state R) (total : Z) :
  Sheets._do_sync SHEETS_AVAILABLE CREDENTIALS_PATH format_percentage
    now credentials_exist d session_id force st = (Return (Sheets.Success total), st') →
  SHEETS_AVAILABLE = true ∧
  Db.get_setting "sheets_enabled" d = Some "1" ∧
  default "" (Db.get_setting "sheets_spreadsheet_id" d) ≠ "" ∧
  credentials_exist = true ∧
  is_Some (Db.get_session session_id d) ∧
  total = Sheets.sum_counts (Db.get_vote_counts session_id d) ∧
  (force = false →
     Config.SHEETS_SYNC_DEBOUNCE <= now - Sheets._last_sync_time st ∧
     Sheets._last_sync_time st' = now).
Proof.
  unfold Sheets._do_sync.
  destruct SHEETS_AVAILABLE; cbn [negb]; [|discriminate].
  destruct (negb force && (now - Sheets._last_sync_time st <? Config.SHEETS_SYNC_DEBOUNCE))
    eqn:Hgate; [discriminate|].
  destruct (decide (Db.get_setting "sheets_enabled" d = Some "1")) as [He|He];
    [rewrite bool_decide_true by assumption
    |rewrite bool_decide_false by assumption; discriminate].
  cbn [negb].
  destruct (String.eqb_spec (default "" (Db.get_setting "sheets_spreadsheet_id" d)) "")
    as [Hi|Hi]; [discriminate|].
  destruct credentials_exist; cbn [negb]; [|discriminate].
  destruct (Sheets.sync_body _ _ _ _ _ _) as [[t|e] st2] eqn:Hbody; [|discriminate].
  intros [= <- <-].
  destruct (SyncMore.sync_body_returns _ _ _ _ _ _ _ _ Hbody) as [Ht Hs].
  do 4 (split; [auto|]). split; [exact Hs|]. split; [exact Ht|].
  intros ->. cbn [negb andb] in Hgate. apply Z.ltb_ge in Hgate.
  split; [exact Hgate|].
  destruct (SyncFacts.quiet_sync_body CREDENTIALS_PATH format_percentage d session_id
              (default "" (Db.get_setting "sheets_spreadsheet_id" d))
              (Sheets.set_last_sync_time now st)) as [Hq _].
  cbn [negb] in Hbody. rewrite Hbody in Hq. exact Hq.
Qed.

Lemma sync_success_means_witness :
  true = true ∧
  Db.get_setting "sheets_enabled"
    (Db.set_setting "sheets_spreadsheet_id" "sheet-1"
       (Db.set_setting "sheets_enabled" "1" demo_db)) = Some "1" ∧
  default ""
    (Db.get_setting "sheets_spreadsheet_id"
       (Db.set_setting "sheets_spreadsheet_id" "sheet-1"
          (Db.set_setting "sheets_enabled" "1" demo_db))) ≠ "" ∧
  true = true ∧
  is_Some (Db.get_session 1
             (Db.set_setting "sheets_spreadsheet_id" "sheet-1"
                (Db.set_setting "sheets_enabled" "1" demo_db))) ∧
  0 = Sheets.sum_counts
        (Db.get_vote_counts 1
           (Db.set_setting "sheets_spreadsheet_id" "sheet-1"
              (Db.set_setting "sheets_enabled" "1" demo_db))) ∧
  (false = false →
     Config.SHEETS_SYNC_DEBOUNCE <= 2000 - Sheets._last_sync_time idle ∧
     Sheets._last_sync_time
       (snd (Sheets._do_sync (H := online) true "cred.json" percent_stub 2000 true
               (Db.set_setting "sheets_spreadsheet_id" "sheet-1"
                  (Db.set_setting "sheets_enabled" "1" demo_db)) 1 false idle))
     = 2000).
Proof.
  apply (sync_success_means (H := online) true "cred.json" percent_stub 2000 true
           (Db.set_setting "sheets_spreadsheet_id" "sheet-1"
              (Db.set_setting "sheets_enabled" "1" demo_db)) 1 false idle).
  vm_compute. reflexivity.
Defined.

(** X19.  A forced sync for a session id that is not stored, against a
    service that accepts every call: it fails with the text of the
    TypeError raised by [session['question']], but only after it has
    opened the spreadsheet and cleared the Summary sheet, which is left
    empty. *)
Theorem sync_unknown_session_clears {R : Type} `{Sheets.Service R}
    (CREDENTIALS_PATH : string) (format_percentage : Z → Z → string)
    (now : Z) (d : Db.db) (session_id : Z) (spreadsheet_id : string)
    (st : Sheets.state R) :
  Inv.accepts R →
  Db.get_setting "sheets_enabled" d = Some "1" →
  Db.get_setting "sheets_spreadsheet_id" d = Some spreadsheet_id →
  spreadsheet_id ≠ "" →
  Db.get_session session_id d = None →
  ∃ st',
    Sheets.sync_to_sheets_blocking true CREDENTIALS_PATH format_percentage
      now true d session_id st
    = (Return (Sheets.Failure "'NoneType' object is not subscriptable"), st') ∧
    Sheets.calls st' =
      Sheets.calls st ++
      [ Sheets.authorize CREDENTIALS_PATH; Sheets.open_by_key spreadsheet_id;
        Sheets.worksheet "Summary"; Sheets.clear "Summary" ].
Proof.
  intros Hacc He Hi Hne Hs.
  unfold Sheets.sync_to_sheets_blocking, Sheets._do_sync. cbn [negb andb].
  rewrite He, Hi. rewrite bool_decide_true by reflexivity. cbn [negb from_option id].
  apply String.eqb_neq in Hne. rewrite Hne.
  unfold Sheets.sync_body, bind, Sheets.worksheet_or_add, Sheets.subscript_question.
  rewrite Hs.
  repeat (rewrite SyncMore.remote_call_accepted by assumption; cbv beta iota).
  eexists. split; [reflexivity|]. cbn [Sheets.calls Sheets.set_last_sync_time].
  rewrite <- !app_assoc. reflexivity.
Qed.

Lemma sync_unknown_session_clears_witness :
  ∃ st',
    Sheets.sync_to_sheets_blocking (H := online) true "cred.json" percent_stub
      2000 true
      (Db.set_setting "sheets_spreadsheet_id" "sheet-1"
         (Db.set_setting "sheets_enabled" "1" demo_db)) 7 idle
    = (Return (Sheets.Failure "'NoneType' object is not subscriptable"), st') ∧
    Sheets.calls st' =
      Sheets.calls idle ++
      [ Sheets.authorize "cred.json"; Sheets.open_by_key "sheet-1";
        Sheets.worksheet "Summary"; Sheets.clear "Summary" ].
Proof.
  apply (sync_unknown_session_clears (H := online) "cred.json" percent_stub 2000
           (Db.set_setting "sheets_spreadsheet_id" "sheet-1"
              (Db.set_setting "sheets_enabled" "1" demo_db)) 7 "sheet-1" idle).
  - intros r c. reflexivity.
  - reflexivity.
  - reflexivity.
  - discriminate.
  - reflexivity.
Defined.

(** ** More on the token *)

(** X20.  A token text with no separator, or with a single one, is never
    accepted and never makes [verify_token] raise: the answer is None,
    whatever the key, the clock and the signature check say. *)
Theorem verify_token_malformed `{Token.Serializer} (SECRET_KEY : string)
    (now : Z) (token : string) :
  (Token.contains_sep token = false ∨
   ∃ a b, token = a +:+ String Token.sep b ∧
          Token.contains_sep a = false ∧ Token.contains_sep b = false) →
  Token.verify_token SECRET_KEY now token = Return None.
Proof.
  intros [Hno|(a & b & -> & Ha & Hb)];
    unfold Token.verify_token, Token.loads, Token.unsign, Token.signer_unsign.
  - rewrite (TokenFacts.rsplit_no_sep _ Hno). reflexivity.
  - rewrite (TokenFacts.rsplit_app a b Hb).
    destruct (Token.verify_signature SECRET_KEY a b); cbn [Token.payload_or_empty];
      rewrite (TokenFacts.rsplit_no_sep _ Ha); reflexivity.
Qed.

Lemma verify_token_malformed_witness :
  Token.verify_token (H := Plain.serializer) "k" 7 "garbage.1111" = Return None.
Proof.
  apply (verify_token_malformed (H := Plain.serializer) "k" 7 "garbage.1111").
  right. exists "garbage", "1111". repeat split; reflexivity.
Defined.

(** X22.  In every history no two card rows share a UID, whatever was
    enrolled, re-enrolled or deactivated: a UID that exists has exactly one
    row, and card ids are distinct. *)
Theorem cards_unique (h : list (Z * Db.op)) (uid : string) :
  NoDup (List.map Card.uid (Db.cards (Db.run h))) ∧
  NoDup (List.map Card.id (Db.cards (Db.run h))) ∧
  List.length
    (List.filter (fun c => String.eqb (Card.uid c) uid) (Db.cards (Db.run h)))
  = (if Db.card_exists uid (Db.run h) then 1%nat else 0%nat).
Proof.
  destruct (CardFacts.run_cards_ok h) as (Hnd & Hs & _).
  split; [exact Hnd|]. split.
  - clear Hnd. induction Hs as [|a l Hs IH Ha]; cbn [List.map]; constructor;
      [|assumption].
    intros Hin. apply list_elem_of_In, in_map_iff in Hin as (x & Hx & Hxin).
    rewrite Forall_forall in Ha. specialize (Ha x (proj2 (list_elem_of_In _ _) Hxin)).
    unfold Inv.card_lt in Ha. lia.
  - unfold Db.card_exists. clear Hs.
    induction (Db.cards (Db.run h)) as [|c l IH]; [reflexivity|].
    cbn [List.map] in Hnd. apply NoDup_cons in Hnd as [Hnotin Hnd].
    cbn [List.filter existsb].
    destruct (String.eqb_spec (Card.uid c) uid) as [Hc|Hc]; [|apply IH, Hnd].
    cbn [orb List.length]. f_equal.
    rewrite (DbFacts.filter_none (fun c => String.eqb (Card.uid c) uid) l);
      [reflexivity|].
    destruct (existsb _ l) eqn:E; [|reflexivity].
    exfalso. apply Hnotin. apply existsb_exists in E as (x & Hx & Hx').
    apply String.eqb_eq in Hx'. apply list_elem_of_In, in_map_iff.
    exists x. split; [congruence|assumption].
Qed.
